(** * SEO-Blog-Creator: a shallow embedding of the aggregation pipeline

    The development follows the Python sources:

    - [analyzer.py]: SERP extraction, scraping with retries, content
      analysis, context assembly and the formatting helpers;
    - [serp.py]: the search fetcher with its retry loop;
    - [main_streamlit.py]: research-excerpt extraction, blog generation
      and the part of [main] that runs after the outline and the research
      report have been produced.

    Conventions.  A Python [str] is a Rocq [string]; its characters are the
    code points 0..255.  Python values that travel through dictionaries
    (JSON from the providers, profiles, analyses) are [pyval]s; a [dict]
    with string keys is an insertion-ordered association list.  A Python
    call that may raise returns a [result]; every exception class used by
    the sources derives from [Exception].  Code that talks to the network,
    sleeps or draws on the page runs in the [io] monad: state passing over
    a [world] plus exceptions.  External collaborators (HTML parser,
    scraping client, HTTP client, model clients, clock) are section
    variables or explicit arguments. *)

From Stdlib Require Import ZArith Lia Ascii.
From stdpp Require Import base option list sorting strings pretty.

Local Open Scope Z_scope.
Local Open Scope string_scope.
Local Open Scope list_scope.

(** ** Exceptions and results *)

Inductive exn_class :=
  | TypeError | AttributeError | KeyError | ValueError
  | RequestException | Exception.

Record exn := mk_exn { exn_kind : exn_class; exn_msg : string }.

Inductive result (A : Type) :=
  | Ok (a : A)
  | Raise (e : exn).
Arguments Ok {A} a.
Arguments Raise {A} e.

#[global] Instance result_ret : MRet result := fun A a => Ok a.
#[global] Instance result_bind : MBind result := fun A B f r =>
  match r with Ok a => f a | Raise e => Raise e end.
#[global] Instance result_fmap : FMap result := fun A B f r =>
  match r with Ok a => Ok (f a) | Raise e => Raise e end.

(** [try: body except Exception as e: handler e]. *)
Definition try_except {A} (body : result A) (handler : exn -> result A) : result A :=
  match body with Ok a => Ok a | Raise e => handler e end.

(** [is_request_exception]: the classes caught by
    [except requests.exceptions.RequestException]. *)
Definition is_request_exception (c : exn_class) : bool :=
  match c with RequestException => true | _ => false end.

(** ** Python values *)

#[warnings="-register-all"]
Inductive pyval :=
  | PNone
  | PBool (b : bool)
  | PInt (n : Z)
  | PFloat (num den : Z)   (* the float obtained from the true division num / den *)
  | PStr (s : string)
  | PList (l : list pyval)
  | PDict (d : list (string * pyval)).

Definition py_type_name (v : pyval) : string :=
  match v with
  | PNone => "NoneType" | PBool _ => "bool" | PInt _ => "int"
  | PFloat _ _ => "float" | PStr _ => "str" | PList _ => "list"
  | PDict _ => "dict"
  end.

(** [str()] of floats, lists and dicts is the interpreter's business; it is
    taken as given. *)
Class Repr := py_repr : pyval -> string.

(** What an f-string field [{v}] prints. *)
Definition py_str {R : Repr} (v : pyval) : string :=
  match v with
  | PStr s => s
  | PInt n => pretty n
  | PNone => "None"
  | PBool true => "True"
  | PBool false => "False"
  | _ => py_repr v
  end.

Fixpoint dict_lookup (d : list (string * pyval)) (k : string) : option pyval :=
  match d with
  | [] => None
  | (k', v) :: d' => if decide (k' = k) then Some v else dict_lookup d' k
  end.

(** [v.get(k, dflt)]. *)
Definition py_get (v : pyval) (k : string) (dflt : pyval) : result pyval :=
  match v with
  | PDict d => Ok (default dflt (dict_lookup d k))
  | _ => Raise (mk_exn AttributeError
                  ("'" +:+ py_type_name v +:+ "' object has no attribute 'get'"))
  end.

Definition chars (s : string) : list pyval :=
  (fun c => PStr (String c EmptyString)) <$> String.list_ascii_of_string s.

(** The elements [for x in v] visits. *)
Definition py_iter (v : pyval) : result (list pyval) :=
  match v with
  | PList l => Ok l
  | PStr s => Ok (chars s)
  | PDict d => Ok ((fun kv => PStr kv.1) <$> d)
  | _ => Raise (mk_exn TypeError
                  ("'" +:+ py_type_name v +:+ "' object is not iterable"))
  end.

(** [v[:n]]. *)
Definition py_slice_to (n : nat) (v : pyval) : result pyval :=
  match v with
  | PList l => Ok (PList (take n l))
  | PStr s => Ok (PStr (String.string_of_list_ascii (take n (String.list_ascii_of_string s))))
  | PDict _ => Raise (mk_exn TypeError "unhashable type: 'slice'")
  | _ => Raise (mk_exn TypeError
                  ("'" +:+ py_type_name v +:+ "' object is not subscriptable"))
  end.

Fixpoint join (sep : string) (l : list string) : string :=
  match l with
  | [] => ""
  | [s] => s
  | s :: l' => s +:+ sep +:+ join sep l'
  end.

Fixpoint all_str (l : list pyval) : result (list string) :=
  match l with
  | [] => Ok []
  | PStr s :: l' => (fun r => s :: r) <$> all_str l'
  | v :: _ => Raise (mk_exn TypeError
                       ("sequence item: expected str instance, "
                          +:+ py_type_name v +:+ " found"))
  end.

(** [sep.join(v)]. *)
Definition py_join (sep : string) (v : pyval) : result string :=
  l ← py_iter v; ss ← all_str l; Ok (join sep ss).

Fixpoint mapM {A B} (f : A -> result B) (l : list A) : result (list B) :=
  match l with
  | [] => Ok []
  | a :: l' => b ← f a; bs ← mapM f l'; Ok (b :: bs)
  end.

(** ** SERP extraction ([analyzer.py], lines 22-55) *)

Definition extract_organic_results (data : pyval) : result pyval :=
  lst ← py_get data "organic_results" (PList []);
  articles ← py_iter lst;
  results ← mapM (fun article =>
    title ← py_get article "title" (PStr "");
    link ← py_get article "link" (PStr "");
    date ← py_get article "date" (PStr "");
    snippet ← py_get article "snippet" (PStr "");
    position ← py_get article "position" (PStr "");
    displayed_link ← py_get article "displayed_link" (PStr "");
    Ok (PDict [("title", title); ("link", link); ("date", date);
               ("snippet", snippet); ("position", position);
               ("displayed_link", displayed_link)])) articles;
  Ok (PList results).

Definition extract_paa_questions (data : pyval) : result pyval :=
  lst ← py_get data "related_questions" (PList []);
  entries ← py_iter lst;
  questions ← mapM (fun question =>
    q ← py_get question "question" (PStr "");
    snippet ← py_get question "snippet" (PStr "");
    title ← py_get question "title" (PStr "");
    Ok (PDict [("question", q); ("snippet", snippet); ("title", title)])) entries;
  Ok (PList questions).

Definition extract_related_searches (data : pyval) : result pyval :=
  lst ← py_get data "related_searches" (PList []);
  entries ← py_iter lst;
  searches ← mapM (fun search =>
    q ← py_get search "query" (PStr "");
    Ok (PDict [("query", q)])) entries;
  Ok (PList searches).

Definition extract_serp_data (data : pyval) : result pyval :=
  organic ← extract_organic_results data;
  paa ← extract_paa_questions data;
  related ← extract_related_searches data;
  params ← py_get data "search_parameters" (PDict []);
  Ok (PDict [("organic_results", organic); ("paa_questions", paa);
             ("related_searches", related); ("search_parameters", params)]).

(** ** Text primitives

    Strings are processed as lists of characters.  The character classes
    are those of Python's Unicode database restricted to code points below
    256: [is_space] is [str.isspace] (also the regex class [\s]), [is_word]
    is the regex class [\w] (alphanumeric or underscore). *)

Definition code (c : ascii) : nat := Ascii.nat_of_ascii c.

Definition in_range (lo hi : nat) (c : ascii) : bool :=
  (lo <=? code c)%nat && (code c <=? hi)%nat.

Definition is_space (c : ascii) : bool :=
  in_range 9 13 c || in_range 28 32 c || in_range 133 133 c || in_range 160 160 c.

Definition is_word (c : ascii) : bool :=
  in_range 48 57 c || in_range 65 90 c || in_range 95 95 c || in_range 97 122 c
  || in_range 170 170 c || in_range 178 179 c || in_range 181 181 c
  || in_range 185 186 c || in_range 188 190 c
  || in_range 192 214 c || in_range 216 246 c || in_range 248 255 c.

Definition lower_char (c : ascii) : ascii :=
  if in_range 65 90 c || in_range 192 214 c || in_range 216 222 c
  then Ascii.ascii_of_nat (code c + 32) else c.

Abbreviation text := (list ascii).

Definition to_text (s : string) : text := String.list_ascii_of_string s.
Definition of_text (t : text) : string := String.string_of_list_ascii t.

(** [s.lower()] *)
Definition py_lower (s : string) : string := of_text (lower_char <$> to_text s).

Fixpoint take_while {A} (p : A -> bool) (l : list A) : list A :=
  match l with
  | [] => []
  | a :: l' => if p a then a :: take_while p l' else []
  end.

Fixpoint drop_while {A} (p : A -> bool) (l : list A) : list A :=
  match l with
  | [] => []
  | a :: l' => if p a then drop_while p l' else l
  end.

(** [s.strip()] *)
Definition strip_text (t : text) : text :=
  reverse (drop_while is_space (reverse (drop_while is_space t))).
Definition py_strip (s : string) : string := of_text (strip_text (to_text s)).

(** [s.split()]: the maximal runs of non-space characters. *)
Fixpoint split_ws_go (cur : option text) (t : text) : list text :=
  match t with
  | [] => match cur with Some w => [reverse w] | None => [] end
  | c :: t' =>
      if is_space c
      then match cur with
           | Some w => reverse w :: split_ws_go None t'
           | None => split_ws_go None t'
           end
      else split_ws_go (Some (c :: default [] cur)) t'
  end.
Definition py_split_ws (s : string) : list string := of_text <$> split_ws_go None (to_text s).

Fixpoint starts_with (p t : text) : bool :=
  match p, t with
  | [], _ => true
  | a :: p', b :: t' => bool_decide (a = b) && starts_with p' t'
  | _ :: _, [] => false
  end.

(** Index of the first occurrence of [p] in [t] ([t.find(p)]). *)
Fixpoint find_sub (p t : text) : option nat :=
  if starts_with p t then Some 0%nat
  else match t with
       | [] => None
       | _ :: t' => S <$> find_sub p t'
       end.

(** [p in s] *)
Definition contains (p s : string) : bool :=
  bool_decide (is_Some (find_sub (to_text p) (to_text s))).

(** [s.split(sep)] for a non-empty separator: [cur] is the piece being
    read (reversed), [skip] the characters of a separator still to pass. *)
Fixpoint split_go (sep : text) (skip : nat) (cur : text) (t : text) : list text :=
  match t with
  | [] => [reverse cur]
  | c :: t' =>
      match skip with
      | S k => split_go sep k cur t'
      | O => if starts_with sep t
             then reverse cur :: split_go sep (length sep - 1) [] t'
             else split_go sep 0 (c :: cur) t'
      end
  end.
Definition py_split (sep s : string) : list string :=
  of_text <$> split_go (to_text sep) 0 [] (to_text s).

(** [s.replace(old, new)] for a non-empty [old]. *)
Fixpoint replace_go (old new : text) (skip : nat) (t : text) : text :=
  match t with
  | [] => []
  | c :: t' =>
      match skip with
      | S k => replace_go old new k t'
      | O => if starts_with old t
             then new ++ replace_go old new (length old - 1) t'
             else c :: replace_go old new 0 t'
      end
  end.
Definition py_replace (old new s : string) : string :=
  of_text (replace_go (to_text old) (to_text new) 0 (to_text s)).

(** *** The three regular expressions of the sources

    [\b] holds between two positions when exactly one side is a word
    character; the ends of the text count as non-word. *)
Definition word_boundary (prev next : option ascii) : bool :=
  xorb (from_option is_word false prev) (from_option is_word false next).

Definition boundary_at (prev : option ascii) (t : text) (n : nat) : bool :=
  word_boundary (match n with O => prev | S k => t !! k end) (t !! n).

(** One match attempt of [\b cls{lo,hi} \b] at the head of [t], [prev] being
    the character before it: the greedy repetition takes the longest run,
    capped at [hi], and gives characters back until the closing [\b]
    holds.  The result is the length matched. *)
Definition match_run (cls : ascii -> bool) (lo hi : nat)
    (prev : option ascii) (t : text) : option nat :=
  if word_boundary prev (head t) then
    let run := (length (take_while cls t) `min` hi)%nat in
    head (filter (fun n => boundary_at prev t n) (reverse (seq lo (S run - lo))))
  else None.

(** [re.findall]: scan from the left; after a match the scan resumes at its
    end ([skip] counts the characters of the match still to pass). *)
Fixpoint findall_go (m : option ascii -> text -> option nat)
    (skip : nat) (prev : option ascii) (t : text) : list text :=
  match t with
  | [] => []
  | c :: t' =>
      match skip with
      | S k => findall_go m k (Some c) t'
      | O => match m prev t with
             | Some n => take n t :: findall_go m (n - 1) (Some c) t'
             | None => findall_go m 0 (Some c) t'
             end
      end
  end.
Definition findall (m : option ascii -> text -> option nat) (s : string) : list string :=
  of_text <$> findall_go m 0 None (to_text s).

(** [r'\b\w+\b'] *)
Definition re_word : option ascii -> text -> option nat :=
  fun prev t => match_run is_word 1 (length t) prev t.

(** [r'\b[\w\s]{10,30}\b'] *)
Definition re_phrase : option ascii -> text -> option nat :=
  match_run (fun c => is_word c || is_space c) 10 30.

Definition think_open : text := to_text "<think>".
Definition think_close : text := to_text "</think>".

(** [re.sub(r'<think>.*?</think>', '', s, flags=re.DOTALL)]: at each
    position where [<think>] starts and a [</think>] follows, the span up
    to the nearest [</think>] is dropped. *)
Fixpoint re_sub_think_go (skip : nat) (t : text) : text :=
  match t with
  | [] => []
  | c :: t' =>
      match skip with
      | S k => re_sub_think_go k t'
      | O => if starts_with think_open t then
               match find_sub think_close (drop (length think_open) t) with
               | Some j =>
                   re_sub_think_go (length think_open + j + length think_close - 1) t'
               | None => c :: re_sub_think_go 0 t'
               end
             else c :: re_sub_think_go 0 t'
      end
  end.
Definition re_sub_think (s : string) : string := of_text (re_sub_think_go 0 (to_text s)).

(** ** Frequency ranking ([collections.Counter])

    A [Counter] keeps its keys in the order of their first insertion. *)

Fixpoint counter_add (x : string) (c : list (string * nat)) : list (string * nat) :=
  match c with
  | [] => [(x, 1%nat)]
  | (y, n) :: c' =>
      if decide (y = x) then (y, S n) :: c' else (y, n) :: counter_add x c'
  end.

Definition Counter (l : list string) : list (string * nat) :=
  foldl (fun c x => counter_add x c) [] l.

(** [sorted(items, key=itemgetter(1), reverse=True)]: a stable sort, so
    items with equal counts keep their order.  [insert_desc x l] puts [x],
    which comes before every item of [l], in front of the first item whose
    count does not exceed its own. *)
Fixpoint insert_desc (x : string * nat) (l : list (string * nat)) : list (string * nat) :=
  match l with
  | [] => [x]
  | y :: l' => if (y.2 <=? x.2)%nat then x :: l else y :: insert_desc x l'
  end.

Definition sorted_desc (items : list (string * nat)) : list (string * nat) :=
  foldr insert_desc [] items.

(** [counter.most_common(n)], that is [heapq.nlargest(n, items, key=count)],
    documented as [sorted(items, key=count, reverse=True)[:n]]. *)
Definition most_common (n : nat) (c : list (string * nat)) : list (string * nat) :=
  take n (sorted_desc c).

(** Receiver of a [str] method: anything else has no such attribute. *)
Definition str_method (attr : string) (v : pyval) : result string :=
  match v with
  | PStr s => Ok s
  | _ => Raise (mk_exn AttributeError
                  ("'" +:+ py_type_name v +:+ "' object has no attribute '"
                       +:+ attr +:+ "'"))
  end.

Definition str_list (l : list string) : pyval := PList (PStr <$> l).

(** [analyzer.py], lines 322-329 *)
Definition extract_common_phrases (text_content : pyval) : result pyval :=
  try_except
    (s ← str_method "lower" text_content;
     let phrases := findall re_phrase (py_lower s) in
     let phrase_counter := Counter phrases in
     Ok (str_list ((most_common 10 phrase_counter).*1)))
    (fun e => Ok (PList [])).

(** [analyzer.py], lines 343-350 *)
Definition extract_key_topics (text_content : pyval) : result pyval :=
  try_except
    (s ← str_method "lower" text_content;
     let words := findall re_word (py_lower s) in
     let word_counter := Counter words in
     Ok (str_list ((most_common 10 word_counter).*1)))
    (fun e => Ok (PList [])).

Definition nl : string := String (Ascii.ascii_of_nat 10) EmptyString.

Definition sum_nat (l : list nat) : nat := foldr Nat.add 0%nat l.

(** [analyzer.py], lines 331-341 *)
Definition analyze_content_structure (text_content : pyval) : result pyval :=
  try_except
    (s ← str_method "split" text_content;
     let paragraphs := py_split (nl +:+ nl) s in
     let total := length paragraphs in
     let words := sum_nat ((fun p => length (py_split_ws p)) <$> paragraphs) in
     Ok (PDict [("total_paragraphs", PInt (Z.of_nat total));
                ("avg_paragraph_length",
                 match paragraphs with
                 | [] => PInt 0
                 | _ => PFloat (Z.of_nat words) (Z.of_nat total)
                 end)]))
    (fun e => Ok (PDict [])).

(** ** Content analysis ([analyzer.py], lines 118-132 and 352-365)

    The HTML parser is external.  [BeautifulSoup content] is the call
    [BeautifulSoup(content, 'html.parser')]; of the parsed document the
    sources use [get_text()] and the number of nodes [find_all] returns for
    a list of tag names.  Each of them may raise. *)

Record soup := {
  get_text : result string;
  find_all : list string -> result nat
}.

Section Analysis.
Variable BeautifulSoup : pyval -> result soup.

Definition identify_content_elements (content : pyval) : result pyval :=
  try_except
    (soup ← BeautifulSoup content;
     lists ← find_all soup ["ul"; "ol"];
     tables ← find_all soup ["table"];
     images ← find_all soup ["img"];
     links ← find_all soup ["a"];
     headings ← find_all soup ["h1"; "h2"; "h3"; "h4"; "h5"; "h6"];
     Ok (PDict [("lists", PInt (Z.of_nat lists));
                ("tables", PInt (Z.of_nat tables));
                ("images", PInt (Z.of_nat images));
                ("links", PInt (Z.of_nat links));
                ("headings", PInt (Z.of_nat headings))]))
    (fun e => Ok (PDict [])).

Definition analyze_content (content : pyval) : result pyval :=
  try_except
    (soup ← BeautifulSoup content;
     t ← get_text soup;
     text_content ← (if bool_decide (t = "") then Ok content
                     else PStr <$> get_text soup);
     words ← str_method "split" text_content;
     common_phrases ← extract_common_phrases text_content;
     content_structure ← analyze_content_structure text_content;
     key_topics ← extract_key_topics text_content;
     content_elements ← identify_content_elements content;
     Ok (PDict [("word_count", PInt (Z.of_nat (length (py_split_ws words))));
                ("common_phrases", common_phrases);
                ("content_structure", content_structure);
                ("key_topics", key_topics);
                ("content_elements", content_elements)]))
    (fun e => Ok (PDict [])).
End Analysis.

(** ** Formatting helpers and context assembly ([analyzer.py], lines 150-186
    and 273-320) *)

(** [v[k]] for a string key. *)
Definition py_getitem (v : pyval) (k : string) : result pyval :=
  match v with
  | PDict d =>
      match dict_lookup d k with
      | Some x => Ok x
      | None => Raise (mk_exn KeyError ("'" +:+ k +:+ "'"))
      end
  | PList _ => Raise (mk_exn TypeError "list indices must be integers or slices, not str")
  | PStr _ => Raise (mk_exn TypeError "string indices must be integers, not 'str'")
  | _ => Raise (mk_exn TypeError
                  ("'" +:+ py_type_name v +:+ "' object is not subscriptable"))
  end.

(** The fields of the analyzer object that the formatting code reads; they
    are set by [set_content_parameters]. *)
Record analyzer := {
  article_intent : string;
  secondary_keywords : list string
}.

Definition set_content_parameters (self : analyzer) (intent : string)
    (keywords : list string) : analyzer :=
  {| article_intent := intent; secondary_keywords := keywords |}.

Section Formatting.
Context {R : Repr}.

Definition format_top_articles (results : pyval) : result string :=
  try_except
    (first5 ← py_slice_to 5 results;
     items ← py_iter first5;
     lines ← mapM (fun r =>
       title ← py_getitem r "title";
       link ← py_getitem r "link";
       Ok ("- " +:+ py_str title +:+ " (URL: " +:+ py_str link +:+ ")")) items;
     Ok (join nl lines))
    (fun e => Ok "").

Definition format_paa_questions (questions : pyval) : result string :=
  try_except
    (items ← py_iter questions;
     lines ← mapM (fun q =>
       question ← py_getitem q "question";
       Ok ("- " +:+ py_str question)) items;
     Ok (join nl lines))
    (fun e => Ok "").

Definition format_related_searches (searches : pyval) : result string :=
  try_except
    (items ← py_iter searches;
     lines ← mapM (fun search =>
       query ← py_getitem search "query";
       Ok ("- " +:+ py_str query)) items;
     Ok (join nl lines))
    (fun e => Ok "").

Definition format_competitor_content (scraped_data : pyval) : result string :=
  try_except
    (items ← py_iter scraped_data;
     summaries ← mapM (fun data =>
       analysis ← py_get data "analysis" (PDict []);
       url ← py_get data "url" (PStr "");
       word_count ← py_get analysis "word_count" (PInt 0);
       key_topics ← py_get analysis "key_topics" (PList []);
       top5 ← py_slice_to 5 key_topics;
       topics ← py_join ", " top5;
       Ok ("URL: " +:+ py_str url +:+ nl
           +:+ "Word Count: " +:+ py_str word_count +:+ nl
           +:+ "Key Topics: " +:+ topics)) items;
     Ok (join (nl +:+ nl) summaries))
    (fun e => Ok "").

Definition format_citation_data (citation_data : pyval) : result string :=
  items ← py_iter citation_data;
  summaries ← mapM (fun data =>
    analysis ← py_get data "analysis" (PDict []);
    url ← py_get data "url" (PStr "");
    word_count ← py_get analysis "word_count" (PInt 0);
    key_topics ← py_get analysis "key_topics" (PList []);
    top5 ← py_slice_to 5 key_topics;
    topics ← py_join ", " top5;
    Ok ("URL: " +:+ py_str url +:+ nl
        +:+ "Word Count: " +:+ py_str word_count +:+ nl
        +:+ "Key Topics: " +:+ topics)) items;
  Ok (join (nl +:+ nl) summaries).

(** The text of the f-string of [prepare_llm_context], its fields already
    evaluated. *)
Definition llm_context_text (query intent keywords top paa related
    competitors deep_thinking citations : string) : string :=
  nl +:+ "Search Query: " +:+ query +:+ nl
  +:+ nl
  +:+ "Content Parameters:" +:+ nl
  +:+ "Article Intent: " +:+ intent +:+ nl
  +:+ "Secondary Keywords: " +:+ keywords +:+ nl
  +:+ nl
  +:+ "--- Top Ranking Articles ---" +:+ nl
  +:+ top +:+ nl
  +:+ nl
  +:+ "--- People Also Ask Questions ---" +:+ nl
  +:+ paa +:+ nl
  +:+ nl
  +:+ "--- Related Searches ---" +:+ nl
  +:+ related +:+ nl
  +:+ nl
  +:+ "--- Competitor Content Analysis ---" +:+ nl
  +:+ competitors +:+ nl
  +:+ nl
  +:+ "--- Deep Research Thinking Process ---" +:+ nl
  +:+ deep_thinking +:+ nl
  +:+ nl
  +:+ "--- Citation Content from Deep Research ---" +:+ nl
  +:+ citations +:+ nl.

Definition prepare_llm_context (self : analyzer) (scraped_data serp_data : pyval)
    (deep_thinking : string) (citation_data : pyval) : result string :=
  serp_analysis ← extract_serp_data serp_data;
  citations_formatted ← format_citation_data citation_data;
  search_parameters ← py_get serp_data "search_parameters" (PDict []);
  query ← py_get search_parameters "q" (PStr "");
  organic ← py_getitem serp_analysis "organic_results";
  top ← format_top_articles organic;
  paa_questions ← py_getitem serp_analysis "paa_questions";
  paa ← format_paa_questions paa_questions;
  related_searches ← py_getitem serp_analysis "related_searches";
  related ← format_related_searches related_searches;
  competitors ← format_competitor_content scraped_data;
  Ok (llm_context_text (py_str query) (article_intent self)
        (join ", " (secondary_keywords self)) top paa related competitors
        deep_thinking citations_formatted).

(** [generate_research_report]; [timestamp] is what
    [datetime.now().strftime('%Y-%m-%d %H:%M:%S')] gives at the call. *)
Definition generate_research_report (timestamp : string) (deep_thinking : string)
    (scraped_data : pyval) : result string :=
  competitor_summary ← format_competitor_content scraped_data;
  Ok ("=== Research Report ===" +:+ nl
      +:+ nl
      +:+ "Deep Research Thinking Process:" +:+ nl
      +:+ deep_thinking +:+ nl
      +:+ nl
      +:+ "--- Competitor Content Analysis Summary ---" +:+ nl
      +:+ competitor_summary +:+ nl
      +:+ nl
      +:+ "Generated on: " +:+ timestamp +:+ nl).
End Formatting.

(** ** Effects

    The world of a run: the state of the network, as far as the providers'
    answers depend on it, and what the run did that an observer can see
    ([time.sleep] and the Streamlit calls).  Diagnostic [print]s are left
    out. *)

Inductive event :=
  | Sleep (seconds : nat)
  | StError (msg : string)
  | StInfo (msg : string)
  | StSuccess (msg : string)
  | StMarkdown (body : string)
  | StDownloadButton (label data file_name : string).

Record world (Net : Type) := mk_world { net : Net; trace : list event }.
Arguments mk_world {Net} net trace.
Arguments net {Net} w.
Arguments trace {Net} w.

Definition io (Net A : Type) : Type := world Net -> result A * world Net.

Definition io_ret {Net A} (a : A) : io Net A := fun w => (Ok a, w).

Definition io_bind {Net A B} (m : io Net A) (f : A -> io Net B) : io Net B :=
  fun w => match m w with
           | (Ok a, w') => f a w'
           | (Raise e, w') => (Raise e, w')
           end.

(** [try: body except Exception as e: handler e], with effects. *)
Definition io_try {Net A} (body : io Net A) (handler : exn -> io Net A) : io Net A :=
  fun w => match body w with
           | (Ok a, w') => (Ok a, w')
           | (Raise e, w') => handler e w'
           end.

Definition lift {Net A} (r : result A) : io Net A := fun w => (r, w).

Definition emit {Net} (ev : event) : io Net unit :=
  fun w => (Ok tt, mk_world (net w) (trace w ++ [ev])).

(** A call to an external service: its answer and the next network state. *)
Definition call {Net A} (f : Net -> result A * Net) : io Net A :=
  fun w => let '(r, n) := f (net w) in (r, mk_world n (trace w)).

#[global] Instance io_mret {Net} : MRet (io Net) := fun A => io_ret.
#[global] Instance io_mbind {Net} : MBind (io Net) := fun A B f m => io_bind m f.

Definition max_retries : nat := 3.

(** ** Scraping with retries ([analyzer.py], lines 57-116) *)

Section Scraping.
Context {Net : Type}.
Variable BeautifulSoup : pyval -> result soup.
(** [self.firecrawl.scrape_url(url, params={'formats': ['markdown', 'html']})] *)
Variable scrape_url : string -> Net -> result pyval * Net.

(** The body of the inner [try] up to the [append]. *)
Definition scrape_once (url : string) : io Net pyval :=
  result ← call (scrape_url url);
  markdown ← lift (py_get result "markdown" (PStr ""));
  content ← lift (py_get result "html" markdown);
  analysis ← lift (analyze_content BeautifulSoup content);
  io_ret (PDict [("url", PStr url); ("content", content); ("analysis", analysis)]).

(** [for attempt in range(max_retries)]: a success appends and breaks; a
    failure sleeps 5 seconds unless it was the last attempt. *)
Fixpoint scrape_attempts (url : string) (attempts : list nat)
    (scraped_content : list pyval) : io Net (list pyval) :=
  match attempts with
  | [] => io_ret scraped_content
  | attempt :: rest =>
      io_try
        (content_data ← scrape_once url;
         io_ret (Some (scraped_content ++ [content_data])))
        (fun e =>
           if bool_decide (attempt = (max_retries - 1)%nat) then io_ret None
           else (_ ← emit (Sleep 5); io_ret None))
      ≫= fun r =>
           match r with
           | Some scraped_content' => io_ret scraped_content'
           | None => scrape_attempts url rest scraped_content
           end
  end.

Fixpoint scrape_loop (urls : list string) (scraped_content : list pyval)
    : io Net (list pyval) :=
  match urls with
  | [] => io_ret scraped_content
  | url :: urls' =>
      scraped_content' ←
        io_try (scrape_attempts url (seq 0 max_retries) scraped_content)
               (fun e => io_ret scraped_content);
      scrape_loop urls' scraped_content'
  end.

Definition scrape_competitor_content (urls : list string) : io Net (list pyval) :=
  scrape_loop urls [].

(** [scrape_citations] repeats the loop of [scrape_competitor_content];
    the two differ in their diagnostic messages only. *)
Definition scrape_citations (urls : list string) : io Net (list pyval) :=
  scrape_loop urls [].
End Scraping.

(** ** Search fetcher ([serp.py]) *)

Record response := {
  status_code : Z;
  json : result pyval   (* what [response.json()] does *)
}.

(** [try: body except requests.exceptions.RequestException as e: handler e] *)
Definition io_try_request {Net A} (body : io Net A) (handler : exn -> io Net A)
    : io Net A :=
  fun w => match body w with
           | (Ok a, w') => (Ok a, w')
           | (Raise e, w') =>
               if is_request_exception (exn_kind e) then handler e w'
               else (Raise e, w')
           end.

Section Search.
Context {Net : Type}.
(** [st.secrets.get("SERPAPI_KEY", "")] *)
Variable SERPAPI_KEY : string.
(** [requests.get("https://serpapi.com/search", params=..., timeout=30)];
    the arguments are the query, the key and the number of results. *)
Variable requests_get : string -> string -> Z -> Net -> result response * Net.

(** [for attempt in range(max_retries)].  The body yields [Some v] when
    the function returns [v] and [None] when the loop goes on. *)
Fixpoint search_attempts (query : string) (num_results : Z) (attempts : list nat)
    : io Net pyval :=
  match attempts with
  | [] => io_ret (PDict [])
  | attempt :: rest =>
      io_try_request
        (response ← call (requests_get query SERPAPI_KEY num_results);
         if bool_decide (status_code response = 200)
         then lift (Some <$> json response)
         else io_ret None)
        (fun e =>
           if bool_decide (attempt = (max_retries - 1)%nat)
           then io_ret (Some (PDict []))
           else (_ ← emit (Sleep 2); io_ret None))
      ≫= fun r =>
           match r with
           | Some v => io_ret v
           | None => search_attempts query num_results rest
           end
  end.

Definition get_search_results (query : string) (num_results : Z) : io Net pyval :=
  if bool_decide (SERPAPI_KEY = "")
  then (_ ← emit (StError "SERPAPI_KEY is not set in Streamlit secrets");
        io_ret (PDict []))
  else search_attempts query num_results (seq 0 max_retries).
End Search.

(** ** Research excerpt and blog generation ([main_streamlit.py], lines 21-132) *)

Definition report_banner : string := "=== Research Report ===".
Definition competitor_marker : string := "--- Competitor Content Analysis Summary ---".

(** [l[0]] *)
Definition first_item (l : list string) : result string :=
  match l with
  | x :: _ => Ok x
  | [] => Raise (mk_exn Exception "list index out of range")
  end.

Definition extract_research_content (research_text : string) : result string :=
  let without_think :=
    if contains "<think>" research_text && contains "</think>" research_text
    then re_sub_think research_text
    else research_text in
  let without_banner := py_replace report_banner "" without_think in
  try_except
    (before_summary ←
       (if contains competitor_marker without_banner
        then py_strip <$> first_item (py_split competitor_marker without_banner)
        else Ok without_banner);
     Ok (py_strip before_summary))
    (fun e => Ok without_banner).

Definition blog_prompt_head : string := "
Create a blog based on the outline document attached. Follow every detail, including the word count, content type, and structural guidelines provided. The target audience (ICP) are- people in the construction industry, people looking for information in the construction industry, construction company owners and related personas who want to know more about the industry and the policies.

AI SEO Guidelines to Follow:
Use Conversational, Natural Language
Write content that mirrors how users ask questions.
Incorporate long-tail and question-based keywords naturally.
Optimize for semantic search by focusing on topics, not just keywords.
Pro Tip: Use tools like AnswerThePublic to find search queries in this niche.

Optimize for AI Overviews
Structure content using Q&A formats with direct, concise answers.
Format key sections with bullet points and numbered lists for readability.
Implement FAQ schema markup to improve AI searchability.
Pro Tip: Research Google's People Also Ask section for top-performing questions.

EEAT (Expertise, Experience, Authority, Trustworthiness)
Include a detailed author bio showcasing industry credentials.
Link to credible sources such as studies, case studies, and expert opinions.
Build backlinks from trusted domains to enhance authority.
Pro Tip: Use first-hand data and case studies to stand out from AI-generated content.

Improve Structured Data & Schema
Implement FAQ, How-To, and Article schema for better AI visibility.
Add author markup to highlight expert-written content.
Use breadcrumbs and internal linking to strengthen content relationships.
Pro Tip: Validate structured data using Google's Rich Results Test.

Answer in the First Paragraph
AI-driven search often pulls direct answers from well-structured content.
Include key information in the first paragraph for better indexing.
Pro Tip: Check the research insights to refine the clarity of content.

Expand Content with AI Search Queries
Analyze AI-generated search responses for subtopic ideas.
Create content that fills information gaps in existing resources.
Expand blog sections based on AI-recommended queries.
Ensure the word count falls within the specified range.
Maintain a professional tone while keeping the content engaging.
Incorporate relevant statistics, data, and expert quotes where applicable.
Add visual elements (charts, infographics, etc.) to improve readability.
Include internal links to related AI content (advancements, funding strategies, startup guidance).
External links should point to authoritative sources (AI research, industry reports, expert case studies).
The content format should be as described in the outline in the article type part as it aligns with user preferences and search behavior.
Deliver a fully optimized, structured, and AI-friendly blog that aligns with all outlined requirements.

Here is the outline document:

".

Definition blog_prompt_research : string := "
Additionally, here is supplementary research that contains valuable insights and information about the topic:

".

Definition blog_prompt_tail : string := "
Based on the provided outline and research, generate a complete blog article that follows all the guidelines provided.
".

(** The prompt built by [generate_blog_content]; [research_content] is
    appended when it is given and not empty. *)
Definition blog_prompt (outline_content : string) (research_content : option string)
    : string :=
  blog_prompt_head +:+ outline_content +:+ nl
  +:+ match research_content with
      | Some r => if bool_decide (r = "") then ""
                  else blog_prompt_research +:+ r +:+ nl
      | None => ""
      end
  +:+ blog_prompt_tail.

(** A reply of the blog model: its content blocks; a block has a [text] or
    not. *)
Record message := { content : list (option string) }.

Section Blog.
Context {Net : Type}.
(** [st.secrets.get("ANTHROPIC_API_KEY", "")] *)
Variable ANTHROPIC_API_KEY : string.
(** [client.messages.create(model=..., max_tokens=4096, temperature=0.7,
    system=..., messages=[{"role": "user", "content": prompt}])] *)
Variable messages_create : string -> Net -> result (option message) * Net.

Definition no_content : exn :=
  mk_exn ValueError "No content received from Claude API".

Definition generate_blog_content (outline_content : string)
    (research_content : option string) : io Net string :=
  if bool_decide (ANTHROPIC_API_KEY = "")
  then lift (Raise (mk_exn ValueError
                      "ANTHROPIC_API_KEY not found in environment variables"))
  else
    let prompt := blog_prompt outline_content research_content in
    io_try
      (message ← call (messages_create prompt);
       match message with
       | None => lift (Raise no_content)
       | Some m =>
           match content m with
           | [] => lift (Raise no_content)
           | Some text :: _ => io_ret text
           | None :: _ =>
               lift (Raise (mk_exn AttributeError "object has no attribute 'text'"))
           end
       end)
      (fun e => lift (Raise (mk_exn Exception
                               ("Error generating content: " +:+ exn_msg e)))).
End Blog.

(** ** The end of [main] ([main_streamlit.py], lines 134-152 and 363-495) *)

Definition drop_text (n : nat) (s : string) : string := of_text (drop n (to_text s)).

Definition startswith (p s : string) : bool := starts_with (to_text p) (to_text s).

Definition format_blog_content (blog : string) : string :=
  let lines := py_split nl blog in
  let formatted_lines := (fun line =>
    if startswith "# " line then
      "<h1 style='font-size: 2.5em; color: #ffffff; margin-top: 1.5em; margin-bottom: 0.8em; font-weight: 700;'>"
        +:+ drop_text 2 line +:+ "</h1>"
    else if startswith "## " line then
      "<h2 style='font-size: 2em; color: #ffffff; margin-top: 1.5em; margin-bottom: 0.6em; font-weight: 600;'>"
        +:+ drop_text 3 line +:+ "</h2>"
    else if startswith "### " line then
      "<h3 style='font-size: 1.5em; color: #ffffff; margin-top: 1.2em; margin-bottom: 0.4em; font-weight: 500;'>"
        +:+ drop_text 4 line +:+ "</h3>"
    else if bool_decide (py_strip line = "") then "<br>"
    else "<p style='font-size: 1.1em; line-height: 1.6; margin-bottom: 1em; color: #ffffff;'>"
           +:+ line +:+ "</p>") <$> lines in
  join nl formatted_lines.

Section Main.
Context {Net : Type}.
Variable ANTHROPIC_API_KEY : string.
Variable messages_create : string -> Net -> result (option message) * Net.
(** [create_combined_pdf outline research blog_content query] *)
Variable create_combined_pdf : string -> string -> option string -> string -> result string.
(** Which buttons the operator has pressed, by label. *)
Variable clicked : string -> bool.
(** [datetime.now().strftime('%Y%m%d_%H%M')] when the PDF is offered. *)
Variable pdf_stamp : string.

Definition download_button (label data file_name done : string) : io Net unit :=
  _ ← emit (StDownloadButton label data file_name);
  if clicked label then emit (StSuccess done) else io_ret tt.

(** What tab 3 shows for a generated article. *)
Definition show_blog (blog_content : string) : io Net unit :=
  _ ← emit (StMarkdown (format_blog_content blog_content));
  _ ← download_button "Download as Text" blog_content "generated_blog.txt"
        "Blog content downloaded!";
  download_button "Download as Markdown" blog_content "generated_blog.md"
    "Blog content downloaded as Markdown!".

Definition truthy (s : option string) : bool :=
  match s with Some t => negb (bool_decide (t = "")) | None => false end.

(** [main] from the point where [enhanced_outline] and [research_report]
    have been produced (line 363) to its end, inside the [try] that encloses
    the run (lines 313 and 494). *)
Definition main_after_analysis (search_query : string) (auto_generate : bool)
    (enhanced_outline research_report : string) : io Net unit :=
  io_try
    (blog_content ←
       (if auto_generate && negb (bool_decide (ANTHROPIC_API_KEY = ""))
        then
          research_content ← lift (extract_research_content research_report);
          blog ← generate_blog_content ANTHROPIC_API_KEY messages_create
                   enhanced_outline (Some research_content);
          io_ret (Some blog)
        else io_ret None);
     (* tab 1 *)
     _ ← emit (StMarkdown "### Enhanced SEO Outline");
     _ ← emit (StMarkdown enhanced_outline);
     _ ← download_button "Download SEO Outline" enhanced_outline "seo_outline.txt"
           "SEO Outline downloaded!";
     (* tab 2 *)
     _ ← emit (StMarkdown "### Research Report");
     _ ← emit (StMarkdown research_report);
     _ ← download_button "Download Research Report" research_report
           "research_report.txt" "Research Report downloaded!";
     (* tab 3 *)
     _ ← emit (StMarkdown "### Generated Blog Content");
     blog_content ←
       (if truthy blog_content then
          _ ← show_blog (default "" blog_content); io_ret blog_content
        else if negb auto_generate then
          if clicked "Generate Blog Content" then
            io_try
              (research_content ← lift (extract_research_content research_report);
               blog ← generate_blog_content ANTHROPIC_API_KEY messages_create
                        enhanced_outline (Some research_content);
               _ ← (if truthy (Some blog) then show_blog blog
                    else emit (StError
                      "No content was generated. Please check your API key and try again."));
               io_ret (Some blog))
              (fun e =>
                 _ ← emit (StError ("Error during content generation: " +:+ exn_msg e));
                 _ ← emit (StInfo
                   "Please make sure your ANTHROPIC_API_KEY is correctly set in the .env file");
                 io_ret blog_content)
          else io_ret blog_content
        else
          _ ← emit (StError
            "Content generation failed or was not attempted. Please check your API keys.");
          io_ret blog_content);
     (* combined PDF *)
     _ ← emit (StMarkdown "### Download Combined Report");
     if clicked "Generate Combined PDF" then
       io_try
         (pdf_bytes ← lift (create_combined_pdf enhanced_outline research_report
                              blog_content search_query);
          _ ← emit (StDownloadButton "Download Complete Report as PDF" pdf_bytes
                      ("seo_report_" +:+ pdf_stamp +:+ ".pdf"));
          emit (StSuccess "PDF generated successfully!"))
         (fun e =>
            _ ← emit (StError ("Error generating PDF: " +:+ exn_msg e));
            emit (StInfo
              "If you're seeing encoding errors, this might be due to special characters in the content."))
     else io_ret tt)
    (fun e => emit (StError ("Error during analysis: " +:+ exn_msg e))).
End Main.

(** ** Vocabulary of the statements

    The shapes of the data model: the provider's JSON, page profiles. *)

Definition is_dict (v : pyval) : bool :=
  match v with PDict _ => true | _ => false end.

Definition is_str (v : pyval) : bool :=
  match v with PStr _ => true | _ => false end.

Definition list_of (p : pyval -> bool) (v : pyval) : bool :=
  match v with PList l => forallb p l | _ => false end.

(** The value under [k], when there is one, satisfies [p]. *)
Definition key_ok (p : pyval -> bool) (d : list (string * pyval)) (k : string) : bool :=
  from_option p true (dict_lookup d k).

(** A search response: a dictionary whose result lists, where present, are
    lists of dictionaries. *)
Definition serp_shaped (data : pyval) : bool :=
  match data with
  | PDict d =>
      key_ok (list_of is_dict) d "organic_results"
      && key_ok (list_of is_dict) d "related_questions"
      && key_ok (list_of is_dict) d "related_searches"
  | _ => false
  end.

(** The list under a top-level key; empty when the key is absent. *)
Definition entries (data : pyval) (k : string) : list pyval :=
  match data with
  | PDict d => match dict_lookup d k with Some (PList l) => l | _ => [] end
  | _ => []
  end.

(** The value under [k] in a dictionary, [dflt] when there is none. *)
Definition lookup_or (dflt : pyval) (e : pyval) (k : string) : pyval :=
  match e with
  | PDict d => default dflt (dict_lookup d k)
  | _ => dflt
  end.

(** A field of an entry; the empty string when the field is absent. *)
Definition field (e : pyval) (k : string) : pyval := lookup_or (PStr "") e k.

Definition with_fields (keys : list string) (e : pyval) : pyval :=
  PDict ((fun k => (k, field e k)) <$> keys).

Definition organic_fields : list string :=
  ["title"; "link"; "date"; "snippet"; "position"; "displayed_link"].
Definition paa_fields : list string := ["question"; "snippet"; "title"].
Definition related_fields : list string := ["query"].

(** A page profile: a dictionary whose analysis, where present, is a
    dictionary whose key topics, where present, are a list of strings. *)
Definition analysis_shaped (a : pyval) : bool :=
  match a with
  | PDict ad => key_ok (list_of is_str) ad "key_topics"
  | _ => false
  end.

Definition profile_shaped (p : pyval) : bool :=
  match p with
  | PDict d => key_ok analysis_shaped d "analysis"
  | _ => false
  end.

(** A search response as the context assembler reads it: its search
    parameters, where present, are a dictionary. *)
Definition context_shaped (data : pyval) : bool :=
  serp_shaped data
  && match data with
     | PDict d => key_ok is_dict d "search_parameters"
     | _ => false
     end.

Definition analysis_of (p : pyval) : pyval := lookup_or (PDict []) p "analysis".

Definition strings_of (v : pyval) : list string :=
  match v with
  | PList l => omap (fun x => match x with PStr s => Some s | _ => None end) l
  | _ => []
  end.

Definition key_topics_of (p : pyval) : list string :=
  strings_of (lookup_or (PList []) (analysis_of p) "key_topics").

Definition query_of (data : pyval) : pyval :=
  lookup_or (PStr "") (lookup_or (PDict []) data "search_parameters") "q".

Section Lines.
Context {R : Repr}.

(** The summary of one profile: URL, word count, the first five key topics
    separated by commas. *)
Definition profile_summary (p : pyval) : string :=
  "URL: " +:+ py_str (field p "url") +:+ nl
  +:+ "Word Count: " +:+ py_str (lookup_or (PInt 0) (analysis_of p) "word_count") +:+ nl
  +:+ "Key Topics: " +:+ join ", " (take 5 (key_topics_of p)).

(** Summaries are separated by a blank line. *)
Definition profile_summaries (profiles : list pyval) : string :=
  join (nl +:+ nl) (profile_summary <$> profiles).

(** The per-profile step shared by the two summary formatters. *)
Definition summarise (data : pyval) : result string :=
  analysis ← py_get data "analysis" (PDict []);
  url ← py_get data "url" (PStr "");
  word_count ← py_get analysis "word_count" (PInt 0);
  key_topics ← py_get analysis "key_topics" (PList []);
  top5 ← py_slice_to 5 key_topics;
  topics ← py_join ", " top5;
  Ok ("URL: " +:+ py_str url +:+ nl
      +:+ "Word Count: " +:+ py_str word_count +:+ nl
      +:+ "Key Topics: " +:+ topics).

Definition top_article_line (e : pyval) : string :=
  "- " +:+ py_str (field e "title") +:+ " (URL: " +:+ py_str (field e "link") +:+ ")".

Definition paa_line (e : pyval) : string := "- " +:+ py_str (field e "question").

Definition related_line (e : pyval) : string := "- " +:+ py_str (field e "query").

(** The eight sections of the context, in the order of the template. *)
Definition context_sections (self : analyzer) (profiles : list pyval) (data : pyval)
    (deep_thinking : string) (citations : list pyval) : list string :=
  [ "Search Query: " +:+ py_str (query_of data);
    "Content Parameters:" +:+ nl
      +:+ "Article Intent: " +:+ article_intent self +:+ nl
      +:+ "Secondary Keywords: " +:+ join ", " (secondary_keywords self);
    "--- Top Ranking Articles ---" +:+ nl
      +:+ join nl (top_article_line <$> take 5 (entries data "organic_results"));
    "--- People Also Ask Questions ---" +:+ nl
      +:+ join nl (paa_line <$> entries data "related_questions");
    "--- Related Searches ---" +:+ nl
      +:+ join nl (related_line <$> entries data "related_searches");
    "--- Competitor Content Analysis ---" +:+ nl +:+ profile_summaries profiles;
    "--- Deep Research Thinking Process ---" +:+ nl +:+ deep_thinking;
    "--- Citation Content from Deep Research ---" +:+ nl +:+ profile_summaries citations ].
End Lines.

(** The ranking the specification asks of [key_topics] and
    [common_phrases]: by descending frequency among the tokens, ties broken
    by the position of the first occurrence. *)

Definition freq (toks : list string) (x : string) : nat :=
  length (filter (fun y => y = x) toks).

Fixpoint first_pos (x : string) (toks : list string) : nat :=
  match toks with
  | [] => 0
  | y :: toks' => if decide (y = x) then 0 else S (first_pos x toks')
  end.

Definition outranks (toks : list string) (x y : string) : Prop :=
  (freq toks y < freq toks x)%nat
  \/ (freq toks x = freq toks y /\ (first_pos x toks < first_pos y toks)%nat).

(** [r] lists the [n] best-ranked distinct tokens of [toks], best first
    (all of them when there are fewer than [n]). *)
Definition ranked_top (n : nat) (toks r : list string) : Prop :=
  (length r <= n)%nat
  /\ NoDup r
  /\ (forall x, x ∈ r -> x ∈ toks)
  /\ StronglySorted (outranks toks) r
  /\ (forall x, x ∈ toks -> x ∉ r ->
        length r = n /\ forall y, y ∈ r -> outranks toks y x).

(** The distinct tokens in the order of their first occurrence. *)
Fixpoint firsts (l : list string) : list string :=
  match l with
  | [] => []
  | x :: l' => x :: filter (fun y => y ≠ x) (firsts l')
  end.

(** Items ordered by descending count, then by position. *)
Definition item_before (pos : string -> nat) (a b : string * nat) : Prop :=
  (b.2 < a.2)%nat \/ (a.2 = b.2 /\ (pos a.1 < pos b.1)%nat).

(** A complete analysis, as [analyze_content] builds it: the five entries
    in order, a word count that is a natural number, phrases and topics
    that are lists of strings, structure and elements that are
    dictionaries. *)
Definition analysis_complete (a : pyval) : bool :=
  match a with
  | PDict [("word_count", PInt n); ("common_phrases", phrases);
           ("content_structure", PDict _); ("key_topics", topics);
           ("content_elements", PDict _)] =>
      bool_decide (0 <= n) && list_of is_str phrases && list_of is_str topics
  | _ => false
  end.

(** What the scraper makes of the provider's answer for [url]. *)
Definition profile_of (BeautifulSoup : pyval -> result soup) (url : string)
    (answer : pyval) : result pyval :=
  markdown ← py_get answer "markdown" (PStr "");
  content ← py_get answer "html" markdown;
  analysis ← analyze_content BeautifulSoup content;
  Ok (PDict [("url", PStr url); ("content", content); ("analysis", analysis)]).

Definition profile_url (p : pyval) : pyval := lookup_or PNone p "url".

(** A search attempt that does not deliver: a request exception, a status
    other than 200, or a body whose decoding raises a request exception. *)
Definition search_failed (r : result response) : bool :=
  match r with
  | Raise e => is_request_exception (exn_kind e)
  | Ok resp =>
      if bool_decide (status_code resp = 200)
      then match json resp with
           | Raise e => is_request_exception (exn_kind e)
           | Ok _ => false
           end
      else true
  end.

(** The pauses a failed search attempt adds: two seconds after a request
    exception unless the attempt was the last one. *)
Definition search_pause (attempt : nat) (r : result response) : list event :=
  match r with
  | Ok resp =>
      if bool_decide (status_code resp = 200)
      then (if bool_decide (attempt = (max_retries - 1)%nat) then [] else [Sleep 2])
      else []
  | Raise _ => if bool_decide (attempt = (max_retries - 1)%nat) then [] else [Sleep 2]
  end.

(** The world after a failed scraping attempt: a pause of five seconds unless
    the attempt was the last one. *)
Definition after_failure {Net} (attempt : nat) (w : world Net) : world Net :=
  if bool_decide (attempt = (max_retries - 1)%nat) then w
  else mk_world (net w) (trace w ++ [Sleep 5]).

(** Where a returned profile comes from: an input URL for which some call of
    the provider answered, the profile being built from that answer. *)
Definition scraped_from {Net} (BeautifulSoup : pyval -> result soup)
    (scrape_url : string -> Net -> result pyval * Net)
    (urls : list string) (p : pyval) : Prop :=
  exists url n answer,
    url ∈ urls /\ (scrape_url url n).1 = Ok answer
    /\ profile_of BeautifulSoup url answer = Ok p.

(** The content the scraper keeps of an answer: its [html], else its
    [markdown], else the empty string. *)
Definition content_of (answer : pyval) : pyval :=
  lookup_or (lookup_or (PStr "") answer "markdown") answer "html".

(** ** Sample collaborators

    Stand-ins for the external services, for the concrete scenarios: the
    network state is the number of calls made so far. *)

(** A provider that times out on its first two calls. *)
Definition flaky_scrape (url : string) (calls : nat) : result pyval * nat :=
  (if (calls <? 2)%nat then Raise (mk_exn Exception "timed out")
   else Ok (PDict [("html", PStr "<p>one part cement, two parts sand</p>")]),
   S calls).

(** A provider that always times out. *)
Definition failing_scrape (url : string) (calls : nat) : result pyval * nat :=
  (Raise (mk_exn Exception "timed out"), S calls).

(** A parser that is not available. *)
Definition no_parser (content : pyval) : result soup :=
  Raise (mk_exn Exception "parser unavailable").

Definition sample_results : pyval :=
  PDict [("search_parameters", PDict [("q", PStr "concrete mixing ratios")]);
         ("organic_results", PList [])].

(** A search provider that times out on its first two calls. *)
Definition flaky_get (query key : string) (num : Z) (calls : nat)
    : result response * nat :=
  (if (calls <? 2)%nat then Raise (mk_exn RequestException "timed out")
   else Ok {| status_code := 200; json := Ok sample_results |},
   S calls).

(** A search provider that answers 503 every time. *)
Definition failing_get (query key : string) (num : Z) (calls : nat)
    : result response * nat :=
  (Ok {| status_code := 503; json := Raise (mk_exn RequestException "no body") |},
   S calls).

(** ** The excerpt the specification describes *)

(** [spans_removed t out]: [out] is [t] without its thinking-tagged spans.
    Reading from the left, a span runs from an opening tag to the nearest
    closing tag and is dropped whole; a character at which no span starts is
    kept. *)
Inductive spans_removed : text -> text -> Prop :=
  | spans_done : spans_removed [] []
  | spans_drop (body rest out : text) :
      find_sub think_close (body ++ think_close ++ rest) = Some (length body) ->
      spans_removed rest out ->
      spans_removed (think_open ++ body ++ think_close ++ rest) out
  | spans_keep (c : ascii) (rest out : text) :
      (forall body rest', c :: rest ≠ think_open ++ body ++ think_close ++ rest') ->
      spans_removed rest out ->
      spans_removed (c :: rest) (c :: out).

(** The part of [t] before the first occurrence of [p]; all of [t] when [p]
    does not occur. *)
Definition before_first (p t : text) : text :=
  match find_sub p t with
  | Some i => take i t
  | None => t
  end.

Definition before_marker (s : string) : string :=
  of_text (before_first (to_text competitor_marker) (to_text s)).

(** No element to drop at the head. *)
Definition trimmed {A} (p : A -> bool) (l : list A) : Prop :=
  match l with [] => True | a :: _ => p a = false end.

(** A reply of the blog model that carries no article: the call raised,
    there is no message, the message has no content block, or its first
    block has no text. *)
Definition no_blog_content (r : result (option message)) : bool :=
  match r with
  | Ok (Some m) => match content m with Some _ :: _ => false | _ => true end
  | _ => true
  end.

(** What such a failure is reported with. *)
Definition blog_failure_message (r : result (option message)) : string :=
  match r with
  | Raise e => exn_msg e
  | Ok (Some m) =>
      match content m with
      | None :: _ => "object has no attribute 'text'"
      | _ => "No content received from Claude API"
      end
  | Ok None => "No content received from Claude API"
  end.

Definition blog_error (r : result (option message)) : exn :=
  mk_exn Exception ("Error generating content: " +:+ blog_failure_message r).

(** A blog model that answers with an empty message. *)
Definition silent_model (prompt : string) (calls : nat)
    : result (option message) * nat :=
  (Ok (Some {| content := [] |}), S calls).

Definition sample_pdf (outline research : string) (blog : option string)
    (query : string) : result string :=
  Ok "%PDF".

(** The events that put the outline or the research report before the
    operator. *)
Definition shows (artifact : string) (ev : event) : bool :=
  match ev with
  | StMarkdown body => bool_decide (body = artifact)
  | StDownloadButton _ data _ => bool_decide (data = artifact)
  | _ => false
  end.

(** ** Sample data: the end-to-end scenario of the specification *)

(** A stand-in for [str()] on floats, lists and dictionaries; the scenarios
    never print one. *)
Definition plain_repr : Repr := fun v => "<" +:+ py_type_name v +:+ ">".

(** A parser for plain text: the text is the content itself and there is
    no markup node. *)
Definition plain_parser (content : pyval) : result soup :=
  match content with
  | PStr s => Ok {| get_text := Ok s; find_all := fun _ => Ok 0%nat |}
  | _ => Raise (mk_exn TypeError "object of this type has no len()")
  end.

Definition scenario_serp : pyval :=
  PDict
    [("search_parameters", PDict [("q", PStr "concrete mixing ratios")]);
     ("organic_results",
      PList [PDict [("title", PStr "Concrete Mix Ratios Explained");
                    ("link", PStr "https://example.com/ratios");
                    ("position", PInt 1)];
             PDict [("title", PStr "How to Mix Concrete");
                    ("link", PStr "https://example.org/how-to")];
             PDict [("link", PStr "https://example.net/untitled")]]);
     ("related_questions",
      PList [PDict [("question", PStr "What is the 1:2:3 mix?")];
             PDict [("question", PStr "How much water per bag?")]]);
     ("related_searches",
      PList [PDict [("query", PStr "concrete mix calculator")]])].

Definition scenario_profiles : list pyval :=
  [PDict [("url", PStr "https://example.com/ratios");
          ("content", PStr "");
          ("analysis",
           PDict [("word_count", PInt 500);
                  ("key_topics",
                   str_list ["concrete"; "mix"; "ratio"; "cement"; "sand";
                             "water"])])];
   PDict [("url", PStr "https://example.org/how-to");
          ("content", PStr "");
          ("analysis", PDict [("word_count", PInt 800)])]].

Definition scenario_analyzer : analyzer :=
  {| article_intent := "informational";
     secondary_keywords := ["cement ratio"; "sand"] |}.

(** The operator presses "Generate Blog Content" and nothing else. *)
Definition press_generate (label : string) : bool :=
  bool_decide (label = "Generate Blog Content").

Definition press_nothing (label : string) : bool := false.

(** * Further parts of the sources *)

(** ** Outline generation ([analyzer.py], lines 134-148 and 188-271) *)

(** The double quote. *)
Definition dq : string := String (Ascii.ascii_of_nat 34) EmptyString.

(** The instructions [generate_enhanced_outline] sends as system prompt; the
    query is printed six times. *)
Definition outline_prompt (query intent keywords : string) : string :=
  "Create a comprehensive SEO article outline for: "
  +:+ query
  +:+ "

Target Audience:
- Primary: "
  +:+ query
  +:+ "
- Secondary: "
  +:+ query
  +:+ "
- Industry level: "
  +:+ query
  +:+ "

SEO Elements to Include:
1. Recommended meta title (50-60 characters)
2. Meta description (130-155 characters)
3. Primary keyword: "
  +:+ query
  +:+ "
   Secondary keywords: "
  +:+ keywords
  +:+ "
4. Search intent: "
  +:+ intent
  +:+ "
5. Suggested internal linking topics and detailed internal linking methods (e.g., linking to pillar pages, related articles, or product pages)
6. Types of external sources to reference
7. Deep Research Insights: [Insert key insights from the deep research output]
8. If there is a date mentioned in the H1 tag, use only the present year (2025).

Please structure the output exactly as follows:

Primary keyword: [Insert primary keyword]
Secondary keywords: [Insert secondary keywords]

Meta title: [Insert optimized title]
Meta description: [Insert compelling description]

Slug: [Insert primary keyword as slug]

Outline:

H1 Options: [Provide 3-5 title options]

Introduction: [Outline approach and key points]

H2: [Main section title]
  - H3: [Subsection points]
  - H3: [Subsection points]
[Continue with all H2 and H3 sections]

Conclusion: [Outline approach]

FAQ:
1. [Question 1]
2. [Question 2]
3. [Question 3]
4. [Question 4]
5. [Question 5]

Writing Guidelines:
- Word count target: [Predict based on competitor analysis]
- Content tone: Professional
- Statistics/data placement
- Expert quote areas
- Visual content opportunities
- Content upgrades/lead magnets
- Key takeaways
- Internal/external linking strategy

Article Type Prediction:

Based on SERP analysis, competitor data, deep research insights, and "
  +:+ query
  +:+ ", the best article format for this topic is:
[Insert predicted article type - e.g., " +:+ dq +:+ "How-To Guide," +:+ dq +:+ " " +:+ dq +:+ "Listicle," +:+ dq +:+ " " +:+ dq +:+ "Comparison Blog," +:+ dq +:+ " " +:+ dq +:+ "Technical Article," +:+ dq +:+ " " +:+ dq +:+ "Product Review," +:+ dq +:+ " etc.]

Justification:
- [Explain why this format is ideal based on user search behavior, top-ranking content structures, competitor trends, and deep research insights]
".

(** A reply of the outline model: [choices[i].message.content], a text or
    [None]. *)
Record completion := { choices : list (option string) }.

Section Outline.
Context {Net : Type} {R : Repr}.
(** [self.openai_client.chat.completions.create(model="gpt-4o",
    messages=[system, user], temperature=0.7, max_tokens=3000)]; the
    arguments are the system prompt and the user message. *)
Variable chat_completions_create : string -> string -> Net -> result completion * Net.

Definition get_llm_analysis (context system_prompt : string) : io Net pyval :=
  io_try
    (response ← call (chat_completions_create system_prompt context);
     match choices response with
     | [] => lift (Raise (mk_exn Exception "list index out of range"))
     | Some text :: _ => io_ret (PStr text)
     | None :: _ => io_ret PNone
     end)
    (fun e => io_ret (PStr "")).

(** [format_llm_outline]; [timestamp] is what
    [datetime.now().strftime('%Y-%m-%d %H:%M:%S')] gives at the call. *)
Definition format_llm_outline (timestamp : string) (llm_output serp_data : pyval)
    : result string :=
  try_except
    (search_parameters ← py_get serp_data "search_parameters" (PDict []);
     query ← py_get search_parameters "q" (PStr "");
     Ok ("SEO Article Outline for: " +:+ dq +:+ py_str query +:+ dq +:+ nl
         +:+ nl
         +:+ py_str llm_output +:+ nl
         +:+ nl
         +:+ "Generated on: " +:+ timestamp +:+ nl))
    (fun e => Ok "Error generating outline").

Definition generate_enhanced_outline (timestamp : string) (self : analyzer)
    (serp_data scraped_data : pyval) (deep_thinking : string) (citation_data : pyval)
    : io Net string :=
  context ← lift (prepare_llm_context self scraped_data serp_data deep_thinking
                    citation_data);
  search_parameters ← lift (py_get serp_data "search_parameters" (PDict []));
  query ← lift (py_get search_parameters "q" (PStr ""));
  let prompt := outline_prompt (py_str query) (article_intent self)
                  (join ", " (secondary_keywords self)) in
  llm_outline ← get_llm_analysis context prompt;
  lift (format_llm_outline timestamp llm_outline serp_data).
End Outline.

(** ** Deep research ([perplexity.py]) *)

Section Research.
Context {Net : Type}.
(** [st.secrets.get("PERPLEXITY_API_KEY", "")] *)
Variable PERPLEXITY_API_KEY : string.
(** [requests.post("https://api.perplexity.ai/chat/completions",
    headers=..., json=payload)]; the arguments are the query and the key. *)
Variable requests_post : string -> string -> Net -> result response * Net.

Definition deep_research (query : string) : io Net pyval :=
  if bool_decide (PERPLEXITY_API_KEY = "")
  then (_ ← emit (StError "PERPLEXITY_API_KEY is not set in Streamlit secrets");
        io_ret (PDict []))
  else
    response ← call (requests_post query PERPLEXITY_API_KEY);
    if bool_decide (status_code response = 200)
    then lift (json response)
    else io_ret (PDict []).
End Research.

(** ** What [main] reads from the fetched data ([main_streamlit.py], lines
    328-345) *)

(** [v[0]] *)
Definition py_index0 (v : pyval) : result pyval :=
  match v with
  | PList (x :: _) => Ok x
  | PList [] => Raise (mk_exn Exception "list index out of range")
  | PStr s =>
      match s with
      | String c _ => Ok (PStr (String c EmptyString))
      | EmptyString => Raise (mk_exn Exception "string index out of range")
      end
  | PDict _ => Raise (mk_exn KeyError "0")
  | _ => Raise (mk_exn TypeError
                  ("'" +:+ py_type_name v +:+ "' object is not subscriptable"))
  end.

Definition no_research_output : string := "No deep research output provided.".

(** [research_output.get('choices', [{}])[0].get('message', {})
      .get('content', 'No deep research output provided.')] *)
Definition deep_thinking_of (research_output : pyval) : result pyval :=
  choices ← py_get research_output "choices" (PList [PDict []]);
  first ← py_index0 choices;
  message ← py_get first "message" (PDict []);
  py_get message "content" (PStr no_research_output).

(** [research_output.get('citations', [])] *)
Definition citation_urls_of (research_output : pyval) : result pyval :=
  py_get research_output "citations" (PList []).

(** [[result['link'] for result in serp_data.get('organic_results', [])[:5]]] *)
Definition competitor_urls (serp_data : pyval) : result (list pyval) :=
  organic ← py_get serp_data "organic_results" (PList []);
  first5 ← py_slice_to 5 organic;
  items ← py_iter first5;
  mapM (fun r => py_getitem r "link") items.

(** Lines 328-330 of [main]: the research call and what is read from its
    output. *)
Definition research_inputs {Net} (PERPLEXITY_API_KEY : string)
    (requests_post : string -> string -> Net -> result response * Net)
    (search_query : string) : io Net (pyval * pyval) :=
  research_output ← deep_research PERPLEXITY_API_KEY requests_post search_query;
  deep_thinking ← lift (deep_thinking_of research_output);
  citation_urls ← lift (citation_urls_of research_output);
  io_ret (deep_thinking, citation_urls).

(** ** Vocabulary of the further statements *)

Fixpoint join_text (sep : text) (l : list text) : text :=
  match l with
  | [] => []
  | [t] => t
  | t :: l' => t ++ sep ++ join_text sep l'
  end.

(** The entry has a value under [k]. *)
Definition has_key (k : string) (e : pyval) : bool :=
  match e with
  | PDict d => bool_decide (is_Some (dict_lookup d k))
  | _ => false
  end.

(** What the outline model's reply contributes to the outline: its first
    text; nothing when the call raised or gave no choice. *)
Definition outline_body (r : result completion) : pyval :=
  match r with
  | Ok c => match choices c with
            | Some text :: _ => PStr text
            | None :: _ => PNone
            | [] => PStr ""
            end
  | Raise _ => PStr ""
  end.

(** An outline model that is out of service. *)
Definition failing_chat (system_prompt context : string) (calls : nat)
    : result completion * nat :=
  (Raise (mk_exn Exception "service unavailable"), S calls).

(** A research provider that answers 401. *)
Definition refusing_post (query key : string) (calls : nat)
    : result response * nat :=
  (Ok {| status_code := 401; json := Raise (mk_exn RequestException "no body") |},
   S calls).

(** A page of two paragraphs and a page of white space, with what the
    analysis makes of them when the parser returns the text as it is. *)
Definition sample_page : pyval := PStr ("one two" +:+ nl +:+ nl +:+ "three").

Definition no_elements : pyval :=
  PDict [("lists", PInt 0); ("tables", PInt 0); ("images", PInt 0);
         ("links", PInt 0); ("headings", PInt 0)].

Definition sample_analysis : pyval :=
  PDict [("word_count", PInt 3);
         ("common_phrases", str_list ["one two" +:+ nl +:+ nl +:+ "three"]);
         ("content_structure",
          PDict [("total_paragraphs", PInt 2);
                 ("avg_paragraph_length", PFloat 3 2)]);
         ("key_topics", str_list ["one"; "two"; "three"]);
         ("content_elements", no_elements)].

Definition blank_page : pyval := PStr (" " +:+ nl +:+ " ").

Definition blank_analysis : pyval :=
  PDict [("word_count", PInt 0);
         ("common_phrases", PList []);
         ("content_structure",
          PDict [("total_paragraphs", PInt 1);
                 ("avg_paragraph_length", PFloat 0 1)]);
         ("key_topics", PList []);
         ("content_elements", no_elements)].

(** What a section shows of a formatter's result: its text, nothing when
    the formatter raised. *)
Definition section_or_blank (r : result string) : string :=
  match r with Ok s => s | Raise _ => "" end.

(** A list of profiles with an entry that is no dictionary. *)
Definition malformed_profiles : pyval :=
  PList [PDict [("url", PStr "https://example.com/ratios")]; PInt 7].

(** A search response whose second result has no link. *)
Definition linkless_serp : pyval :=
  PDict [("organic_results",
          PList [PDict [("title", PStr "Concrete Mix Ratios Explained");
                        ("link", PStr "https://example.com/ratios")];
                 PDict [("title", PStr "Featured snippet")]])].

(** A research output as [main] reads it: a dictionary whose choices, where
    present, are a non-empty list that starts with a dictionary whose
    message, where present, is a dictionary. *)
Definition research_shaped (out : pyval) : bool :=
  match out with
  | PDict d =>
      match dict_lookup d "choices" with
      | None => true
      | Some (PList (PDict c :: _)) => key_ok is_dict c "message"
      | Some _ => false
      end
  | _ => false
  end.

(** The first choice of a research output; the empty dictionary when it has
    no choices. *)
Definition first_choice (out : pyval) : pyval :=
  default (PDict []) (head (entries out "choices")).

(** The text [main] reads from a research output. *)
Definition thinking_of (out : pyval) : pyval :=
  lookup_or (PStr no_research_output)
    (lookup_or (PDict []) (first_choice out) "message") "content".

(** A research provider whose answer has no choice. *)
Definition empty_choices_post (query key : string) (calls : nat)
    : result response * nat :=
  (Ok {| status_code := 200; json := Ok (PDict [("choices", PList [])]) |},
   S calls).

(** [quiet m]: running [m] makes no request: the network is as before. *)
Definition quiet {Net A} (m : io Net A) : Prop :=
  forall w, net (m w).2 = net w.

(** [at_most f m]: running [m] makes no request, or the one request [f] and
    no other. *)
Definition at_most {Net A B} (f : Net -> result B * Net) (m : io Net A) : Prop :=
  forall w, net (m w).2 = net w \/ net (m w).2 = (f (net w)).2.

(** The rendering of one line of an article by [format_blog_content]. *)
Definition render_line (line : string) : string :=
  if startswith "# " line then
    "<h1 style='font-size: 2.5em; color: #ffffff; margin-top: 1.5em; margin-bottom: 0.8em; font-weight: 700;'>"
      +:+ drop_text 2 line +:+ "</h1>"
  else if startswith "## " line then
    "<h2 style='font-size: 2em; color: #ffffff; margin-top: 1.5em; margin-bottom: 0.6em; font-weight: 600;'>"
      +:+ drop_text 3 line +:+ "</h2>"
  else if startswith "### " line then
    "<h3 style='font-size: 1.5em; color: #ffffff; margin-top: 1.2em; margin-bottom: 0.4em; font-weight: 500;'>"
      +:+ drop_text 4 line +:+ "</h3>"
  else if bool_decide (py_strip line = "") then "<br>"
  else "<p style='font-size: 1.1em; line-height: 1.6; margin-bottom: 1em; color: #ffffff;'>"
         +:+ line +:+ "</p>".

(** The line feed. *)
Definition lf : ascii := Ascii.ascii_of_nat 10.

(** ** Vocabulary of the corrected statements *)

(** The text holds a thinking-tagged span: an opening tag and, after it, a
    closing tag. *)
Definition has_thinking_span (s : string) : bool :=
  match find_sub think_open (to_text s) with
  | Some i =>
      bool_decide (is_Some (find_sub think_close
                              (drop (i + length think_open) (to_text s))))
  | None => false
  end.

Section Collected.
Context {Net : Type}.
Variable BeautifulSoup : pyval -> result soup.
Variable scrape_url : string -> Net -> result pyval * Net.

(** The profile built from the first of [k] consecutive calls for [url]
    that gives one, and the state of the network after the calls made. *)
Fixpoint first_profile (k : nat) (url : string) (n : Net) : option pyval * Net :=
  match k with
  | O => (None, n)
  | S k' =>
      match (scrape_url url n).1 ≫= profile_of BeautifulSoup url with
      | Ok p => (Some p, (scrape_url url n).2)
      | Raise _ => first_profile k' url (scrape_url url n).2
      end
  end.

(** What the scrapers collect: going through the URLs in order, the first
    profile that three calls give for each, nothing for a URL that gets
    none. *)
Fixpoint collected (urls : list string) (n : Net) : list pyval * Net :=
  match urls with
  | [] => ([], n)
  | url :: rest =>
      let found := first_profile max_retries url n in
      let others := collected rest found.2 in
      (option_list found.1 ++ others.1, others.2)
  end.

(** The provider answers for [url] with a dictionary, whatever the state of
    the network. *)
Definition answers (url : string) : Prop :=
  forall n, exists d, (scrape_url url n).1 = Ok (PDict d).
End Collected.

(** The keys of a search response that the context assembler reads. *)
Definition serp_keys : list string :=
  ["organic_results"; "related_questions"; "related_searches"; "search_parameters"].

(** [a] and [b] answer alike to every [get] on [keys]. *)
Definition same_reads (keys : list string) (a b : pyval) : Prop :=
  forall k dflt, k ∈ keys -> py_get a k dflt = py_get b k dflt.

(** What the context shows of a search response: the query, title and link
    of the first five organic results, the questions, the related
    queries. *)
Definition article_view (e : pyval) : pyval * pyval :=
  (field e "title", field e "link").

Definition serp_view (data : pyval)
    : pyval * list (pyval * pyval) * list pyval * list pyval :=
  (query_of data,
   article_view <$> take 5 (entries data "organic_results"),
   (fun e => field e "question") <$> entries data "related_questions",
   (fun e => field e "query") <$> entries data "related_searches").

(** What the context shows of a page profile: URL, word count, the first
    five key topics. *)
Definition profile_view (p : pyval) : pyval * pyval * list string :=
  (field p "url", lookup_or (PInt 0) (analysis_of p) "word_count",
   take 5 (key_topics_of p)).

(** The scenario's search response as a provider could also send it: other
    keys around the four that are read, further fields in a result, a sixth
    and a seventh result. *)
Definition scenario_serp_padded : pyval :=
  PDict
    [("search_metadata", PDict [("status", PStr "Success")]);
     ("related_searches",
      PList [PDict [("query", PStr "concrete mix calculator");
                    ("link", PStr "https://example.com/search")]]);
     ("search_parameters", PDict [("q", PStr "concrete mixing ratios");
                                  ("hl", PStr "en")]);
     ("organic_results",
      PList [PDict [("position", PInt 1);
                    ("title", PStr "Concrete Mix Ratios Explained");
                    ("link", PStr "https://example.com/ratios");
                    ("snippet", PStr "One part cement")];
             PDict [("title", PStr "How to Mix Concrete");
                    ("link", PStr "https://example.org/how-to")];
             PDict [("link", PStr "https://example.net/untitled");
                    ("title", PStr "")]]);
     ("related_questions",
      PList [PDict [("question", PStr "What is the 1:2:3 mix?");
                    ("snippet", PStr "One, two, three")];
             PDict [("question", PStr "How much water per bag?")]])].

(** The scenario's profiles with other contents and further topics. *)
Definition scenario_profiles_padded : list pyval :=
  [PDict [("analysis",
           PDict [("key_topics",
                   str_list ["concrete"; "mix"; "ratio"; "cement"; "sand";
                             "gravel"; "lime"]);
                  ("word_count", PInt 500);
                  ("common_phrases", PList [])]);
          ("url", PStr "https://example.com/ratios");
          ("content", PStr "<p>one part cement</p>")];
   PDict [("url", PStr "https://example.org/how-to");
          ("analysis", PDict [("word_count", PInt 800);
                              ("key_topics", PList [])])]].



(** The runs of lines between empty lines. *)
Fixpoint blocks_go (cur lines : list string) : list (list string) :=
  match lines with
  | [] => [reverse cur]
  | l :: lines' =>
      if bool_decide (l = "") then reverse cur :: blocks_go [] lines'
      else blocks_go (l :: cur) lines'
  end.

Definition blocks (lines : list string) : list (list string) :=
  match lines with [] => [] | _ => blocks_go [] lines end.


Section Printed.
Context {R : Repr}.



End Printed.


(** * Proofs *)

(** ** Results *)

Lemma mapM_ok {A B} (f : A -> result B) (g : A -> B) (l : list A) :
  Forall (fun a => f a = Ok (g a)) l -> mapM f l = Ok (g <$> l).
Proof.
  induction 1 as [|a l Ha _ IH]; simpl; [done|].
  by rewrite Ha; simpl; rewrite IH.
Qed.

Lemma forallb_Forall {A} (p : A -> bool) (l : list A) :
  forallb p l = true -> Forall (fun a => p a = true) l.
Proof.
  induction l as [|a l IH]; simpl; [constructor|].
  intros [Ha Hl]%andb_prop. constructor; auto.
Qed.

(** ** SERP extraction *)

Lemma extract_entries (d : list (string * pyval)) (k : string)
    (f : pyval -> result pyval) (g : pyval -> pyval) :
  key_ok (list_of is_dict) d k = true ->
  (forall e, is_dict e = true -> f e = Ok (g e)) ->
  (lst ← py_get (PDict d) k (PList []); items ← py_iter lst;
   out ← mapM f items; Ok (PList out))
  = Ok (PList (g <$> entries (PDict d) k)).
Proof.
  unfold key_ok, entries. simpl.
  destruct (dict_lookup d k) as [v|]; simpl; [|done].
  destruct v; simpl; try done.
  intros Hl Hf. rewrite (mapM_ok f g); [done|].
  apply forallb_Forall in Hl. eapply Forall_impl; [exact Hl|]. auto.
Qed.

Lemma extract_organic_results_ok (d : list (string * pyval)) :
  key_ok (list_of is_dict) d "organic_results" = true ->
  extract_organic_results (PDict d)
  = Ok (PList (with_fields organic_fields <$> entries (PDict d) "organic_results")).
Proof. intros Hk. apply (extract_entries d _ _ _ Hk). by intros []. Qed.

Lemma extract_paa_questions_ok (d : list (string * pyval)) :
  key_ok (list_of is_dict) d "related_questions" = true ->
  extract_paa_questions (PDict d)
  = Ok (PList (with_fields paa_fields <$> entries (PDict d) "related_questions")).
Proof. intros Hk. apply (extract_entries d _ _ _ Hk). by intros []. Qed.

Lemma extract_related_searches_ok (d : list (string * pyval)) :
  key_ok (list_of is_dict) d "related_searches" = true ->
  extract_related_searches (PDict d)
  = Ok (PList (with_fields related_fields <$> entries (PDict d) "related_searches")).
Proof. intros Hk. apply (extract_entries d _ _ _ Hk). by intros []. Qed.

Lemma extract_serp_data_ok (d : list (string * pyval)) :
  serp_shaped (PDict d) = true ->
  extract_serp_data (PDict d) =
    Ok (PDict
      [("organic_results",
        PList (with_fields organic_fields <$> entries (PDict d) "organic_results"));
       ("paa_questions",
        PList (with_fields paa_fields <$> entries (PDict d) "related_questions"));
       ("related_searches",
        PList (with_fields related_fields <$> entries (PDict d) "related_searches"));
       ("search_parameters", default (PDict []) (dict_lookup d "search_parameters"))]).
Proof.
  intros [[Ho Hq]%andb_prop Hr]%andb_prop.
  unfold extract_serp_data.
  rewrite extract_organic_results_ok, extract_paa_questions_ok,
    extract_related_searches_ok by done.
  done.
Qed.

(** C10, as the code has it: for an input dictionary whose result lists,
    where present, are lists of dictionaries, [extract_serp_data] returns
    normally.  Each output list is the image of the corresponding input
    list, entry by entry and in order (so the lengths agree); an absent
    field of an entry is replaced by the empty string, an absent list by the
    empty list and absent search parameters by the empty dictionary. *)
Theorem extract_serp_data_normalises (data : pyval) :
  serp_shaped data = true ->
  extract_serp_data data =
    Ok (PDict
      [("organic_results",
        PList (with_fields organic_fields <$> entries data "organic_results"));
       ("paa_questions",
        PList (with_fields paa_fields <$> entries data "related_questions"));
       ("related_searches",
        PList (with_fields related_fields <$> entries data "related_searches"));
       ("search_parameters",
        match data with
        | PDict d => default (PDict []) (dict_lookup d "search_parameters")
        | _ => PDict []
        end)]).
Proof.
  destruct data as [| | | | | |d]; try done. apply extract_serp_data_ok.
Qed.

(** C10, as stated, fails: a dictionary whose result list is [None], or
    holds an entry that is not a dictionary, makes the extraction raise. *)
Lemma extract_serp_data_raises :
  extract_serp_data (PDict [("organic_results", PNone)])
  = Raise (mk_exn TypeError "'NoneType' object is not iterable")
  /\ extract_serp_data (PDict [("related_questions", PList [PStr "why?"])])
     = Raise (mk_exn AttributeError "'str' object has no attribute 'get'").
Proof. split; reflexivity. Qed.

(** ** Formatting *)

Lemma is_str_list (l : list pyval) :
  forallb is_str l = true -> exists ss, l = PStr <$> ss.
Proof.
  induction l as [|v l IH]; simpl.
  - by exists [].
  - intros [Hv Hl]%andb_prop. destruct (IH Hl) as [ss ->].
    destruct v; try done. by exists (s :: ss).
Qed.

Lemma all_str_strs (ss : list string) : all_str (PStr <$> ss) = Ok ss.
Proof. induction ss as [|s ss IH]; csimpl; [done|]. by rewrite IH. Qed.

Lemma strings_of_strs (ss : list string) : strings_of (PList (PStr <$> ss)) = ss.
Proof. simpl. induction ss as [|s ss IH]; csimpl; [done|]. by rewrite IH. Qed.

Section FormattingFacts.
Context {R : Repr}.

Lemma format_citation_data_unfold (v : pyval) :
  format_citation_data v
  = (items ← py_iter v; summaries ← mapM summarise items;
     Ok (join (nl +:+ nl) summaries)).
Proof. reflexivity. Qed.

Lemma format_competitor_content_unfold (v : pyval) :
  format_competitor_content v
  = try_except (format_citation_data v) (fun _ => Ok "").
Proof. reflexivity. Qed.

Lemma join_topics (l : list pyval) :
  forallb is_str l = true ->
  (top5 ← py_slice_to 5 (PList l); py_join ", " top5)
  = Ok (join ", " (take 5 (strings_of (PList l)))).
Proof.
  intros [ss ->]%is_str_list. rewrite strings_of_strs.
  unfold py_slice_to, py_join, py_iter. cbn [mbind result_bind].
  rewrite <- fmap_take, all_str_strs. done.
Qed.

Lemma summarise_shaped (p : pyval) :
  profile_shaped p = true -> summarise p = Ok (profile_summary p).
Proof.
  destruct p as [| | | | | |d]; try done.
  unfold profile_shaped, key_ok, summarise, profile_summary, key_topics_of,
    analysis_of, field, lookup_or. simpl.
  destruct (dict_lookup d "analysis") as [a|]; simpl; [|done].
  destruct a as [| | | | | |ad]; try done. simpl. unfold key_ok.
  destruct (dict_lookup ad "key_topics") as [kt|] eqn:Hkt; simpl; [|done].
  destruct kt as [| | | | |l|]; try done. simpl. intros Hl.
  pose proof (join_topics l Hl) as Hj. simpl in Hj. by rewrite Hj.
Qed.

Lemma format_citation_data_shaped (profiles : list pyval) :
  forallb profile_shaped profiles = true ->
  format_citation_data (PList profiles) = Ok (profile_summaries profiles).
Proof.
  intros Hp. rewrite format_citation_data_unfold. simpl.
  rewrite (mapM_ok summarise profile_summary); [done|].
  apply forallb_Forall in Hp. eapply Forall_impl; [exact Hp|].
  apply summarise_shaped.
Qed.

Lemma format_competitor_content_shaped (profiles : list pyval) :
  forallb profile_shaped profiles = true ->
  format_competitor_content (PList profiles) = Ok (profile_summaries profiles).
Proof.
  intros Hp. rewrite format_competitor_content_unfold.
  by rewrite format_citation_data_shaped.
Qed.

(** C9: on every list of page profiles the citation formatter and the
    competitor formatter return the same string: the profiles' summaries
    (URL, word count, first five key topics separated by commas) separated
    by blank lines. *)
Theorem format_citation_data_same_as_competitor (profiles : list pyval) :
  forallb profile_shaped profiles = true ->
  format_citation_data (PList profiles) = format_competitor_content (PList profiles)
  /\ format_competitor_content (PList profiles) = Ok (profile_summaries profiles).
Proof.
  intros Hp.
  by rewrite format_citation_data_shaped, format_competitor_content_shaped.
Qed.

(** The research report carries the same summaries as the context. *)
Lemma generate_research_report_shaped (timestamp deep_thinking : string)
    (profiles : list pyval) :
  forallb profile_shaped profiles = true ->
  generate_research_report timestamp deep_thinking (PList profiles)
  = Ok ("=== Research Report ===" +:+ nl +:+ nl
        +:+ "Deep Research Thinking Process:" +:+ nl
        +:+ deep_thinking +:+ nl +:+ nl
        +:+ "--- Competitor Content Analysis Summary ---" +:+ nl
        +:+ profile_summaries profiles +:+ nl +:+ nl
        +:+ "Generated on: " +:+ timestamp +:+ nl).
Proof.
  intros Hp. unfold generate_research_report.
  by rewrite format_competitor_content_shaped.
Qed.

Lemma getitem_with_fields (keys : list string) (e : pyval) (k : string) :
  k ∈ keys -> py_getitem (with_fields keys e) k = Ok (field e k).
Proof.
  unfold with_fields. simpl. induction keys as [|k' keys IH]; simpl.
  - by intros ?%elem_of_nil.
  - intros Hk. destruct (decide (k' = k)) as [->|Hne]; [done|].
    apply elem_of_cons in Hk as [->|Hk]; [done|]. by apply IH.
Qed.

Lemma format_top_articles_ok (l : list pyval) :
  format_top_articles (PList (with_fields organic_fields <$> l))
  = Ok (join nl (top_article_line <$> take 5 l)).
Proof.
  unfold format_top_articles. simpl. rewrite <- fmap_take.
  rewrite (mapM_ok _ (fun r => "- " +:+ py_str (lookup_or (PStr "") r "title")
             +:+ " (URL: " +:+ py_str (lookup_or (PStr "") r "link") +:+ ")")).
  - simpl. by rewrite <- list_fmap_compose.
  - apply Forall_fmap, Forall_true. intros e. unfold compose.
    rewrite !getitem_with_fields by (unfold organic_fields; repeat constructor).
    done.
Qed.

Lemma format_paa_questions_ok (l : list pyval) :
  format_paa_questions (PList (with_fields paa_fields <$> l))
  = Ok (join nl (paa_line <$> l)).
Proof.
  unfold format_paa_questions. simpl.
  rewrite (mapM_ok _ (fun r => "- " +:+ py_str (lookup_or (PStr "") r "question"))).
  - simpl. by rewrite <- list_fmap_compose.
  - apply Forall_fmap, Forall_true. intros e. unfold compose.
    rewrite !getitem_with_fields by (unfold paa_fields; repeat constructor).
    done.
Qed.

Lemma format_related_searches_ok (l : list pyval) :
  format_related_searches (PList (with_fields related_fields <$> l))
  = Ok (join nl (related_line <$> l)).
Proof.
  unfold format_related_searches. simpl.
  rewrite (mapM_ok _ (fun r => "- " +:+ py_str (lookup_or (PStr "") r "query"))).
  - simpl. by rewrite <- list_fmap_compose.
  - apply Forall_fmap, Forall_true. intros e. unfold compose.
    rewrite !getitem_with_fields by (unfold related_fields; repeat constructor).
    done.
Qed.
End FormattingFacts.

Lemma append_assoc (a b c : string) : (a +:+ b) +:+ c = a +:+ (b +:+ c).
Proof.
  induction a as [|x a IH]; [done|].
  change (String x (a +:+ b +:+ c)) with (String x a +:+ b +:+ c) in *.
  change (String x ((a +:+ b) +:+ c) = String x (a +:+ b +:+ c)).
  by rewrite IH.
Qed.

Section ContextFacts.
Context {R : Repr}.

Lemma llm_context_text_sections (self : analyzer) (profiles : list pyval)
    (data : pyval) (deep_thinking : string) (citations : list pyval) :
  llm_context_text (py_str (query_of data)) (article_intent self)
    (join ", " (secondary_keywords self))
    (join nl (top_article_line <$> take 5 (entries data "organic_results")))
    (join nl (paa_line <$> entries data "related_questions"))
    (join nl (related_line <$> entries data "related_searches"))
    (profile_summaries profiles) deep_thinking (profile_summaries citations)
  = nl +:+ join (nl +:+ nl) (context_sections self profiles data deep_thinking citations)
       +:+ nl.
Proof.
  unfold llm_context_text, context_sections.
  cbn [join]. rewrite !append_assoc. reflexivity.
Qed.

Lemma serp_analysis_items (a b c p : pyval) :
  let serp_analysis :=
    PDict [("organic_results", a); ("paa_questions", b);
           ("related_searches", c); ("search_parameters", p)] in
  py_getitem serp_analysis "organic_results" = Ok a
  /\ py_getitem serp_analysis "paa_questions" = Ok b
  /\ py_getitem serp_analysis "related_searches" = Ok c.
Proof. by repeat split. Qed.

Lemma query_ok (d : list (string * pyval)) :
  key_ok is_dict d "search_parameters" = true ->
  (search_parameters ← py_get (PDict d) "search_parameters" (PDict []);
   py_get search_parameters "q" (PStr ""))
  = Ok (query_of (PDict d)).
Proof.
  unfold key_ok, query_of, lookup_or. simpl.
  destruct (dict_lookup d "search_parameters") as [sp|]; simpl; [|done].
  by destruct sp.
Qed.

Lemma prepare_llm_context_ok (self : analyzer) (profiles : list pyval)
    (d : list (string * pyval)) (deep_thinking : string) (citations : list pyval) :
  context_shaped (PDict d) = true ->
  forallb profile_shaped profiles = true ->
  forallb profile_shaped citations = true ->
  prepare_llm_context self (PList profiles) (PDict d) deep_thinking (PList citations)
  = Ok (nl +:+ join (nl +:+ nl)
               (context_sections self profiles (PDict d) deep_thinking citations)
           +:+ nl).
Proof.
  intros [Hs Hq]%andb_prop Hp Hc.
  rewrite <- llm_context_text_sections.
  unfold prepare_llm_context.
  rewrite extract_serp_data_ok, format_citation_data_shaped by done.
  cbn [mbind result_bind].
  pose proof (query_ok d Hq) as Hquery.
  destruct (py_get (PDict d) "search_parameters" (PDict [])) as [sp|] eqn:Hsp;
    [|done].
  cbn [mbind result_bind] in Hquery |- *. rewrite Hquery.
  cbn [mbind result_bind].
  match goal with
  | |- context [py_getitem (PDict [(_, ?a); (_, ?b); (_, ?c); (_, ?p)]) _] =>
      destruct (serp_analysis_items a b c p) as (-> & -> & ->)
  end.
  cbn [mbind result_bind].
  rewrite format_top_articles_ok. cbn [mbind result_bind].
  rewrite format_paa_questions_ok. cbn [mbind result_bind].
  rewrite format_related_searches_ok. cbn [mbind result_bind].
  rewrite format_competitor_content_shaped by done.
  done.
Qed.

End ContextFacts.

(** ** Frequency ranking *)

Lemma insert_desc_perm (x : string * nat) (l : list (string * nat)) :
  insert_desc x l ≡ₚ x :: l.
Proof.
  induction l as [|y l IH]; simpl; [done|].
  case_match; [done|]. by rewrite IH, Permutation_swap.
Qed.

Lemma sorted_desc_perm (c : list (string * nat)) : sorted_desc c ≡ₚ c.
Proof.
  induction c as [|x c IH]; simpl; [done|].
  by rewrite insert_desc_perm, IH.
Qed.

Section Stable.
Variable pos : string -> nat.

Lemma item_before_count (a b : string * nat) :
  item_before pos a b -> (b.2 <= a.2)%nat.
Proof. unfold item_before. lia. Qed.

Lemma insert_desc_sorted (x : string * nat) (s : list (string * nat)) :
  StronglySorted (item_before pos) s ->
  Forall (fun z => (pos x.1 < pos z.1)%nat) s ->
  StronglySorted (item_before pos) (insert_desc x s).
Proof.
  induction s as [|y s IH]; simpl; intros Hs Hx.
  - repeat constructor.
  - apply StronglySorted_cons in Hs as [Hy Hs].
    apply Forall_cons in Hx as [Hxy Hx].
    destruct (y.2 <=? x.2)%nat eqn:Hle.
    + apply Nat.leb_le in Hle. apply StronglySorted_cons. split.
      * apply Forall_cons. split.
        { unfold item_before. lia. }
        rewrite Forall_forall in Hy, Hx |- *. intros z Hz.
        specialize (Hy z Hz). specialize (Hx z Hz).
        apply item_before_count in Hy. unfold item_before. lia.
      * by apply StronglySorted_cons.
    + apply Nat.leb_gt in Hle. apply StronglySorted_cons. split.
      * rewrite insert_desc_perm. apply Forall_cons. split; [|done].
        unfold item_before. lia.
      * by apply IH.
Qed.

Lemma sorted_desc_sorted (c : list (string * nat)) :
  StronglySorted (fun a b => (pos a.1 < pos b.1)%nat) c ->
  StronglySorted (item_before pos) (sorted_desc c).
Proof.
  induction c as [|x c IH]; simpl; intros Hc; [constructor|].
  apply StronglySorted_cons in Hc as [Hx Hc].
  apply insert_desc_sorted; [by apply IH|].
  by rewrite sorted_desc_perm.
Qed.
End Stable.

Lemma freq_snoc (l : list string) (x k : string) :
  freq (l ++ [x]) k = if decide (x = k) then S (freq l k) else freq l k.
Proof.
  unfold freq. rewrite filter_app, length_app.
  destruct (decide (x = k)) as [->|Hne].
  - rewrite filter_cons_True by done. simpl. lia.
  - rewrite filter_cons_False by done. simpl. lia.
Qed.

Lemma freq_absent (l : list string) (x : string) : x ∉ l -> freq l x = 0%nat.
Proof.
  unfold freq. induction l as [|y l IH]; [done|].
  intros [Hne Hl]%not_elem_of_cons.
  rewrite filter_cons_False by done. auto.
Qed.

Lemma freq_present (l : list string) (x : string) : x ∈ l -> (0 < freq l x)%nat.
Proof.
  unfold freq. induction l as [|y l IH]; [by intros ?%elem_of_nil|].
  intros Hx. destruct (decide (y = x)) as [->|Hne].
  - rewrite filter_cons_True by done. simpl. lia.
  - rewrite filter_cons_False by done. apply IH.
    apply elem_of_cons in Hx as [->|Hx]; done.
Qed.

Lemma elem_of_firsts (l : list string) (x : string) : x ∈ firsts l <-> x ∈ l.
Proof.
  induction l as [|y l IH]; simpl; [done|].
  rewrite !elem_of_cons, list_elem_of_filter, IH.
  destruct (decide (x = y)); intuition congruence.
Qed.

Lemma NoDup_firsts (l : list string) : NoDup (firsts l).
Proof.
  induction l as [|y l IH]; simpl; [constructor|].
  apply NoDup_cons. split.
  - rewrite list_elem_of_filter. intuition congruence.
  - by apply NoDup_filter.
Qed.

Lemma firsts_snoc (l : list string) (x : string) :
  firsts (l ++ [x]) = if decide (x ∈ l) then firsts l else firsts l ++ [x].
Proof.
  induction l as [|y l IH]; simpl; [done|].
  rewrite IH. destruct (decide (x = y)) as [->|Hne].
  - rewrite (decide_True (P := y ∈ y :: l)) by apply list_elem_of_here.
    destruct (decide (y ∈ l)); [done|].
    rewrite filter_app, filter_cons_False by intuition congruence.
    by rewrite filter_nil, app_nil_r.
  - destruct (decide (x ∈ l)) as [Hx|Hx].
    + by rewrite (decide_True (P := x ∈ y :: l))
        by (by apply list_elem_of_further).
    + rewrite (decide_False (P := x ∈ y :: l))
        by (rewrite elem_of_cons; intuition congruence).
      rewrite filter_app, filter_cons_True by done. by rewrite filter_nil.
Qed.

(** [counter_add] on a counter whose keys are distinct. *)
Lemma counter_add_keys (f : string -> nat) (ks : list string) (x : string) :
  NoDup ks ->
  counter_add x ((fun k => (k, f k)) <$> ks)
  = if decide (x ∈ ks)
    then (fun k => (k, if decide (x = k) then S (f k) else f k)) <$> ks
    else ((fun k => (k, f k)) <$> ks) ++ [(x, 1%nat)].
Proof.
  induction ks as [|k ks IH]; [done|].
  intros [Hk Hks]%NoDup_cons. csimpl.
  destruct (decide (k = x)) as [->|Hne].
  - rewrite (decide_True (P := x ∈ x :: ks)) by apply list_elem_of_here.
    rewrite (decide_True (P := x = x)) by done. f_equal.
    apply list_fmap_ext. intros i k Hi.
    rewrite decide_False; [done|].
    intros ->. apply Hk. by eapply list_elem_of_lookup_2.
  - rewrite IH by done. rewrite (decide_False (P := x = k)) by done.
    destruct (decide (x ∈ ks)) as [Hx|Hx].
    + by rewrite (decide_True (P := x ∈ k :: ks))
        by (by apply list_elem_of_further).
    + by rewrite (decide_False (P := x ∈ k :: ks))
        by (rewrite elem_of_cons; intuition congruence).
Qed.

Lemma Counter_snoc (l : list string) (x : string) :
  Counter (l ++ [x]) = counter_add x (Counter l).
Proof. unfold Counter. by rewrite foldl_app. Qed.

(** A [Counter] holds the distinct tokens in the order of their first
    occurrence, each with its number of occurrences. *)
Lemma Counter_firsts (l : list string) :
  Counter l = (fun k => (k, freq l k)) <$> firsts l.
Proof.
  induction l as [|x l IH] using rev_ind; [done|].
  rewrite Counter_snoc, IH, counter_add_keys by apply NoDup_firsts.
  rewrite firsts_snoc.
  destruct (decide (x ∈ firsts l)) as [Hx|Hx]; rewrite elem_of_firsts in Hx.
  - rewrite (decide_True (P := x ∈ l)) by done. apply list_fmap_ext.
    intros i k _. by rewrite freq_snoc.
  - rewrite (decide_False (P := x ∈ l)) by done. rewrite fmap_app. csimpl.
    rewrite freq_snoc, (decide_True (P := x = x)), freq_absent by done. f_equal.
    apply list_fmap_ext. intros i k Hi. rewrite freq_snoc, decide_False; [done|].
    intros ->. apply Hx, elem_of_firsts. by eapply list_elem_of_lookup_2.
Qed.

Lemma StronglySorted_filter_impl {A} (R R' : relation A) (P : A -> Prop)
    `{forall x, Decision (P x)} (l : list A) :
  (forall x y, P x -> P y -> R x y -> R' x y) ->
  StronglySorted R l -> StronglySorted R' (filter P l).
Proof.
  intros HR. induction 1 as [|x l Hl IH Hx]; [constructor|].
  destruct (decide (P x)) as [Hp|Hp].
  - rewrite filter_cons_True by done. apply StronglySorted_cons. split; [|done].
    rewrite Forall_forall in Hx |- *. intros y [Hy Hin]%list_elem_of_filter.
    auto.
  - by rewrite filter_cons_False.
Qed.

Lemma StronglySorted_fmap_inv {A B} (f : A -> B) (R : relation B) (l : list A) :
  StronglySorted R (f <$> l) -> StronglySorted (fun x y => R (f x) (f y)) l.
Proof.
  induction l as [|x l IH]; [constructor|].
  rewrite fmap_cons. intros [Hx Hl]%StronglySorted_cons.
  apply StronglySorted_cons. split; [|auto].
  rewrite Forall_forall in Hx. apply Forall_forall. intros y Hy.
  apply Hx. by apply list_elem_of_fmap_2.
Qed.

Lemma firsts_sorted (l : list string) :
  StronglySorted (fun x y => (first_pos x l < first_pos y l)%nat) (firsts l).
Proof.
  induction l as [|a l IH]; simpl; [constructor|].
  apply StronglySorted_cons. split.
  - apply Forall_forall. intros y [Hy _]%list_elem_of_filter.
    rewrite (decide_True (P := a = a)) by done.
    rewrite (decide_False (P := a = y)) by congruence. lia.
  - eapply StronglySorted_filter_impl; [|exact IH].
    intros x y Hx Hy Hlt. simpl in *.
    rewrite (decide_False (P := a = x)), (decide_False (P := a = y)) by congruence.
    lia.
Qed.

(** The ranking computed by [most_common] over a [Counter]. *)
Lemma most_common_ranked (n : nat) (toks : list string) :
  ranked_top n toks ((most_common n (Counter toks)).*1).
Proof.
  unfold most_common.
  set (g := fun k => (k, freq toks k)).
  set (pos := fun k => first_pos k toks).
  set (s := sorted_desc (Counter toks)).
  assert (Hperm : s ≡ₚ g <$> firsts toks).
  { unfold s. by rewrite sorted_desc_perm, Counter_firsts. }
  assert (Hg : s = g <$> s.*1).
  { rewrite <- list_fmap_compose. rewrite <- (list_fmap_id s) at 1.
    apply list_fmap_ext. intros i it Hi.
    assert (Hit : it ∈ g <$> firsts toks).
    { rewrite <- Hperm. by eapply list_elem_of_lookup_2. }
    apply list_elem_of_fmap in Hit as (k & -> & _). done. }
  assert (Hkeys : s.*1 ≡ₚ firsts toks).
  { rewrite Hperm, <- list_fmap_compose. by rewrite list_fmap_id. }
  assert (Hsorted : StronglySorted (outranks toks) s.*1).
  { apply (StronglySorted_fmap_inv g (item_before pos)).
    rewrite <- Hg. apply sorted_desc_sorted. rewrite Counter_firsts.
    apply (StronglySorted_fmap g
             (fun x y => (first_pos x toks < first_pos y toks)%nat));
      [done|apply firsts_sorted]. }
  rewrite fmap_take.
  clear Hperm Hg. revert Hkeys Hsorted. generalize (s.*1). clear.
  intros ks Hkeys Hsorted.
  rewrite <- (take_drop n ks) in Hsorted, Hkeys.
  repeat split.
  - rewrite length_take. lia.
  - assert (Hnd : NoDup (take n ks ++ drop n ks))
      by (rewrite Hkeys; apply NoDup_firsts).
    by apply NoDup_app in Hnd as [? _].
  - intros x Hx. apply elem_of_firsts. rewrite <- Hkeys, elem_of_app. by left.
  - by apply StronglySorted_app_1_l in Hsorted.
  - rewrite length_take. apply elem_of_firsts in H. rewrite <- Hkeys in H.
    apply elem_of_app in H as [?|Hd]; [done|].
    apply list_elem_of_lookup in Hd as [i Hi].
    apply lookup_lt_Some in Hi. rewrite length_drop in Hi. lia.
  - intros y Hy. apply elem_of_firsts in H. rewrite <- Hkeys in H.
    apply elem_of_app in H as [?|Hd]; [done|].
    by eapply StronglySorted_app_1_elem_of.
Qed.

Lemma outranks_asym (toks : list string) (x y : string) :
  outranks toks x y -> outranks toks y x -> False.
Proof. unfold outranks. lia. Qed.

Lemma ranked_top_incl (n : nat) (toks r1 r2 : list string) :
  ranked_top n toks r1 -> ranked_top n toks r2 ->
  forall x, x ∈ r1 -> x ∈ r2.
Proof.
  intros (Hlen1 & Hnd1 & Hin1 & _ & Hout1) (Hlen2 & Hnd2 & Hin2 & _ & Hout2) x Hx.
  destruct (decide (x ∈ r2)) as [|Hx2]; [done|]. exfalso.
  destruct (Hout2 x (Hin1 x Hx) Hx2) as [Hfull Hbetter].
  assert (Hsub : forall y, y ∈ x :: r2 -> y ∈ r1).
  { intros y [->|Hy]%elem_of_cons; [done|].
    destruct (decide (y ∈ r1)) as [|Hy1]; [done|]. exfalso.
    destruct (Hout1 y (Hin2 y Hy) Hy1) as [_ Hworse].
    eapply outranks_asym; [apply Hbetter, Hy|apply Hworse, Hx]. }
  assert (Hnd : NoDup (x :: r2)) by (by apply NoDup_cons).
  pose proof (submseteq_length _ _ (NoDup_submseteq _ _ Hnd Hsub)) as Hle.
  simpl in Hle. lia.
Qed.

(** The ranking is determined by the tokens. *)
Lemma ranked_top_unique (n : nat) (toks r1 r2 : list string) :
  ranked_top n toks r1 -> ranked_top n toks r2 -> r1 = r2.
Proof.
  intros H1 H2.
  pose proof (ranked_top_incl n toks r1 r2 H1 H2) as H12.
  pose proof (ranked_top_incl n toks r2 r1 H2 H1) as H21.
  destruct H1 as (_ & Hnd1 & _ & Hs1 & _), H2 as (_ & Hnd2 & _ & Hs2 & _).
  apply (StronglySorted_unique_strong (outranks toks)); [|done|done|].
  - intros x y _ _ Hxy Hyx. destruct (outranks_asym _ _ _ Hxy Hyx).
  - apply NoDup_Permutation; [done|done|]. intros x. split; auto.
Qed.

(** C2: for every text, [extract_key_topics] and [extract_common_phrases]
    each return at most ten distinct entries: the best-ranked tokens of the
    lower-cased text (words, respectively phrases), by descending frequency,
    ties broken by the order of first occurrence; no other list is such a
    ranking.  Equal inputs give equal lists. *)
Theorem key_topics_and_common_phrases_ranked (text : string) :
  (exists topics,
      extract_key_topics (PStr text) = Ok (str_list topics)
      /\ ranked_top 10 (findall re_word (py_lower text)) topics
      /\ forall r, ranked_top 10 (findall re_word (py_lower text)) r -> r = topics)
  /\ (exists phrases,
      extract_common_phrases (PStr text) = Ok (str_list phrases)
      /\ ranked_top 10 (findall re_phrase (py_lower text)) phrases
      /\ forall r, ranked_top 10 (findall re_phrase (py_lower text)) r -> r = phrases)
  /\ (forall text' : string, text' = text ->
      extract_key_topics (PStr text') = extract_key_topics (PStr text)
      /\ extract_common_phrases (PStr text') = extract_common_phrases (PStr text)).
Proof.
  split; [|split].
  - eexists. split; [reflexivity|]. split; [apply most_common_ranked|].
    intros r Hr. eapply ranked_top_unique; [exact Hr|apply most_common_ranked].
  - eexists. split; [reflexivity|]. split; [apply most_common_ranked|].
    intros r Hr. eapply ranked_top_unique; [exact Hr|apply most_common_ranked].
  - by intros text' ->.
Qed.

(** ** Content analysis *)

Lemma str_list_strs (l : list string) : list_of is_str (str_list l) = true.
Proof. simpl. by induction l. Qed.

Lemma extract_common_phrases_total (v : pyval) :
  exists l, extract_common_phrases v = Ok (PList l) /\ forallb is_str l = true.
Proof.
  destruct v; try (by exists []).
  eexists. split; [reflexivity|]. apply (str_list_strs _).
Qed.

Lemma extract_key_topics_total (v : pyval) :
  exists l, extract_key_topics v = Ok (PList l) /\ forallb is_str l = true.
Proof.
  destruct v; try (by exists []).
  eexists. split; [reflexivity|]. apply (str_list_strs _).
Qed.

Lemma analyze_content_structure_total (v : pyval) :
  exists d, analyze_content_structure v = Ok (PDict d).
Proof. destruct v; by eexists. Qed.

Section AnalysisFacts.
Variable BeautifulSoup : pyval -> result soup.

Lemma identify_content_elements_total (content : pyval) :
  exists d, identify_content_elements BeautifulSoup content = Ok (PDict d).
Proof.
  unfold identify_content_elements.
  destruct (BeautifulSoup content) as [sp|]; simpl; [|by eexists].
  repeat (match goal with
          | |- context [find_all sp ?tags] =>
              destruct (find_all sp tags); simpl; [|by eexists]
          end).
  by eexists.
Qed.

Lemma analyze_content_total (content : pyval) :
  exists d, analyze_content BeautifulSoup content = Ok (PDict d)
            /\ (d = [] \/ analysis_complete (PDict d) = true).
Proof.
  unfold analyze_content.
  destruct (BeautifulSoup content) as [sp|]; cbn [mbind result_bind];
    [|by eexists; split; [|left]].
  destruct (get_text sp) as [t|] eqn:Ht; cbn [mbind result_bind];
    [|by eexists; split; [|left]].
  assert (Hbody : forall text_content : pyval,
    exists d,
      try_except
        (words ← str_method "split" text_content;
         common_phrases ← extract_common_phrases text_content;
         content_structure ← analyze_content_structure text_content;
         key_topics ← extract_key_topics text_content;
         content_elements ← identify_content_elements BeautifulSoup content;
         Ok (PDict [("word_count", PInt (Z.of_nat (length (py_split_ws words))));
                    ("common_phrases", common_phrases);
                    ("content_structure", content_structure);
                    ("key_topics", key_topics);
                    ("content_elements", content_elements)]))
        (fun _ => Ok (PDict [])) = Ok (PDict d)
      /\ (d = [] \/ analysis_complete (PDict d) = true)).
  { intros text_content.
    destruct (str_method "split" text_content) as [words|] eqn:Hw; simpl;
      [|by eexists; split; [|left]].
    destruct (extract_common_phrases_total text_content) as (ps & -> & Hps).
    destruct (analyze_content_structure_total text_content) as (cs & ->).
    destruct (extract_key_topics_total text_content) as (ks & -> & Hks).
    destruct (identify_content_elements_total content) as (ce & ->).
    simpl. eexists. split; [reflexivity|]. right. simpl.
    rewrite Hps, Hks, bool_decide_true by lia. done. }
  case_bool_decide; cbn [fmap result_fmap mbind result_bind]; apply Hbody.
Qed.

(** C1: whatever the HTML parser does (it may raise at any of its calls)
    and whatever string the content is (the empty string included),
    [analyze_content] returns normally, and what it returns is a
    dictionary: the empty one or a complete analysis. *)
Theorem analyze_content_never_raises (content : string) :
  exists d, analyze_content BeautifulSoup (PStr content) = Ok (PDict d)
            /\ (d = [] \/ analysis_complete (PDict d) = true).
Proof. apply analyze_content_total. Qed.
End AnalysisFacts.

(** ** Scraping *)

Section ScrapingFacts.
Context {Net : Type}.
Variable BeautifulSoup : pyval -> result soup.
Variable scrape_url : string -> Net -> result pyval * Net.

#[local] Abbreviation scrape_once := (scrape_once BeautifulSoup scrape_url).
#[local] Abbreviation scrape_attempts := (scrape_attempts BeautifulSoup scrape_url).
#[local] Abbreviation scrape_loop := (scrape_loop BeautifulSoup scrape_url).
#[local] Abbreviation profile_of := (profile_of BeautifulSoup).

Lemma profile_of_url (url : string) (answer p : pyval) :
  profile_of url answer = Ok p ->
  profile_url p = PStr url /\ profile_shaped p = true.
Proof.
  unfold profile_of.
  destruct (py_get answer "markdown" (PStr "")) as [md|]; [|done].
  cbn [mbind result_bind].
  destruct (py_get answer "html" md) as [content|]; [|done].
  cbn [mbind result_bind].
  destruct (analyze_content_total BeautifulSoup content)
    as (d & -> & Hd).
  cbn [mbind result_bind]. intros [= <-]. split; [done|].
  destruct Hd as [->|Hd]; [done|].
  unfold profile_shaped, key_ok. simpl.
  revert Hd. unfold analysis_complete.
  repeat (case_match; try done).
  intros [[_ _]%andb_prop Ht]%andb_prop. subst. simpl. unfold key_ok. simpl.
  done.
Qed.
Lemma scrape_once_run (url : string) (w : world Net) :
  scrape_once url w
  = ((scrape_url url (net w)).1 ≫= profile_of url,
     mk_world (scrape_url url (net w)).2 (trace w)).
Proof.
  unfold scrape_once, profile_of, call, lift, mbind at 1 2 3 4, io_mbind, io_bind.
  destruct (scrape_url url (net w)) as [[answer|e] n]; [|done]. simpl.
  destruct (py_get answer "markdown" (PStr "")) as [md|]; [|done]. simpl.
  destruct (py_get answer "html" md) as [content|]; [|done]. simpl.
  by destruct (analyze_content BeautifulSoup content).
Qed.

Lemma scrape_attempts_cons (url : string) (attempt : nat) (rest : list nat)
    (acc : list pyval) (w : world Net) :
  scrape_attempts url (attempt :: rest) acc w
  = let w1 := mk_world (scrape_url url (net w)).2 (trace w) in
    match (scrape_url url (net w)).1 ≫= profile_of url with
    | Ok p => (Ok (acc ++ [p]), w1)
    | Raise _ => scrape_attempts url rest acc (after_failure attempt w1)
    end.
Proof.
  cbn [scrape_attempts].
  unfold mbind at 1, io_mbind, io_bind, io_try.
  unfold mbind at 1, io_mbind, io_bind. rewrite scrape_once_run.
  unfold after_failure.
  destruct ((scrape_url url (net w)).1 ≫= profile_of url); [done|].
  case_bool_decide; done.
Qed.
Lemma scrape_attempts_total (url : string) (attempts : list nat) (w : world Net) :
  exists ps w',
    (forall acc, scrape_attempts url attempts acc w = (Ok (acc ++ ps), w'))
    /\ (ps = []
        \/ exists p n answer,
             ps = [p] /\ (scrape_url url n).1 = Ok answer
             /\ profile_of url answer = Ok p).
Proof.
  revert w. induction attempts as [|attempt rest IH]; intros w.
  - exists [], w. split; [|by left]. intros acc. by rewrite app_nil_r.
  - destruct ((scrape_url url (net w)).1 ≫= profile_of url) as [p|e] eqn:Hp.
    + exists [p], (mk_world (scrape_url url (net w)).2 (trace w)). split.
      * intros acc. by rewrite scrape_attempts_cons, Hp.
      * right. destruct (scrape_url url (net w)).1 as [answer|] eqn:Ha; [|done].
        by exists p, (net w), answer.
    + destruct (IH (after_failure attempt
                      (mk_world (scrape_url url (net w)).2 (trace w))))
        as (ps & w' & Hrun & Hps).
      exists ps, w'. split; [|done].
      intros acc. by rewrite scrape_attempts_cons, Hp.
Qed.

Lemma scrape_loop_cons (url : string) (urls : list string) (acc : list pyval)
    (w : world Net) :
  scrape_loop (url :: urls) acc w
  = match scrape_attempts url (seq 0 max_retries) acc w with
    | (Ok acc', w') => scrape_loop urls acc' w'
    | (Raise _, w') => scrape_loop urls acc w'
    end.
Proof.
  cbn [scrape_loop]. unfold mbind at 1, io_mbind, io_bind, io_try.
  by destruct (scrape_attempts url (seq 0 max_retries) acc w) as [[?|?] ?].
Qed.

#[local] Abbreviation scraped_from := (scraped_from BeautifulSoup scrape_url).

Lemma scrape_loop_total (urls : list string) (w : world Net) :
  exists ps w',
    (forall acc, scrape_loop urls acc w = (Ok (acc ++ ps), w'))
    /\ sublist (profile_url <$> ps) (PStr <$> urls)
    /\ Forall (scraped_from urls) ps.
Proof.
  revert w. induction urls as [|url urls IH]; intros w.
  - exists [], w. repeat split; [|done|done]. intros acc. by rewrite app_nil_r.
  - destruct (scrape_attempts_total url (seq 0 max_retries) w)
      as (ps1 & w1 & Hrun1 & Hps1).
    destruct (IH w1) as (ps & w' & Hrun & Hsub & Hfrom).
    assert (Hmono : Forall (scraped_from (url :: urls)) ps).
    { eapply Forall_impl; [exact Hfrom|].
      intros p (u & n & answer & Hu & Hrest).
      exists u, n, answer. split; [by apply list_elem_of_further|done]. }
    exists (ps1 ++ ps), w'. split; [|split].
    + intros acc. rewrite scrape_loop_cons, Hrun1, Hrun. by rewrite app_assoc.
    + destruct Hps1 as [->|(p & n & answer & -> & Ha & Hp)]; csimpl.
      * by apply sublist_cons.
      * apply profile_of_url in Hp as [-> _]. by apply sublist_skip.
    + apply Forall_app. split; [|done].
      destruct Hps1 as [->|(p & n & answer & -> & Ha & Hp)]; [done|].
      apply Forall_singleton. exists url, n, answer.
      split; [apply list_elem_of_here|done].
Qed.
End ScrapingFacts.

(** ** Search fetcher *)

Section SearchFacts.
Context {Net : Type}.
Variable SERPAPI_KEY : string.
Variable requests_get : string -> string -> Z -> Net -> result response * Net.

#[local] Abbreviation search_attempts := (search_attempts SERPAPI_KEY requests_get).
#[local] Abbreviation get_search_results :=
  (get_search_results SERPAPI_KEY requests_get).

Lemma search_attempts_success (query : string) (num : Z) (attempt : nat)
    (rest : list nat) (w : world Net) (resp : response) (n : Net) (v : pyval) :
  requests_get query SERPAPI_KEY num (net w) = (Ok resp, n) ->
  status_code resp = 200 -> json resp = Ok v ->
  search_attempts query num (attempt :: rest) w = (Ok v, mk_world n (trace w)).
Proof.
  intros Hget Hstatus Hjson. cbn [search_attempts].
  unfold mbind at 1, io_mbind, io_bind, io_try_request.
  unfold mbind at 1, io_mbind, io_bind, call. rewrite Hget.
  rewrite bool_decide_true by done. unfold lift. by rewrite Hjson.
Qed.

Lemma search_attempts_retry (query : string) (num : Z) (attempt : nat)
    (rest : list nat) (w : world Net) (r : result response) (n : Net) :
  requests_get query SERPAPI_KEY num (net w) = (r, n) ->
  search_failed r = true -> attempt ≠ (max_retries - 1)%nat ->
  search_attempts query num (attempt :: rest) w
  = search_attempts query num rest
      (mk_world n (trace w ++ search_pause attempt r)).
Proof.
  intros Hget Hfail Hlast. cbn [search_attempts].
  unfold mbind at 1, io_mbind, io_bind, io_try_request.
  unfold mbind at 1, io_mbind, io_bind, call. rewrite Hget.
  unfold search_failed, search_pause in *.
  rewrite (bool_decide_false (attempt = _)) by done.
  destruct r as [resp|e].
  - case_bool_decide.
    + unfold lift. destruct (json resp) as [v|e]; [done|]. simpl.
      rewrite Hfail. by unfold mbind, io_mbind, io_bind, emit.
    + simpl. by rewrite app_nil_r.
  - rewrite Hfail. by unfold mbind, io_mbind, io_bind, emit.
Qed.

Lemma search_attempts_last (query : string) (num : Z)
    (w : world Net) (r : result response) (n : Net) :
  requests_get query SERPAPI_KEY num (net w) = (r, n) ->
  search_failed r = true ->
  search_attempts query num [(max_retries - 1)%nat] w
  = (Ok (PDict []), mk_world n (trace w)).
Proof.
  intros Hget Hfail. cbn [search_attempts].
  unfold mbind at 1, io_mbind, io_bind, io_try_request.
  unfold mbind at 1, io_mbind, io_bind, call. rewrite Hget.
  unfold search_failed in *.
  rewrite (bool_decide_true (_ = _)) by done.
  destruct r as [resp|e].
  - case_bool_decide.
    + unfold lift. destruct (json resp) as [v|e]; [done|]. simpl.
      by rewrite Hfail.
    + done.
  - by rewrite Hfail.
Qed.
End SearchFacts.

(** ** Fetchers: retries and exhaustion *)

Section FetcherClaims.
Context {Net : Type}.
Variable BeautifulSoup : pyval -> result soup.
Variable scrape_url : string -> Net -> result pyval * Net.
Variable SERPAPI_KEY : string.
Variable requests_get : string -> string -> Z -> Net -> result response * Net.

#[local] Abbreviation scrape_competitor_content :=
  (scrape_competitor_content BeautifulSoup scrape_url).
#[local] Abbreviation scrape_citations :=
  (scrape_citations BeautifulSoup scrape_url).
#[local] Abbreviation search := (get_search_results SERPAPI_KEY requests_get).

Lemma after_failure_retry (attempt : nat) (w : world Net) :
  attempt ≠ (max_retries - 1)%nat ->
  after_failure attempt w = mk_world (net w) (trace w ++ [Sleep 5]).
Proof. intros Hne. unfold after_failure. by rewrite bool_decide_false. Qed.

Lemma after_failure_last (w : world Net) :
  after_failure (max_retries - 1) w = w.
Proof. done. Qed.

Lemma profile_of_dict (url : string) (answer : list (string * pyval)) :
  profile_of BeautifulSoup url (PDict answer)
  = (analysis ← analyze_content BeautifulSoup (content_of (PDict answer));
     Ok (PDict [("url", PStr url); ("content", content_of (PDict answer));
                ("analysis", analysis)])).
Proof. reflexivity. Qed.

Lemma scrape_loop_acc (urls : list string) (acc : list pyval) (w : world Net) :
  exists ps w',
    scrape_loop BeautifulSoup scrape_url urls [] w = (Ok ps, w')
    /\ scrape_loop BeautifulSoup scrape_url urls acc w
       = (Ok (acc ++ ps), w').
Proof.
  destruct (scrape_loop_total BeautifulSoup scrape_url urls w)
    as (ps & w' & Hrun & _).
  exists ps, w'. split; [apply (Hrun [])|apply Hrun].
Qed.

(** Three failed attempts: the URL leaves no profile and the loop goes on
    with the remaining URLs, two pauses later. *)
Lemma scrape_exhausted (url : string) (rest : list string) (n0 n1 n2 n3 : Net)
    (e1 e2 e3 : exn) (tr : list event) :
  scrape_url url n0 = (Raise e1, n1) ->
  scrape_url url n1 = (Raise e2, n2) ->
  scrape_url url n2 = (Raise e3, n3) ->
  scrape_competitor_content (url :: rest) (mk_world n0 tr)
  = scrape_competitor_content rest (mk_world n3 (tr ++ [Sleep 5; Sleep 5])).
Proof.
  intros H0 H1 H2. unfold scrape_competitor_content.
  rewrite scrape_loop_cons. cbn [seq max_retries].
  rewrite !scrape_attempts_cons. cbn [net trace].
  rewrite H0. cbn [fst snd mbind result_bind]. rewrite after_failure_retry by done.
  rewrite !scrape_attempts_cons. cbn [net trace].
  rewrite H1. cbn [fst snd mbind result_bind]. rewrite after_failure_retry by done.
  rewrite !scrape_attempts_cons. cbn [net trace].
  rewrite H2. cbn [fst snd mbind result_bind]. rewrite after_failure_last.
  cbn [scrape_attempts io_ret net trace]. by rewrite <- app_assoc.
Qed.

(** Two failed attempts and a third that answers with a dictionary: the
    profile built from the answer is returned, then the remaining URLs are
    processed. *)
Lemma scrape_third_attempt (url : string) (rest : list string) (n0 n1 n2 n3 : Net)
    (e1 e2 : exn) (answer : list (string * pyval)) (tr : list event) :
  scrape_url url n0 = (Raise e1, n1) ->
  scrape_url url n1 = (Raise e2, n2) ->
  scrape_url url n2 = (Ok (PDict answer), n3) ->
  exists analysis ps w',
    analyze_content BeautifulSoup (content_of (PDict answer)) = Ok analysis
    /\ scrape_competitor_content (url :: rest) (mk_world n0 tr)
       = (Ok (PDict [("url", PStr url);
                     ("content", content_of (PDict answer));
                     ("analysis", analysis)] :: ps), w')
    /\ scrape_competitor_content rest (mk_world n3 (tr ++ [Sleep 5; Sleep 5]))
       = (Ok ps, w').
Proof.
  intros H0 H1 H2.
  destruct (analyze_content_total BeautifulSoup (content_of (PDict answer)))
    as (d & Hd & _).
  destruct (scrape_loop_acc rest
              [PDict [("url", PStr url); ("content", content_of (PDict answer));
                      ("analysis", PDict d)]]
              (mk_world n3 (tr ++ [Sleep 5; Sleep 5])))
    as (ps & w' & Hps & Hacc).
  exists (PDict d), ps, w'. split; [done|]. split; [|done].
  unfold scrape_competitor_content.
  rewrite scrape_loop_cons. cbn [seq max_retries].
  rewrite !scrape_attempts_cons. cbn [net trace].
  rewrite H0. cbn [fst snd mbind result_bind]. rewrite after_failure_retry by done.
  rewrite !scrape_attempts_cons. cbn [net trace].
  rewrite H1. cbn [fst snd mbind result_bind]. rewrite after_failure_retry by done.
  rewrite !scrape_attempts_cons. cbn [net trace].
  rewrite H2. cbn [fst snd mbind result_bind].
  rewrite profile_of_dict, Hd. cbn [mbind result_bind app].
  by rewrite <- app_assoc.
Qed.

(** C3: a fetch whose first two attempts fail and whose third succeeds
    returns the successful result, without an error: [get_search_results]
    returns the decoded response, the scraping loop returns the profile
    built from the answer and goes on.  A fetch that fails on all three
    attempts yields an empty result: [get_search_results] returns the empty
    dictionary, the scraping loop adds nothing for the URL, and the run goes
    on with the remaining URLs. *)
Theorem fetch_retry_then_exhaustion :
  (forall (query : string) (num : Z) (n0 n1 n2 n3 : Net) (r0 r1 : result response)
          (resp : response) (v : pyval) (tr : list event),
      SERPAPI_KEY ≠ "" ->
      requests_get query SERPAPI_KEY num n0 = (r0, n1) -> search_failed r0 = true ->
      requests_get query SERPAPI_KEY num n1 = (r1, n2) -> search_failed r1 = true ->
      requests_get query SERPAPI_KEY num n2 = (Ok resp, n3) ->
      status_code resp = 200 -> json resp = Ok v ->
      search query num (mk_world n0 tr)
      = (Ok v, mk_world n3 (tr ++ search_pause 0 r0 ++ search_pause 1 r1)))
  /\ (forall (query : string) (num : Z) (n0 n1 n2 n3 : Net)
             (r0 r1 r2 : result response) (tr : list event),
      SERPAPI_KEY ≠ "" ->
      requests_get query SERPAPI_KEY num n0 = (r0, n1) -> search_failed r0 = true ->
      requests_get query SERPAPI_KEY num n1 = (r1, n2) -> search_failed r1 = true ->
      requests_get query SERPAPI_KEY num n2 = (r2, n3) -> search_failed r2 = true ->
      search query num (mk_world n0 tr)
      = (Ok (PDict []), mk_world n3 (tr ++ search_pause 0 r0 ++ search_pause 1 r1)))
  /\ (forall (url : string) (rest : list string) (n0 n1 n2 n3 : Net) (e1 e2 : exn)
             (answer : list (string * pyval)) (tr : list event),
      scrape_url url n0 = (Raise e1, n1) ->
      scrape_url url n1 = (Raise e2, n2) ->
      scrape_url url n2 = (Ok (PDict answer), n3) ->
      exists analysis ps w',
        analyze_content BeautifulSoup (content_of (PDict answer)) = Ok analysis
        /\ scrape_competitor_content (url :: rest) (mk_world n0 tr)
           = (Ok (PDict [("url", PStr url);
                         ("content", content_of (PDict answer));
                         ("analysis", analysis)] :: ps), w')
        /\ scrape_competitor_content rest (mk_world n3 (tr ++ [Sleep 5; Sleep 5]))
           = (Ok ps, w'))
  /\ (forall (url : string) (rest : list string) (n0 n1 n2 n3 : Net)
             (e1 e2 e3 : exn) (tr : list event),
      scrape_url url n0 = (Raise e1, n1) ->
      scrape_url url n1 = (Raise e2, n2) ->
      scrape_url url n2 = (Raise e3, n3) ->
      scrape_competitor_content (url :: rest) (mk_world n0 tr)
      = scrape_competitor_content rest (mk_world n3 (tr ++ [Sleep 5; Sleep 5]))).
Proof.
  split; [|split; [|split]].
  - intros query num n0 n1 n2 n3 r0 r1 resp v tr Hkey H0 F0 H1 F1 H2 Hs Hj.
    unfold get_search_results. rewrite bool_decide_false by done.
    cbn [seq max_retries].
    rewrite (search_attempts_retry _ _ _ _ 0%nat _ _ r0 n1) by done.
    rewrite (search_attempts_retry _ _ _ _ 1%nat _ _ r1 n2) by done.
    rewrite (search_attempts_success _ _ _ _ 2%nat _ _ resp n3 v) by done.
    cbn [trace]. by rewrite <- app_assoc.
  - intros query num n0 n1 n2 n3 r0 r1 r2 tr Hkey H0 F0 H1 F1 H2 F2.
    unfold get_search_results. rewrite bool_decide_false by done.
    cbn [seq max_retries].
    rewrite (search_attempts_retry _ _ _ _ 0%nat _ _ r0 n1) by done.
    rewrite (search_attempts_retry _ _ _ _ 1%nat _ _ r1 n2) by done.
    rewrite (search_attempts_last _ _ _ _ _ r2 n3) by done.
    cbn [trace]. by rewrite <- app_assoc.
  - apply scrape_third_attempt.
  - apply scrape_exhausted.
Qed.

End FetcherClaims.

(** ** Text *)

Lemma of_to_text (s : string) : of_text (to_text s) = s.
Proof. apply String.string_of_list_ascii_of_string. Qed.

Lemma to_of_text (t : text) : to_text (of_text t) = t.
Proof. apply String.list_ascii_of_string_of_list_ascii. Qed.

Lemma starts_with_app (p r : text) : starts_with p (p ++ r) = true.
Proof.
  induction p as [|a p IH]; simpl; [done|].
  by rewrite bool_decide_true, IH.
Qed.

Lemma starts_with_drop (p t : text) :
  starts_with p t = true -> t = p ++ drop (length p) t.
Proof.
  revert t. induction p as [|a p IH]; intros [|b t]; simpl; try done.
  intros [Hab Hp]%andb_prop. apply bool_decide_eq_true in Hab as ->.
  f_equal. by apply IH.
Qed.

Lemma find_sub_cons (p : text) (c : ascii) (t : text) :
  find_sub p (c :: t)
  = if starts_with p (c :: t) then Some 0%nat else S <$> find_sub p t.
Proof. done. Qed.

Lemma find_sub_nil (p : text) :
  find_sub p [] = if starts_with p [] then Some 0%nat else None.
Proof. done. Qed.

Lemma find_sub_Some (p t : text) (i : nat) :
  find_sub p t = Some i ->
  t = take i t ++ p ++ drop (i + length p) t /\ length (take i t) = i.
Proof.
  revert i. induction t as [|c t IH]; intros i.
  - rewrite find_sub_nil. case_match eqn:Hp; [|done]. intros [= <-].
    split; [|done]. by apply starts_with_drop in Hp.
  - rewrite find_sub_cons. case_match eqn:Hp.
    + intros [= <-]. split; [|done]. by apply starts_with_drop in Hp.
    + destruct (find_sub p t) as [j|]; [|done]. intros [= <-].
      destruct (IH j eq_refl) as [Ht Hlen]. simpl. split; [|by f_equal].
      by f_equal.
Qed.

Lemma find_sub_occurs (p a b : text) : is_Some (find_sub p (a ++ p ++ b)).
Proof.
  induction a as [|c a IH]; simpl app.
  - destruct (p ++ b) as [|c t] eqn:Ht.
    + rewrite find_sub_nil, <- Ht, starts_with_app. by eexists.
    + rewrite find_sub_cons, <- Ht, starts_with_app. by eexists.
  - rewrite find_sub_cons. case_match; [by eexists|].
    destruct IH as [j ->]. by eexists.
Qed.

Lemma find_sub_None_drop (p t : text) (k : nat) :
  find_sub p t = None -> find_sub p (drop k t) = None.
Proof.
  revert k. induction t as [|c t IH]; intros [|k]; try done.
  rewrite find_sub_cons. case_match; [done|].
  destruct (find_sub p t) eqn:Hf; [done|]. intros _. simpl. by apply IH.
Qed.

(** *** Removal of the thinking spans *)

Lemma re_sub_think_go_skip (k : nat) (t : text) :
  re_sub_think_go k t = re_sub_think_go 0 (drop k t).
Proof.
  revert k. induction t as [|c t IH]; intros [|k]; try done.
  simpl. apply IH.
Qed.

Lemma re_sub_think_go_cons (c : ascii) (t : text) :
  re_sub_think_go 0 (c :: t)
  = if starts_with think_open (c :: t) then
      match find_sub think_close (drop (length think_open) (c :: t)) with
      | Some j =>
          re_sub_think_go 0
            (drop (length think_open + j + length think_close) (c :: t))
      | None => c :: re_sub_think_go 0 t
      end
    else c :: re_sub_think_go 0 t.
Proof.
  cbn [re_sub_think_go]. case_match; [|done]. case_match; [|done].
  rewrite re_sub_think_go_skip. f_equal.
Qed.

Lemma spans_removed_sub (t : text) : spans_removed t (re_sub_think_go 0 t).
Proof.
  remember (length t) as n eqn:Hn. revert t Hn.
  induction n as [n IH] using lt_wf_ind. intros [|c t] Hn; [constructor|].
  rewrite re_sub_think_go_cons.
  destruct (starts_with think_open (c :: t)) eqn:Hopen.
  - apply starts_with_drop in Hopen as Ht.
    destruct (find_sub think_close (drop (length think_open) (c :: t)))
      as [j|] eqn:Hclose.
    + apply find_sub_Some in Hclose as Hu. destruct Hu as [Hu Hj].
      set (u := drop (length think_open) (c :: t)) in *.
      assert (Hrest : drop (length think_open + j + length think_close) (c :: t)
                      = drop (j + length think_close) u).
      { unfold u. by rewrite drop_drop. }
      rewrite Hrest.
      assert (Hfind : find_sub think_close
                        (take j u ++ think_close
                           ++ drop (j + length think_close) u)
                      = Some (length (take j u))) by (by rewrite Hj, <- Hu).
      assert (Hlen : (length (drop (j + length think_close) u) < n)%nat).
      { rewrite Hn, Ht, length_drop, length_app. simpl. lia. }
      assert (Heq : c :: t = think_open ++ take j u ++ think_close
                              ++ drop (j + length think_close) u)
        by (by rewrite <- Hu).
      clear Hrest Hu Hj Hclose Ht Hopen Hn.
      generalize dependent (drop (j + length think_close) u).
      generalize dependent (take j u). intros body rest Hfind Hlen Heq.
      rewrite Heq. apply spans_drop; [done|]. by eapply IH.
    + apply spans_keep.
      * intros body rest' Heq. rewrite Heq in Hclose.
        rewrite drop_app_length in Hclose.
        by destruct (find_sub_occurs think_close body rest') as [? ?Hsome];
          rewrite Hsome in Hclose.
      * eapply IH; [|reflexivity]. rewrite Hn. simpl. lia.
  - apply spans_keep.
    + intros body rest' Heq. rewrite Heq, starts_with_app in Hopen. done.
    + eapply IH; [|reflexivity]. rewrite Hn. simpl. lia.
Qed.

Lemma re_sub_think_go_id (t : text) :
  find_sub think_open t = None \/ find_sub think_close t = None ->
  re_sub_think_go 0 t = t.
Proof.
  induction t as [|c t IH]; [done|]. intros Hnone.
  rewrite re_sub_think_go_cons.
  assert (Ht : re_sub_think_go 0 t = t).
  { apply IH. destruct Hnone as [H|H]; [left|right];
      apply (find_sub_None_drop _ _ 1) in H; exact H. }
  rewrite Ht. case_match eqn:Hopen; [|done].
  destruct Hnone as [H|H].
  - rewrite find_sub_cons, Hopen in H. done.
  - by rewrite (find_sub_None_drop _ _ _ H).
Qed.

(** *** [split] and [strip] *)

Lemma split_go_head (sep cur t : text) :
  head (split_go sep 0 cur t) = Some (reverse cur ++ before_first sep t).
Proof.
  revert cur. induction t as [|c t IH]; intros cur.
  - unfold before_first. cbn [split_go head].
    destruct (find_sub sep []); by rewrite ?take_nil, app_nil_r.
  - cbn [split_go]. unfold before_first. rewrite find_sub_cons.
    destruct (starts_with sep (c :: t)) eqn:Hs.
    + cbn [head take]. by rewrite app_nil_r.
    + rewrite IH, reverse_cons, <- app_assoc. unfold before_first.
      by destruct (find_sub sep t).
Qed.

Lemma first_item_split (sep s : string) :
  first_item (py_split sep s)
  = Ok (of_text (before_first (to_text sep) (to_text s))).
Proof.
  unfold py_split. pose proof (split_go_head (to_text sep) [] (to_text s)) as Hh.
  destruct (split_go (to_text sep) 0 [] (to_text s)) as [|x l]; [done|].
  simpl in Hh. by injection Hh as ->.
Qed.

Lemma drop_while_suffix {A} (p : A -> bool) (l : list A) :
  exists w, l = w ++ drop_while p l.
Proof.
  induction l as [|a l [w IH]]; simpl; [by exists []|].
  destruct (p a); [|by exists []].
  exists (a :: w). simpl. by f_equal.
Qed.

Lemma drop_while_trimmed {A} (p : A -> bool) (l : list A) :
  trimmed p (drop_while p l).
Proof. induction l as [|a l IH]; simpl; [done|]. by destruct (p a) eqn:?. Qed.

Lemma trimmed_drop_while {A} (p : A -> bool) (l : list A) :
  trimmed p l -> drop_while p l = l.
Proof. destruct l as [|a l]; simpl; [done|]. by intros ->. Qed.

Lemma strip_text_idem (t : text) : strip_text (strip_text t) = strip_text t.
Proof.
  unfold strip_text.
  set (u := drop_while is_space t).
  set (v' := drop_while is_space (reverse u)).
  assert (Hu : trimmed is_space u) by apply drop_while_trimmed.
  assert (Hv' : trimmed is_space v') by apply drop_while_trimmed.
  assert (Hv : trimmed is_space (reverse v')).
  { destruct (drop_while_suffix is_space (reverse u)) as [w Hw]. fold v' in Hw.
    apply (f_equal reverse) in Hw. rewrite reverse_involutive, reverse_app in Hw.
    destruct (reverse v') as [|a r]; [done|].
    rewrite Hw in Hu. exact Hu. }
  rewrite (trimmed_drop_while _ _ Hv), reverse_involutive.
  by rewrite (trimmed_drop_while _ _ Hv').
Qed.

Lemma py_strip_idem (s : string) : py_strip (py_strip s) = py_strip s.
Proof. unfold py_strip. by rewrite to_of_text, strip_text_idem. Qed.

Lemma strip_text_infix (t : text) : exists l r, t = l ++ strip_text t ++ r.
Proof.
  unfold strip_text.
  destruct (drop_while_suffix is_space t) as [w1 H1].
  destruct (drop_while_suffix is_space (reverse (drop_while is_space t)))
    as [w2 H2].
  apply (f_equal reverse) in H2. rewrite reverse_involutive, reverse_app in H2.
  exists w1, (reverse w2). by rewrite <- H2.
Qed.

(** *** Occurrences *)

Lemma find_sub_min (p t : text) (i : nat) :
  find_sub p t = Some i ->
  forall a b, t = a ++ p ++ b -> (i <= length a)%nat.
Proof.
  revert i. induction t as [|c t IH]; intros i.
  - rewrite find_sub_nil. case_match; [|done]. intros [= <-] a b _. lia.
  - rewrite find_sub_cons. case_match eqn:Hs.
    + intros [= <-] a b _. lia.
    + destruct (find_sub p t) as [j|]; [|done]. intros [= <-] [|c' a] b Heq.
      * simpl in Heq. rewrite Heq, starts_with_app in Hs. done.
      * injection Heq as _ Heq. simpl. specialize (IH j eq_refl a b Heq). lia.
Qed.

Lemma find_sub_infix_None (p l m r : text) :
  find_sub p (l ++ m ++ r) = None -> find_sub p m = None.
Proof.
  intros Hnone. destruct (find_sub p m) as [j|] eqn:Hm; [|done].
  apply find_sub_Some in Hm as [Hm _].
  destruct (find_sub_occurs p (l ++ take j m) (drop (j + length p) m ++ r))
    as [k Hk].
  assert (Heq : l ++ m ++ r
                = (l ++ take j m) ++ p ++ (drop (j + length p) m ++ r)).
  { rewrite Hm at 1. by repeat rewrite <- app_assoc. }
  rewrite Heq, Hk in Hnone. done.
Qed.

Lemma before_first_clean (p t : text) :
  p ≠ [] -> find_sub p (before_first p t) = None.
Proof.
  intros Hp. unfold before_first.
  destruct (find_sub p t) as [i|] eqn:Hi; [|done].
  destruct (find_sub p (take i t)) as [j|] eqn:Hj; [|done]. exfalso.
  apply find_sub_Some in Hj as [Hj Hlen].
  assert (Ht : t = take j (take i t) ++ p
                   ++ (drop (j + length p) (take i t) ++ drop i t)).
  { rewrite <- (take_drop i t) at 1. rewrite Hj at 1.
    by rewrite <- !app_assoc. }
  pose proof (find_sub_min p t i Hi _ _ Ht) as Hmin.
  apply (f_equal length) in Hj. rewrite !length_app, Hlen in Hj.
  pose proof (length_take t i) as Hle.
  destruct p; [done|]. simpl in Hj. rewrite Hlen in Hmin. lia.
Qed.

Lemma excerpt_without_marker (s : string) :
  contains competitor_marker (py_strip (before_marker s)) = false.
Proof.
  unfold contains, py_strip, before_marker. rewrite !to_of_text.
  apply bool_decide_eq_false. rewrite <- eq_None_not_Some.
  destruct (strip_text_infix
              (before_first (to_text competitor_marker) (to_text s)))
    as (l & r & Heq).
  apply (find_sub_infix_None _ l _ r). rewrite <- Heq.
  by apply before_first_clean.
Qed.

(** ** Research excerpt *)

Lemma contains_tags (s : string) :
  contains "<think>" s && contains "</think>" s = false ->
  re_sub_think s = s.
Proof.
  unfold contains, re_sub_think. intros Hc.
  rewrite re_sub_think_go_id; [apply of_to_text|].
  apply andb_false_iff in Hc as [Hc|Hc]; [left|right];
    apply bool_decide_eq_false in Hc;
    by apply eq_None_not_Some.
Qed.

Lemma contains_marker_before (s : string) :
  contains competitor_marker s = false -> before_marker s = s.
Proof.
  unfold contains, before_marker, before_first. intros Hc.
  apply bool_decide_eq_false, eq_None_not_Some in Hc. rewrite Hc.
  apply of_to_text.
Qed.

Lemma extract_research_content_eq (research_text : string) :
  extract_research_content research_text
  = Ok (py_strip (before_marker
                    (py_replace report_banner "" (re_sub_think research_text)))).
Proof.
  unfold extract_research_content.
  destruct (contains "<think>" research_text
            && contains "</think>" research_text) eqn:Htags;
    [|rewrite contains_tags by done].
  + destruct (contains competitor_marker
                (py_replace report_banner "" (re_sub_think research_text)))
      eqn:Hm.
    * rewrite first_item_split. cbn [fmap result_fmap mbind result_bind try_except].
      by rewrite py_strip_idem.
    * cbn [mbind result_bind try_except]. by rewrite contains_marker_before.
  + destruct (contains competitor_marker
                (py_replace report_banner "" research_text)) eqn:Hm.
    * rewrite first_item_split. cbn [fmap result_fmap mbind result_bind try_except].
      by rewrite py_strip_idem.
    * cbn [mbind result_bind try_except]. by rewrite contains_marker_before.
Qed.

(** ** Blog generation and the end of [main] *)

Section IoFacts.
Context {Net A B : Type}.

Lemma io_bind_raise (m : io Net A) (k : A -> io Net B) (w w' : world Net) (e : exn) :
  m w = (Raise e, w') -> (m ≫= k) w = (Raise e, w').
Proof. intros Hm. unfold mbind, io_mbind, io_bind. by rewrite Hm. Qed.

Lemma io_bind_ok (m : io Net A) (k : A -> io Net B) (w w' : world Net) (a : A) :
  m w = (Ok a, w') -> (m ≫= k) w = k a w'.
Proof. intros Hm. unfold mbind, io_mbind, io_bind. by rewrite Hm. Qed.

Lemma io_try_raise (m : io Net A) (h : exn -> io Net A) (w w' : world Net) (e : exn) :
  m w = (Raise e, w') -> io_try m h w = h e w'.
Proof. intros Hm. unfold io_try. by rewrite Hm. Qed.

Lemma io_try_ok (m : io Net A) (h : exn -> io Net A) (w w' : world Net) (a : A) :
  m w = (Ok a, w') -> io_try m h w = (Ok a, w').
Proof. intros Hm. unfold io_try. by rewrite Hm. Qed.
End IoFacts.

Section BlogFacts.
Context {Net : Type}.
Variable ANTHROPIC_API_KEY : string.
Variable messages_create : string -> Net -> result (option message) * Net.
Variable create_combined_pdf : string -> string -> option string -> string -> result string.
Variable clicked : string -> bool.
Variable pdf_stamp : string.

#[local] Abbreviation generate_blog_content :=
  (generate_blog_content ANTHROPIC_API_KEY messages_create).
#[local] Abbreviation main_after_analysis :=
  (main_after_analysis ANTHROPIC_API_KEY messages_create create_combined_pdf
     clicked pdf_stamp).

(** The blog stage has no fallback: a reply without an article raises. *)
Lemma generate_blog_content_fails (outline : string) (research : option string)
    (w : world Net) (r : result (option message)) (n : Net) :
  ANTHROPIC_API_KEY ≠ "" ->
  messages_create (blog_prompt outline research) (net w) = (r, n) ->
  no_blog_content r = true ->
  generate_blog_content outline research w
  = (Raise (blog_error r), mk_world n (trace w)).
Proof.
  intros Hkey Hcall Hr. unfold generate_blog_content.
  rewrite bool_decide_false by done.
  unfold io_try, mbind, io_mbind, io_bind, call, lift. rewrite Hcall.
  destruct r as [[m|]|e]; try done.
  destruct m as [[|[text|] blocks]]; done.
Qed.

Lemma generate_blog_content_returns (outline : string) (research : option string)
    (w : world Net) (text : string) (blocks : list (option string)) (n : Net) :
  ANTHROPIC_API_KEY ≠ "" ->
  messages_create (blog_prompt outline research) (net w)
  = (Ok (Some {| content := Some text :: blocks |}), n) ->
  generate_blog_content outline research w = (Ok text, mk_world n (trace w)).
Proof.
  intros Hkey Hcall. unfold generate_blog_content.
  rewrite bool_decide_false by done.
  unfold io_try, mbind, io_mbind, io_bind, call, lift. by rewrite Hcall.
Qed.

(** C7, on the code: when the blog model gives no article,
    [generate_blog_content] raises; with automatic generation switched on,
    that error leaves the run at once, and the only thing the operator is
    shown after it is the error message: neither the outline nor the
    research report reaches the page. *)
Theorem blog_failure_in_automatic_run (search_query outline report excerpt : string)
    (w : world Net) (r : result (option message)) (n : Net) :
  ANTHROPIC_API_KEY ≠ "" ->
  extract_research_content report = Ok excerpt ->
  messages_create (blog_prompt outline (Some excerpt)) (net w) = (r, n) ->
  no_blog_content r = true ->
  generate_blog_content outline (Some excerpt) w
  = (Raise (blog_error r), mk_world n (trace w))
  /\ main_after_analysis search_query true outline report w
     = (Ok tt,
        mk_world n
          (trace w ++ [StError ("Error during analysis: "
                                  +:+ "Error generating content: "
                                  +:+ blog_failure_message r)])).
Proof.
  intros Hkey Hex Hcall Hr.
  pose proof (generate_blog_content_fails outline (Some excerpt) w r n
                Hkey Hcall Hr) as Hfail.
  split; [done|].
  unfold main_after_analysis.
  rewrite (io_try_raise _ _ w (mk_world n (trace w)) (blog_error r));
    [reflexivity|].
  apply io_bind_raise.
  rewrite bool_decide_false by done. cbn [andb negb].
  erewrite io_bind_ok; [|by unfold lift; rewrite Hex].
  by apply io_bind_raise.
Qed.
End BlogFacts.

(** ** The scenarios, evaluated *)

Example analyze_empty_string :
  analyze_content plain_parser (PStr "")
  = Ok (PDict [("word_count", PInt 0); ("common_phrases", PList []);
               ("content_structure",
                PDict [("total_paragraphs", PInt 1);
                       ("avg_paragraph_length", PFloat 0 1)]);
               ("key_topics", PList []);
               ("content_elements",
                PDict [("lists", PInt 0); ("tables", PInt 0); ("images", PInt 0);
                       ("links", PInt 0); ("headings", PInt 0)])]).
Proof. vm_compute. reflexivity. Qed.

Example analyze_without_parser : analyze_content no_parser (PStr "") = Ok (PDict []).
Proof. reflexivity. Qed.

Example key_topics_ties :
  extract_key_topics (PStr "b a B A c") = Ok (str_list ["b"; "a"; "c"]).
Proof. vm_compute. reflexivity. Qed.

Example common_phrases_sample :
  extract_common_phrases (PStr "Mix one part cement. Mix two parts sand.")
  = Ok (str_list ["mix one part cement"; "mix two parts sand"]).
Proof. vm_compute. reflexivity. Qed.

Example excerpt_sample :
  extract_research_content
    ("=== Research Report ===" +:+ nl +:+ nl
     +:+ "Deep Research Thinking Process:" +:+ nl
     +:+ "<think>plan</think>Use 1:2:3." +:+ nl +:+ nl
     +:+ competitor_marker +:+ nl +:+ "URL: x" +:+ nl)
  = Ok ("Deep Research Thinking Process:" +:+ nl +:+ "Use 1:2:3.").
Proof. vm_compute. reflexivity. Qed.

(** A span that only comes into being when an inner span is removed stays
    in the excerpt: the removal is one pass over the text. *)
Example excerpt_single_pass :
  extract_research_content "<thi<think>x</think>nk>y</think>"
  = Ok "<think>y</think>".
Proof. vm_compute. reflexivity. Qed.

(** The scenario of the specification: three organic results, two
    questions, one related search, two competitor profiles with 500 and 800
    words. *)
Example scenario_context :
  prepare_llm_context (R := plain_repr) scenario_analyzer (PList scenario_profiles)
    scenario_serp "Ratios depend on strength class." (PList [])
  = Ok "
Search Query: concrete mixing ratios

Content Parameters:
Article Intent: informational
Secondary Keywords: cement ratio, sand

--- Top Ranking Articles ---
- Concrete Mix Ratios Explained (URL: https://example.com/ratios)
- How to Mix Concrete (URL: https://example.org/how-to)
-  (URL: https://example.net/untitled)

--- People Also Ask Questions ---
- What is the 1:2:3 mix?
- How much water per bag?

--- Related Searches ---
- concrete mix calculator

--- Competitor Content Analysis ---
URL: https://example.com/ratios
Word Count: 500
Key Topics: concrete, mix, ratio, cement, sand

URL: https://example.org/how-to
Word Count: 800
Key Topics: 

--- Deep Research Thinking Process ---
Ratios depend on strength class.

--- Citation Content from Deep Research ---

".
Proof. vm_compute. reflexivity. Qed.

(** With automatic generation the operator sees the error and nothing
    else; when the operator asks for the article by hand, the outline and
    the report are on the page before the error. *)
Example automatic_run_shows_error_only :
  trace (main_after_analysis "sk-test" silent_model sample_pdf press_nothing
           "20250101_0000" "concrete mixing ratios" true "OUTLINE" "REPORT"
           (mk_world 0%nat [])).2
  = [StError ("Error during analysis: Error generating content: "
                +:+ "No content received from Claude API")].
Proof. vm_compute. reflexivity. Qed.

Example manual_run_keeps_artifacts :
  trace (main_after_analysis "sk-test" silent_model sample_pdf press_generate
           "20250101_0000" "concrete mixing ratios" false "OUTLINE" "REPORT"
           (mk_world 0%nat [])).2
  = [StMarkdown "### Enhanced SEO Outline"; StMarkdown "OUTLINE";
     StDownloadButton "Download SEO Outline" "OUTLINE" "seo_outline.txt";
     StMarkdown "### Research Report"; StMarkdown "REPORT";
     StDownloadButton "Download Research Report" "REPORT" "research_report.txt";
     StMarkdown "### Generated Blog Content";
     StError ("Error during content generation: Error generating content: "
                +:+ "No content received from Claude API");
     StInfo "Please make sure your ANTHROPIC_API_KEY is correctly set in the .env file";
     StMarkdown "### Download Combined Report"].
Proof. vm_compute. reflexivity. Qed.

(** ** The theorems at concrete inputs *)

Lemma extract_serp_data_normalises_witness :
  serp_shaped scenario_serp = true
  /\ extract_serp_data scenario_serp
     = Ok (PDict
         [("organic_results",
           PList (with_fields organic_fields
                    <$> entries scenario_serp "organic_results"));
          ("paa_questions",
           PList (with_fields paa_fields
                    <$> entries scenario_serp "related_questions"));
          ("related_searches",
           PList (with_fields related_fields
                    <$> entries scenario_serp "related_searches"));
          ("search_parameters", PDict [("q", PStr "concrete mixing ratios")])]).
Proof.
  split; [reflexivity|].
  apply (extract_serp_data_normalises scenario_serp). reflexivity.
Defined.

Lemma format_citation_data_same_as_competitor_witness :
  forallb profile_shaped scenario_profiles = true
  /\ format_citation_data (R := plain_repr) (PList scenario_profiles)
     = format_competitor_content (R := plain_repr) (PList scenario_profiles).
Proof.
  split; [reflexivity|].
  apply (format_citation_data_same_as_competitor (R := plain_repr)
           scenario_profiles).
  reflexivity.
Defined.

Lemma fetch_retry_then_exhaustion_witness :
  get_search_results "serp-key" flaky_get "concrete mixing ratios" 10
    (mk_world 0%nat [])
  = (Ok sample_results, mk_world 3%nat [Sleep 2; Sleep 2])
  /\ get_search_results "serp-key" failing_get "concrete mixing ratios" 10
       (mk_world 0%nat [])
     = (Ok (PDict []), mk_world 3%nat [])
  /\ (exists analysis ps w',
        analyze_content no_parser
          (content_of (PDict [("html", PStr "<p>one part cement, two parts sand</p>")]))
        = Ok analysis
        /\ scrape_competitor_content no_parser flaky_scrape
             ["https://example.com/ratios"; "https://example.org/how-to"]
             (mk_world 0%nat [])
           = (Ok (PDict [("url", PStr "https://example.com/ratios");
                         ("content",
                          content_of (PDict [("html",
                            PStr "<p>one part cement, two parts sand</p>")]));
                         ("analysis", analysis)] :: ps), w')
        /\ scrape_competitor_content no_parser flaky_scrape
             ["https://example.org/how-to"] (mk_world 3%nat [Sleep 5; Sleep 5])
           = (Ok ps, w'))
  /\ scrape_competitor_content no_parser failing_scrape
       ["https://example.com/ratios"; "https://example.org/how-to"]
       (mk_world 0%nat [])
     = scrape_competitor_content no_parser failing_scrape
         ["https://example.org/how-to"] (mk_world 3%nat [Sleep 5; Sleep 5]).
Proof.
  split; [|split; [|split]].
  - apply (proj1 (fetch_retry_then_exhaustion no_parser flaky_scrape
                    "serp-key" flaky_get)
             "concrete mixing ratios" 10 0%nat 1%nat 2%nat 3%nat
             (Raise (mk_exn RequestException "timed out"))
             (Raise (mk_exn RequestException "timed out"))
             {| status_code := 200; json := Ok sample_results |}
             sample_results []); done.
  - apply (proj1 (proj2 (fetch_retry_then_exhaustion no_parser flaky_scrape
                           "serp-key" failing_get))
             "concrete mixing ratios" 10 0%nat 1%nat 2%nat 3%nat
             (Ok {| status_code := 503;
                    json := Raise (mk_exn RequestException "no body") |})
             (Ok {| status_code := 503;
                    json := Raise (mk_exn RequestException "no body") |})
             (Ok {| status_code := 503;
                    json := Raise (mk_exn RequestException "no body") |})
             []); done.
  - apply (proj1 (proj2 (proj2 (fetch_retry_then_exhaustion no_parser flaky_scrape
                                  "serp-key" flaky_get)))
             "https://example.com/ratios" ["https://example.org/how-to"]
             0%nat 1%nat 2%nat 3%nat
             (mk_exn Exception "timed out") (mk_exn Exception "timed out")
             [("html", PStr "<p>one part cement, two parts sand</p>")] []);
      reflexivity.
  - apply (proj2 (proj2 (proj2 (fetch_retry_then_exhaustion no_parser failing_scrape
                                  "serp-key" flaky_get)))
             "https://example.com/ratios" ["https://example.org/how-to"]
             0%nat 1%nat 2%nat 3%nat
             (mk_exn Exception "timed out") (mk_exn Exception "timed out")
             (mk_exn Exception "timed out") []);
      reflexivity.
Defined.

Lemma blog_failure_in_automatic_run_witness :
  no_blog_content (Ok (Some {| content := [] |})) = true
  /\ main_after_analysis "sk-test" silent_model sample_pdf press_nothing
       "20250101_0000" "concrete mixing ratios" true "OUTLINE" "REPORT"
       (mk_world 0%nat [])
     = (Ok tt,
        mk_world 1%nat
          [StError ("Error during analysis: " +:+ "Error generating content: "
                      +:+ "No content received from Claude API")]).
Proof.
  split; [reflexivity|].
  apply (blog_failure_in_automatic_run "sk-test" silent_model sample_pdf
           press_nothing "20250101_0000" "concrete mixing ratios" "OUTLINE"
           "REPORT" "REPORT" (mk_world 0%nat []) (Ok (Some {| content := [] |}))
           1%nat); done.
Defined.

(** * Statements settled against the code *)

(** ** Splitting and joining *)

Lemma split_go_skip (sep : text) (k : nat) (cur t : text) :
  split_go sep k cur t = split_go sep 0 cur (drop k t).
Proof.
  revert k. induction t as [|c t IH]; intros [|k]; try done.
  - cbn [split_go drop]. by rewrite IH.
Qed.

Lemma split_go_nonempty (sep : text) (k : nat) (cur t : text) :
  split_go sep k cur t ≠ [].
Proof.
  revert k cur. induction t as [|c t IH]; intros k cur; [done|].
  cbn [split_go]. destruct k; [|apply IH].
  destruct (starts_with sep (c :: t)); [done|apply IH].
Qed.

Lemma to_text_app (a b : string) : to_text (a +:+ b) = to_text a ++ to_text b.
Proof.
  induction a as [|x a IH]; [done|].
  change (to_text (String x a +:+ b)) with (x :: to_text (a +:+ b)).
  by rewrite IH.
Qed.

Lemma to_text_join (sep : string) (l : list string) :
  to_text (join sep l) = join_text (to_text sep) (to_text <$> l).
Proof.
  induction l as [|x [|y l] IH]; [done|done|].
  change (join sep (x :: y :: l)) with (x +:+ sep +:+ join sep (y :: l)).
  rewrite !to_text_app, IH. done.
Qed.

Lemma split_go_run (c : ascii) (x cur t : text) :
  Forall (fun a => a ≠ c) x ->
  split_go [c] 0 cur (x ++ t) = split_go [c] 0 (reverse x ++ cur) t.
Proof.
  intros Hx. revert cur. induction Hx as [|a x Ha _ IH]; intros cur; [done|].
  cbn [app split_go starts_with]. rewrite bool_decide_false by done.
  cbn [andb]. by rewrite IH, reverse_cons, <- app_assoc.
Qed.

(** Splitting a joined list at the separator gives the list back, provided
    no item holds the separator. *)
Lemma split_go_join (c : ascii) (ls : list text) (x cur : text) :
  Forall (Forall (fun a => a ≠ c)) (x :: ls) ->
  split_go [c] 0 cur (join_text [c] (x :: ls)) = (reverse cur ++ x) :: ls.
Proof.
  revert x cur. induction ls as [|y ls IH]; intros x cur [Hx Hls]%Forall_cons.
  - cbn [join_text]. rewrite <- (app_nil_r x) at 1. rewrite split_go_run by done.
    cbn [split_go]. by rewrite reverse_app, reverse_involutive.
  - change (join_text [c] (x :: y :: ls))
      with (x ++ c :: join_text [c] (y :: ls)).
    rewrite split_go_run by done. cbn [split_go starts_with length].
    rewrite bool_decide_true by done. cbn [andb Nat.sub].
    rewrite IH by done. by rewrite reverse_app, reverse_involutive.
Qed.

Lemma split_go_clean (c : ascii) (cur t : text) :
  Forall (fun a => a ≠ c) cur ->
  Forall (Forall (fun a => a ≠ c)) (split_go [c] 0 cur t).
Proof.
  revert cur. induction t as [|a t IH]; intros cur Hcur.
  - cbn [split_go]. repeat constructor. by apply Forall_reverse.
  - cbn [split_go starts_with length Nat.sub]. case_bool_decide as Ha; cbn [andb].
    + constructor; [by apply Forall_reverse|]. by apply IH.
    + apply IH. constructor; [congruence|done].
Qed.

(** ** Scrapers: what they collect *)

Section Collecting.
Context {Net : Type}.
Variable BeautifulSoup : pyval -> result soup.
Variable scrape_url : string -> Net -> result pyval * Net.

#[local] Abbreviation scrape_attempts := (scrape_attempts BeautifulSoup scrape_url).
#[local] Abbreviation scrape_loop := (scrape_loop BeautifulSoup scrape_url).
#[local] Abbreviation first_profile := (first_profile BeautifulSoup scrape_url).
#[local] Abbreviation collected := (collected BeautifulSoup scrape_url).
#[local] Abbreviation answers := (answers scrape_url).

Lemma after_failure_net (attempt : nat) (w : world Net) :
  net (after_failure attempt w) = net w.
Proof. unfold after_failure. by case_bool_decide. Qed.

Lemma scrape_attempts_first_profile (url : string) (attempts : list nat)
    (acc : list pyval) (w : world Net) :
  exists w',
    scrape_attempts url attempts acc w
    = (Ok (acc ++ option_list (first_profile (length attempts) url (net w)).1), w')
    /\ net w' = (first_profile (length attempts) url (net w)).2.
Proof.
  revert w. induction attempts as [|a rest IH]; intros w.
  - exists w. cbn [length first_profile fst snd option_list].
    by rewrite app_nil_r.
  - rewrite scrape_attempts_cons. cbn zeta. cbn [length first_profile].
    destruct ((scrape_url url (net w)).1 ≫= profile_of BeautifulSoup url) as [p|e].
    + eexists. split; [reflexivity|done].
    + destruct (IH (after_failure a (mk_world (scrape_url url (net w)).2 (trace w))))
        as (w' & Hrun & Hnet).
      rewrite after_failure_net in Hrun, Hnet. cbn [net] in Hrun, Hnet.
      by exists w'.
Qed.

Lemma scrape_loop_collected (urls : list string) (acc : list pyval) (w : world Net) :
  exists w',
    scrape_loop urls acc w = (Ok (acc ++ (collected urls (net w)).1), w')
    /\ net w' = (collected urls (net w)).2.
Proof.
  revert acc w. induction urls as [|url urls IH]; intros acc w.
  - exists w. cbn [collected fst snd]. by rewrite app_nil_r.
  - rewrite scrape_loop_cons.
    destruct (scrape_attempts_first_profile url (seq 0 max_retries) acc w)
      as (w1 & -> & Hn1).
    rewrite length_seq in Hn1 |- *.
    destruct (IH (acc ++ option_list (first_profile max_retries url (net w)).1) w1)
      as (w' & -> & Hn).
    exists w'. cbn [collected]. cbn zeta. cbn [fst snd].
    rewrite Hn1 in Hn |- *. by rewrite <- app_assoc.
Qed.

Lemma first_profile_answers (k : nat) (url : string) (n : Net) :
  answers url ->
  exists p, (first_profile (S k) url n).1 = Some p /\ profile_url p = PStr url.
Proof.
  intros Hurl. destruct (Hurl n) as [d Hd]. cbn [first_profile].
  rewrite Hd. cbn [mbind result_bind].
  destruct (profile_of BeautifulSoup url (PDict d)) as [p|e] eqn:Hp.
  - exists p. split; [done|]. by apply profile_of_url in Hp as [? _].
  - rewrite profile_of_dict in Hp.
    by destruct (analyze_content_total BeautifulSoup (content_of (PDict d)))
      as (a & Ha & _); rewrite Ha in Hp.
Qed.

Lemma collected_answers (urls : list string) (url : string) (n : Net) :
  url ∈ urls -> answers url ->
  PStr url ∈ profile_url <$> (collected urls n).1.
Proof.
  intros Hin Hurl. revert n. induction urls as [|u urls IH]; intros n.
  - by apply elem_of_nil in Hin.
  - cbn [collected]. cbn zeta. cbn [fst]. rewrite fmap_app.
    apply elem_of_app. apply elem_of_cons in Hin as [->|Hin]; [left|right].
    + destruct (first_profile_answers 2 u n Hurl) as (p & Hp & Hu).
      change (S 2) with max_retries in Hp. rewrite Hp.
      change (option_list (Some p)) with [p].
      rewrite fmap_cons, Hu. apply list_elem_of_here.
    + by apply IH.
Qed.

Lemma collected_all (urls : list string) (n : Net) :
  Forall answers urls -> profile_url <$> (collected urls n).1 = PStr <$> urls.
Proof.
  intros Hall. revert n. induction Hall as [|u urls Hu _ IH]; intros n; [done|].
  cbn [collected]. cbn zeta. cbn [fst]. rewrite fmap_app, IH.
  destruct (first_profile_answers 2 u n Hu) as (p & Hp & Hpu).
  change (S 2) with max_retries in Hp. rewrite Hp.
  change (option_list (Some p)) with [p]. by rewrite fmap_cons, Hpu.
Qed.

(** C4, as the code has it: [scrape_competitor_content] and
    [scrape_citations] return normally and return the same list: going
    through the URLs in order, the profile built from the first of at most
    three calls that gives one, and nothing for a URL whose three calls give
    none ([collected]).  So a URL that the provider answers with a
    dictionary has its profile in the list, and when every URL is answered
    the list has one profile per URL, in the order of the input; the list
    is never longer than the input, every profile in it is built from an
    answer of the provider for its URL, and a URL for which no call answers
    is left out while the remaining URLs are still processed. *)
Theorem scrape_returns_profiles_of_answered_urls (urls : list string)
    (w : world Net) :
  exists ps w',
    scrape_competitor_content BeautifulSoup scrape_url urls w = (Ok ps, w')
    /\ scrape_citations BeautifulSoup scrape_url urls w = (Ok ps, w')
    /\ (ps, net w') = collected urls (net w)
    /\ (forall url, url ∈ urls -> answers url -> PStr url ∈ profile_url <$> ps)
    /\ (Forall answers urls ->
        profile_url <$> ps = PStr <$> urls /\ length ps = length urls)
    /\ sublist (profile_url <$> ps) (PStr <$> urls)
    /\ (length ps <= length urls)%nat
    /\ Forall (fun p => profile_shaped p = true
                        /\ scraped_from BeautifulSoup scrape_url urls p) ps
    /\ (forall url, (forall n, exists e, (scrape_url url n).1 = Raise e) ->
                    PStr url ∉ profile_url <$> ps)
    /\ (forall url rest n0 n1 n2 n3 e1 e2 e3,
          urls = url :: rest -> net w = n0 ->
          scrape_url url n0 = (Raise e1, n1) ->
          scrape_url url n1 = (Raise e2, n2) ->
          scrape_url url n2 = (Raise e3, n3) ->
          scrape_competitor_content BeautifulSoup scrape_url rest
            (mk_world n3 (trace w ++ [Sleep 5; Sleep 5])) = (Ok ps, w')).
Proof.
  destruct (scrape_loop_total BeautifulSoup scrape_url urls w)
    as (ps & w' & Hrun & Hsub & Hfrom).
  destruct (scrape_loop_collected urls [] w) as (w2 & Hcol & Hnet).
  exists ps, w'. specialize (Hrun []). cbn [app] in Hrun, Hcol.
  pose proof (eq_trans (eq_sym Hrun) Hcol) as Heq. injection Heq as Hps Hw.
  subst w2.
  assert (Hpair : (ps, net w') = collected urls (net w)).
  { rewrite Hps, Hnet. by destruct (collected urls (net w)). }
  split; [done|]. split; [done|]. split; [done|].
  split; [intros url Hin Hurl; rewrite Hps; by apply collected_answers|].
  split.
  { intros Hall. pose proof (collected_all urls (net w) Hall) as Hurls.
    rewrite <- Hps in Hurls. split; [done|].
    apply (f_equal length) in Hurls. by rewrite !length_fmap in Hurls. }
  split; [done|]. split.
  { apply sublist_length in Hsub. by rewrite !length_fmap in Hsub. }
  split.
  { eapply Forall_impl; [exact Hfrom|]. intros p Hp. split; [|done].
    destruct Hp as (url & n & answer & _ & _ & Hp).
    by apply profile_of_url in Hp as [_ ?]. }
  split.
  - intros url Hfail (p & Hurl & Hp)%list_elem_of_fmap.
    rewrite Forall_forall in Hfrom.
    destruct (Hfrom p Hp) as (url' & n & answer & _ & Ha & Hp').
    apply profile_of_url in Hp' as [Hurl' _].
    rewrite Hurl' in Hurl. injection Hurl as ->.
    destruct (Hfail n) as [e He]. congruence.
  - intros url rest n0 n1 n2 n3 e1 e2 e3 -> Hn H0 H1 H2.
    destruct w as [n tr]. simpl in Hn. subst n. cbn [trace].
    rewrite <- (scrape_exhausted BeautifulSoup scrape_url url rest n0 n1 n2 n3
                  e1 e2 e3 tr) by done.
    exact Hrun.
Qed.
End Collecting.

(** C4, as stated, fails: with a provider that always times out, one input
    URL gives no profile at all. *)
Lemma one_profile_per_url_fails :
  exists ps w',
    scrape_competitor_content no_parser failing_scrape ["https://example.com/a"]
      (mk_world 0%nat []) = (Ok ps, w')
    /\ scrape_citations no_parser failing_scrape ["https://example.com/a"]
         (mk_world 0%nat []) = (Ok ps, w')
    /\ length ps ≠ length ["https://example.com/a"].
Proof.
  exists [], (mk_world 3%nat [Sleep 5; Sleep 5]). by repeat split.
Qed.

(** ** Context assembly: what the context depends on *)

Lemma fmap_through {A B C} (f : A -> C) (v : A -> B) (g : B -> C) (l1 l2 : list A) :
  (forall x, f x = g (v x)) -> v <$> l1 = v <$> l2 -> f <$> l1 = f <$> l2.
Proof.
  intros Hf Hv.
  assert (Hl : forall l : list A, f <$> l = g <$> (v <$> l)).
  { intros l. rewrite <- list_fmap_compose. apply list_fmap_ext.
    intros i x _. apply Hf. }
  by rewrite !Hl, Hv.
Qed.

Section Dependence.
Context {R : Repr}.

Lemma prepare_llm_context_reads (self : analyzer) (scraped_data serp1 serp2 : pyval)
    (deep_thinking : string) (citation_data : pyval) :
  same_reads serp_keys serp1 serp2 ->
  prepare_llm_context self scraped_data serp1 deep_thinking citation_data
  = prepare_llm_context self scraped_data serp2 deep_thinking citation_data.
Proof.
  intros Hreads.
  unfold prepare_llm_context, extract_serp_data, extract_organic_results,
    extract_paa_questions, extract_related_searches.
  rewrite (Hreads "organic_results" (PList []))
    by (unfold serp_keys; repeat constructor).
  rewrite (Hreads "related_questions" (PList []))
    by (unfold serp_keys; repeat constructor).
  rewrite (Hreads "related_searches" (PList []))
    by (unfold serp_keys; repeat constructor).
  rewrite !(Hreads "search_parameters" (PDict []))
    by (unfold serp_keys; repeat constructor).
  reflexivity.
Qed.

Lemma prepare_llm_context_views (self : analyzer) (profiles1 profiles2 : list pyval)
    (serp1 serp2 : pyval) (deep_thinking : string)
    (citations1 citations2 : list pyval) :
  context_shaped serp1 = true -> context_shaped serp2 = true ->
  forallb profile_shaped profiles1 = true ->
  forallb profile_shaped profiles2 = true ->
  forallb profile_shaped citations1 = true ->
  forallb profile_shaped citations2 = true ->
  serp_view serp1 = serp_view serp2 ->
  profile_view <$> profiles1 = profile_view <$> profiles2 ->
  profile_view <$> citations1 = profile_view <$> citations2 ->
  prepare_llm_context self (PList profiles1) serp1 deep_thinking (PList citations1)
  = prepare_llm_context self (PList profiles2) serp2 deep_thinking (PList citations2).
Proof.
  intros Hs1 Hs2 Hp1 Hp2 Hc1 Hc2 Hview Hprofiles Hcitations.
  destruct serp1 as [| | | | | |d1]; try done.
  destruct serp2 as [| | | | | |d2]; try done.
  rewrite !prepare_llm_context_ok by done.
  unfold serp_view in Hview. injection Hview as Hq Ha Hpaa Hrel.
  unfold context_sections, profile_summaries. rewrite Hq.
  rewrite (fmap_through top_article_line article_view
             (fun v => "- " +:+ py_str v.1 +:+ " (URL: " +:+ py_str v.2 +:+ ")")
             _ _ (fun _ => eq_refl) Ha).
  rewrite (fmap_through paa_line (fun e => field e "question")
             (fun v => "- " +:+ py_str v) _ _ (fun _ => eq_refl) Hpaa).
  rewrite (fmap_through related_line (fun e => field e "query")
             (fun v => "- " +:+ py_str v) _ _ (fun _ => eq_refl) Hrel).
  rewrite (fmap_through profile_summary profile_view
             (fun v => "URL: " +:+ py_str v.1.1 +:+ nl
                       +:+ "Word Count: " +:+ py_str v.1.2 +:+ nl
                       +:+ "Key Topics: " +:+ join ", " v.2)
             _ _ (fun _ => eq_refl) Hprofiles).
  rewrite (fmap_through profile_summary profile_view
             (fun v => "URL: " +:+ py_str v.1.1 +:+ nl
                       +:+ "Word Count: " +:+ py_str v.1.2 +:+ nl
                       +:+ "Key Topics: " +:+ join ", " v.2)
             _ _ (fun _ => eq_refl) Hcitations).
  reflexivity.
Qed.

(** C5: two calls of [prepare_llm_context] with identical intent and
    secondary keywords give identical results, character for character,
    as soon as their other inputs agree on what the function reads.  For
    every input: identical profile arguments and thinking text, and search
    data that answer alike under the four keys read (identical search data
    at the least), give identical results, errors included.  On inputs of
    the documented shape the context is settled by less: the query, title
    and link of the first five organic results, the questions, the related
    queries, and URL, word count and first five key topics of each
    profile. *)
Theorem prepare_llm_context_deterministic (self1 self2 : analyzer) :
  article_intent self1 = article_intent self2 ->
  secondary_keywords self1 = secondary_keywords self2 ->
  (forall (scraped1 scraped2 serp1 serp2 : pyval) (thinking1 thinking2 : string)
          (citations1 citations2 : pyval),
     scraped1 = scraped2 -> same_reads serp_keys serp1 serp2 ->
     thinking1 = thinking2 -> citations1 = citations2 ->
     prepare_llm_context self1 scraped1 serp1 thinking1 citations1
     = prepare_llm_context self2 scraped2 serp2 thinking2 citations2)
  /\ (forall (profiles1 profiles2 : list pyval) (serp1 serp2 : pyval)
             (thinking1 thinking2 : string) (citations1 citations2 : list pyval),
        context_shaped serp1 = true -> context_shaped serp2 = true ->
        forallb profile_shaped profiles1 = true ->
        forallb profile_shaped profiles2 = true ->
        forallb profile_shaped citations1 = true ->
        forallb profile_shaped citations2 = true ->
        serp_view serp1 = serp_view serp2 ->
        profile_view <$> profiles1 = profile_view <$> profiles2 ->
        thinking1 = thinking2 ->
        profile_view <$> citations1 = profile_view <$> citations2 ->
        prepare_llm_context self1 (PList profiles1) serp1 thinking1 (PList citations1)
        = prepare_llm_context self2 (PList profiles2) serp2 thinking2
            (PList citations2)).
Proof.
  destruct self1 as [intent1 keywords1], self2 as [intent2 keywords2].
  cbn [article_intent secondary_keywords]. intros -> ->. split.
  - intros scraped1 scraped2 serp1 serp2 thinking1 thinking2 citations1 citations2
      -> Hreads -> ->.
    by apply prepare_llm_context_reads.
  - intros profiles1 profiles2 serp1 serp2 thinking1 thinking2 citations1 citations2
      Hs1 Hs2 Hp1 Hp2 Hc1 Hc2 Hview Hprofiles -> Hcitations.
    by apply prepare_llm_context_views.
Qed.
End Dependence.

Lemma prepare_llm_context_deterministic_witness :
  prepare_llm_context (R := plain_repr)
    (set_content_parameters scenario_analyzer "informational"
       ["cement ratio"; "sand"])
    (PList scenario_profiles_padded) scenario_serp_padded
    "Ratios depend on strength class." (PList [])
  = prepare_llm_context (R := plain_repr) scenario_analyzer
      (PList scenario_profiles) scenario_serp "Ratios depend on strength class."
      (PList []).
Proof.
  apply (proj2 (prepare_llm_context_deterministic (R := plain_repr)
                  (set_content_parameters scenario_analyzer "informational"
                     ["cement ratio"; "sand"])
                  scenario_analyzer eq_refl eq_refl));
    reflexivity.
Defined.

(** ** Context assembly: sections, lines and blocks *)















Section Sections.
Context {R : Repr}.








End Sections.



(** ** Research excerpt: thinking spans *)

Lemma has_thinking_span_intro (s : string) (a b c : text) :
  to_text s = a ++ think_open ++ b ++ think_close ++ c ->
  has_thinking_span s = true.
Proof.
  intros Ht. unfold has_thinking_span. rewrite Ht.
  destruct (find_sub_occurs think_open a (b ++ think_close ++ c)) as [i Hi].
  pose proof (find_sub_min _ _ _ Hi a _ eq_refl) as Hle.
  rewrite Hi. apply bool_decide_eq_true.
  assert (Heq : a ++ think_open ++ b ++ think_close ++ c
                = (a ++ think_open ++ b) ++ think_close ++ c)
    by (by rewrite <- !app_assoc).
  rewrite Heq, drop_app_le by (rewrite !length_app; lia).
  apply find_sub_occurs.
Qed.

Lemma has_thinking_span_elim (s : string) :
  has_thinking_span s = true ->
  exists a b c, to_text s = a ++ think_open ++ b ++ think_close ++ c.
Proof.
  unfold has_thinking_span.
  destruct (find_sub think_open (to_text s)) as [i|] eqn:Hi; [|done].
  intros [j Hj]%bool_decide_eq_true.
  apply find_sub_Some in Hi as [Hi _]. apply find_sub_Some in Hj as [Hj _].
  exists (take i (to_text s)),
         (take j (drop (i + length think_open) (to_text s))),
         (drop (j + length think_close) (drop (i + length think_open) (to_text s))).
  by rewrite <- Hj.
Qed.

(** A text that holds a span around which more text stands holds a span. *)
Lemma has_thinking_span_infix (s x : string) (l r : text) :
  to_text s = l ++ to_text x ++ r ->
  has_thinking_span x = true -> has_thinking_span s = true.
Proof.
  intros Hs (a & b & c & Hx)%has_thinking_span_elim.
  apply (has_thinking_span_intro s (l ++ a) b (c ++ r)).
  by rewrite Hs, Hx, <- !app_assoc.
Qed.

Lemma excerpt_infix (s : string) :
  exists l r, to_text s = l ++ to_text (py_strip (before_marker s)) ++ r.
Proof.
  unfold py_strip, before_marker. rewrite !to_of_text.
  destruct (strip_text_infix (before_first (to_text competitor_marker) (to_text s)))
    as (l & r & Hstrip).
  unfold before_first in *.
  destruct (find_sub (to_text competitor_marker) (to_text s)) as [i|].
  - exists l, (r ++ drop i (to_text s)).
    rewrite <- (take_drop i (to_text s)) at 1. rewrite Hstrip at 1.
    by rewrite <- !app_assoc.
  - by exists l, r.
Qed.

(** C8, as the code has it: [extract_research_content] makes one pass over
    the report, from the left, and removes each thinking-tagged span it
    meets, from an opening tag to the nearest closing tag ([cleaned]); it
    then deletes the banner, cuts the text at the first occurrence of the
    competitor-summary marker and trims surrounding white space.  The
    marker does not occur in what is returned.  A span that only comes
    into being when another span or the banner is removed is not
    removed: the excerpt holds a thinking-tagged span only if one is left
    after the pass and the deletion of the banner. *)
Theorem extract_research_content_excerpt (research_text : string) :
  exists cleaned excerpt : string,
    spans_removed (to_text research_text) (to_text cleaned)
    /\ excerpt = py_strip (before_marker (py_replace report_banner "" cleaned))
    /\ extract_research_content research_text = Ok excerpt
    /\ contains competitor_marker excerpt = false
    /\ (has_thinking_span (py_replace report_banner "" cleaned) = false ->
        has_thinking_span excerpt = false).
Proof.
  exists (re_sub_think research_text). eexists.
  split; [|split; [reflexivity|split; [|split]]].
  - unfold re_sub_think. rewrite to_of_text. apply spans_removed_sub.
  - apply extract_research_content_eq.
  - apply excerpt_without_marker.
  - intros Hclean.
    destruct (has_thinking_span (py_strip _)) eqn:Hspan; [|done].
    destruct (excerpt_infix (py_replace report_banner "" (re_sub_think research_text)))
      as (l & r & Hinfix).
    by rewrite (has_thinking_span_infix _ _ l r Hinfix Hspan) in Hclean.
Qed.

(** C8, as stated, fails: the excerpt of a report whose opening tag is
    itself split by a span is a complete thinking-tagged span. *)
Lemma thinking_span_survives :
  extract_research_content "<thi<think>x</think>nk>y</think>"
  = Ok "<think>y</think>"
  /\ has_thinking_span "<think>y</think>" = true.
Proof. split; vm_compute; reflexivity. Qed.

(** * Further properties *)

(** ** Outline generation *)

Section OutlineFacts.
Context {Net : Type} {R : Repr}.
Variable chat_completions_create : string -> string -> Net -> result completion * Net.

Lemma get_llm_analysis_run (context system_prompt : string) (w : world Net) :
  get_llm_analysis chat_completions_create context system_prompt w
  = (Ok (outline_body (chat_completions_create system_prompt context (net w)).1),
     mk_world (chat_completions_create system_prompt context (net w)).2 (trace w)).
Proof.
  unfold get_llm_analysis, io_try, mbind, io_mbind, io_bind, call, lift, io_ret.
  destruct (chat_completions_create system_prompt context (net w))
    as [[[[|[text|] rest]]|e] n]; reflexivity.
Qed.

Lemma query_chain (data q : pyval) :
  (search_parameters ← py_get data "search_parameters" (PDict []);
   py_get search_parameters "q" (PStr "")) = Ok q ->
  q = query_of data.
Proof.
  destruct data as [| | | | | |d]; try done.
  unfold query_of. cbn [py_get lookup_or mbind result_bind].
  destruct (default (PDict []) (dict_lookup d "search_parameters")); try done.
  cbn [py_get lookup_or]. by intros [= <-].
Qed.

(** A context could be assembled only if the query could be read. *)
Lemma prepare_llm_context_query (self : analyzer)
    (scraped_data data : pyval) (deep_thinking : string) (citation_data : pyval)
    (context : string) :
  prepare_llm_context self scraped_data data deep_thinking citation_data
  = Ok context ->
  (search_parameters ← py_get data "search_parameters" (PDict []);
   py_get search_parameters "q" (PStr "")) = Ok (query_of data).
Proof.
  unfold prepare_llm_context.
  destruct (extract_serp_data data); cbn [mbind result_bind]; [|done].
  destruct (format_citation_data citation_data); cbn [mbind result_bind]; [|done].
  destruct (py_get data "search_parameters" (PDict [])) as [sp|] eqn:Hsp;
    cbn [mbind result_bind]; [|done].
  destruct (py_get sp "q" (PStr "")) as [q|] eqn:Hq; cbn [mbind result_bind];
    [|done].
  intros _. f_equal. apply query_chain. by rewrite Hsp.
Qed.

(** X1: [generate_enhanced_outline] raises exactly when the context cannot
    be assembled, with the error of [prepare_llm_context] and before any
    request.  Otherwise it asks the model once, with the instruction template
    as system prompt and the context as user message, and, whatever the model
    does, returns the header with the query, the reply and the time stamp; a
    call that raises or gives no choice leaves the body empty.  The fallback
    text of [format_llm_outline] is never the result. *)
Theorem generate_enhanced_outline_wrapped (timestamp : string) (self : analyzer)
    (data scraped_data : pyval) (deep_thinking : string) (citation_data : pyval)
    (w : world Net) :
  generate_enhanced_outline chat_completions_create timestamp self data
    scraped_data deep_thinking citation_data w
  = match prepare_llm_context self scraped_data data deep_thinking citation_data with
    | Raise e => (Raise e, w)
    | Ok context =>
        let reply :=
          chat_completions_create
            (outline_prompt (py_str (query_of data)) (article_intent self)
               (join ", " (secondary_keywords self)))
            context (net w) in
        (Ok ("SEO Article Outline for: " +:+ dq +:+ py_str (query_of data) +:+ dq
             +:+ nl +:+ nl +:+ py_str (outline_body reply.1) +:+ nl +:+ nl
             +:+ "Generated on: " +:+ timestamp +:+ nl),
         mk_world reply.2 (trace w))
    end.
Proof.
  unfold generate_enhanced_outline.
  destruct (prepare_llm_context self scraped_data data deep_thinking citation_data)
    as [context|e] eqn:Hctx; [|done].
  pose proof (prepare_llm_context_query _ _ _ _ _ _ Hctx) as Hquery.
  cbn zeta. unfold format_llm_outline.
  destruct (py_get data "search_parameters" (PDict [])) as [sp|] eqn:Hsp; [|done].
  cbn [mbind result_bind] in Hquery.
  unfold mbind at 1, io_mbind, io_bind, lift at 1.
  unfold mbind at 1, io_mbind, io_bind, lift at 1.
  unfold mbind at 1, io_mbind, io_bind, lift at 1. rewrite Hquery.
  unfold mbind at 1, io_mbind, io_bind. rewrite get_llm_analysis_run.
  unfold lift. cbn [mbind result_bind]. by rewrite Hquery.
Qed.
End OutlineFacts.

Example outline_when_model_fails :
  generate_enhanced_outline (R := plain_repr) failing_chat "2025-03-01 10:00:00"
    scenario_analyzer scenario_serp (PList scenario_profiles)
    "Ratios depend on strength class." (PList []) (mk_world 0%nat [])
  = (Ok ("SEO Article Outline for: " +:+ dq +:+ "concrete mixing ratios" +:+ dq
         +:+ nl +:+ nl +:+ nl +:+ nl
         +:+ "Generated on: 2025-03-01 10:00:00" +:+ nl),
     mk_world 1%nat []).
Proof. reflexivity. Qed.

Example outline_without_context :
  generate_enhanced_outline (R := plain_repr) failing_chat "2025-03-01 10:00:00"
    scenario_analyzer scenario_serp (PList scenario_profiles)
    "Ratios depend on strength class." malformed_profiles (mk_world 0%nat [])
  = (Raise (mk_exn AttributeError "'int' object has no attribute 'get'"),
     mk_world 0%nat []).
Proof. reflexivity. Qed.

(** ** Search fetcher: what it never does *)

Section SearchBounds.
Context {Net : Type}.
Variable SERPAPI_KEY : string.
Variable requests_get : string -> string -> Z -> Net -> result response * Net.

Lemma search_attempts_bounded (query : string) (num : Z) (attempts : list nat)
    (w : world Net) :
  let out := search_attempts SERPAPI_KEY requests_get query num attempts w in
  (forall e, out.1 = Raise e -> is_request_exception (exn_kind e) = false)
  /\ exists pauses,
       trace out.2 = trace w ++ pauses
       /\ Forall (fun ev => ev = Sleep 2) pauses
       /\ (length pauses
           <= length (filter (fun a => a ≠ (max_retries - 1)%nat) attempts))%nat.
Proof.
  revert w. induction attempts as [|attempt rest IH]; intros w.
  - split; [done|]. exists []. by rewrite app_nil_r.
  - assert (Hstay : forall (r : result pyval) (n : Net),
      (forall e, r = Raise e -> is_request_exception (exn_kind e) = false) ->
      (forall e, (r, mk_world n (trace w)).1 = Raise e
                 -> is_request_exception (exn_kind e) = false)
      /\ exists pauses, trace (r, mk_world n (trace w)).2 = trace w ++ pauses
           /\ Forall (fun ev => ev = Sleep 2) pauses
           /\ (length pauses
               <= length (filter (fun a => a ≠ (max_retries - 1)%nat)
                            (attempt :: rest)))%nat).
    { intros r n Hr. split; [done|]. exists []. cbn [snd trace].
      rewrite app_nil_r. repeat split; [done|]. cbn [length]. lia. }
    assert (Hnext : forall n : Net,
      let out := search_attempts SERPAPI_KEY requests_get query num rest
                   (mk_world n (trace w)) in
      (forall e, out.1 = Raise e -> is_request_exception (exn_kind e) = false)
      /\ exists pauses, trace out.2 = trace w ++ pauses
           /\ Forall (fun ev => ev = Sleep 2) pauses
           /\ (length pauses
               <= length (filter (fun a => a ≠ (max_retries - 1)%nat)
                            (attempt :: rest)))%nat).
    { intros n. destruct (IH (mk_world n (trace w)))
        as (Hraise & pauses & Htr & Hall & Hlen).
      split; [done|]. exists pauses. rewrite Htr. repeat split; [done|].
      rewrite filter_cons. case_decide; [rewrite length_cons|]; lia. }
    assert (Hpause : forall n : Net,
      attempt ≠ (max_retries - 1)%nat ->
      let out := search_attempts SERPAPI_KEY requests_get query num rest
                   (mk_world n (trace w ++ [Sleep 2])) in
      (forall e, out.1 = Raise e -> is_request_exception (exn_kind e) = false)
      /\ exists pauses, trace out.2 = trace w ++ pauses
           /\ Forall (fun ev => ev = Sleep 2) pauses
           /\ (length pauses
               <= length (filter (fun a => a ≠ (max_retries - 1)%nat)
                            (attempt :: rest)))%nat).
    { intros n Hlast.
      destruct (IH (mk_world n (trace w ++ [Sleep 2])))
        as (Hraise & pauses & Htr & Hall & Hlen).
      split; [done|]. exists (Sleep 2 :: pauses). rewrite Htr. cbn [trace].
      rewrite <- app_assoc. repeat split; [by constructor|].
      rewrite filter_cons_True by done. rewrite !length_cons. lia. }
    cbn zeta in *. cbn [search_attempts].
    unfold mbind, io_mbind, io_bind, io_try_request, call, lift, emit, io_ret.
    destruct (requests_get query SERPAPI_KEY num (net w)) as [[resp|e] n].
    + destruct (bool_decide (status_code resp = 200)).
      * destruct (json resp) as [v|e]; cbn [fmap result_fmap].
        { by apply (Hstay (Ok v)). }
        destruct (is_request_exception (exn_kind e)) eqn:He.
        { case_bool_decide as Hlast.
          - by apply (Hstay (Ok (PDict []))).
          - by apply Hpause. }
        apply (Hstay (Raise e)). by intros ? [= <-].
      * apply Hnext.
    + destruct (is_request_exception (exn_kind e)) eqn:He.
      * case_bool_decide as Hlast.
        { by apply (Hstay (Ok (PDict []))). }
        by apply Hpause.
      * apply (Hstay (Raise e)). by intros ? [= <-].
Qed.

(** X2: whatever the provider does, [get_search_results] never lets a
    request exception reach its caller and never waits more than twice two
    seconds; without a key it makes no request at all: it reports the
    missing key and returns the empty dictionary. *)
Theorem get_search_results_bounded (query : string) (num : Z) (w : world Net) :
  let out := get_search_results SERPAPI_KEY requests_get query num w in
  (forall e, out.1 = Raise e -> is_request_exception (exn_kind e) = false)
  /\ (SERPAPI_KEY = "" ->
      out = (Ok (PDict []),
             mk_world (net w)
               (trace w ++ [StError "SERPAPI_KEY is not set in Streamlit secrets"])))
  /\ (SERPAPI_KEY ≠ "" ->
      exists pauses,
        trace out.2 = trace w ++ pauses
        /\ Forall (fun ev => ev = Sleep 2) pauses
        /\ (length pauses <= 2)%nat).
Proof.
  cbn zeta. unfold get_search_results. case_bool_decide as Hkey.
  - split; [done|]. split; [done|]. done.
  - destruct (search_attempts_bounded query num (seq 0 max_retries) w)
      as (Hraise & pauses & Htr & Hall & Hlen).
    split; [done|]. split; [done|]. intros _. by exists pauses.
Qed.
End SearchBounds.

(** ** Scrapers: how long they wait *)

Section ScrapePauses.
Context {Net : Type}.
Variable BeautifulSoup : pyval -> result soup.
Variable scrape_url : string -> Net -> result pyval * Net.

Lemma scrape_attempts_pauses (url : string) (attempts : list nat)
    (acc : list pyval) (w : world Net) :
  exists pauses,
    trace (scrape_attempts BeautifulSoup scrape_url url attempts acc w).2
    = trace w ++ pauses
    /\ Forall (fun ev => ev = Sleep 5) pauses
    /\ (length pauses
        <= length (filter (fun a => a ≠ (max_retries - 1)%nat) attempts))%nat.
Proof.
  revert w. induction attempts as [|attempt rest IH]; intros w.
  - exists []. by rewrite app_nil_r.
  - rewrite scrape_attempts_cons. cbn zeta.
    destruct ((scrape_url url (net w)).1 ≫= profile_of BeautifulSoup url).
    + exists []. cbn [snd trace]. rewrite app_nil_r. repeat split; [done|].
      cbn [length]. lia.
    + unfold after_failure. case_bool_decide as Hlast.
      * destruct (IH (mk_world (scrape_url url (net w)).2 (trace w)))
          as (pauses & Htr & Hall & Hlen).
        exists pauses. rewrite Htr. repeat split; [done|].
        rewrite filter_cons. case_decide; [rewrite length_cons|]; lia.
      * destruct (IH (mk_world (scrape_url url (net w)).2 (trace w ++ [Sleep 5])))
          as (pauses & Htr & Hall & Hlen).
        exists (Sleep 5 :: pauses). cbn [net trace]. rewrite Htr. cbn [net trace].
        rewrite <- app_assoc. repeat split; [by constructor|].
        rewrite filter_cons_True by done. rewrite !length_cons. lia.
Qed.

Lemma scrape_loop_pauses (urls : list string) (acc : list pyval) (w : world Net) :
  exists pauses,
    trace (scrape_loop BeautifulSoup scrape_url urls acc w).2 = trace w ++ pauses
    /\ Forall (fun ev => ev = Sleep 5) pauses
    /\ (length pauses <= 2 * length urls)%nat.
Proof.
  revert acc w. induction urls as [|url urls IH]; intros acc w.
  - exists []. by rewrite app_nil_r.
  - rewrite scrape_loop_cons.
    destruct (scrape_attempts_pauses url (seq 0 max_retries) acc w)
      as (pauses1 & Htr1 & Hall1 & Hlen1).
    destruct (scrape_attempts BeautifulSoup scrape_url url (seq 0 max_retries) acc w)
      as [[acc'|e] w1]; cbn [snd] in Htr1.
    + destruct (IH acc' w1) as (pauses & Htr & Hall & Hlen).
      exists (pauses1 ++ pauses). rewrite Htr, Htr1, <- app_assoc.
      repeat split; [by apply Forall_app|].
      rewrite length_app, length_cons.
      change (length (filter _ (seq 0 max_retries))) with 2%nat in Hlen1. lia.
    + destruct (IH acc w1) as (pauses & Htr & Hall & Hlen).
      exists (pauses1 ++ pauses). rewrite Htr, Htr1, <- app_assoc.
      repeat split; [by apply Forall_app|].
      rewrite length_app, length_cons.
      change (length (filter _ (seq 0 max_retries))) with 2%nat in Hlen1. lia.
Qed.

(** X3: whatever the provider and the parser do, the only thing the two
    scrapers do besides calling the provider is to wait: the events they add
    are pauses of five seconds, at most two for each URL. *)
Theorem scrapers_only_pause (urls : list string) (w : world Net) :
  exists pauses,
    trace (scrape_competitor_content BeautifulSoup scrape_url urls w).2
    = trace w ++ pauses
    /\ trace (scrape_citations BeautifulSoup scrape_url urls w).2
       = trace w ++ pauses
    /\ Forall (fun ev => ev = Sleep 5) pauses
    /\ (length pauses <= 2 * length urls)%nat.
Proof.
  destruct (scrape_loop_pauses urls [] w) as (pauses & Htr & Hall & Hlen).
  by exists pauses.
Qed.
End ScrapePauses.

(** ** Content analysis: how the fields of an analysis relate *)

Lemma split_ws_go_space (cur : option text) (a b : text) (c : ascii) :
  is_space c = true ->
  split_ws_go cur (a ++ c :: b) = split_ws_go cur a ++ split_ws_go None b.
Proof.
  intros Hc. revert cur. induction a as [|x a IH]; intros cur.
  - cbn [app split_ws_go]. rewrite Hc. by destruct cur.
  - cbn [app split_ws_go]. destruct (is_space x); [|apply IH].
    destruct cur; [cbn [app]; f_equal|]; apply IH.
Qed.

Lemma split_ws_go_spaces (sp t : text) :
  Forall (fun c => is_space c = true) sp ->
  split_ws_go None (sp ++ t) = split_ws_go None t.
Proof.
  induction 1 as [|c sp Hc _ IH]; [done|].
  cbn [app split_ws_go]. by rewrite Hc.
Qed.

(** Splitting at a separator made of white space keeps the words. *)
Lemma split_go_words (sep : text) (n : nat) (cur t : text) :
  sep ≠ [] -> Forall (fun c => is_space c = true) sep ->
  (length t <= n)%nat ->
  sum_nat ((fun x => length (split_ws_go None x)) <$> split_go sep 0 cur t)
  = length (split_ws_go None (reverse cur ++ t)).
Proof.
  intros Hne Hsp. revert cur t.
  induction n as [|n IH]; intros cur [|c t] Hlen; cbn [length] in Hlen;
    try lia.
  - cbn [split_go fmap list_fmap sum_nat foldr]. rewrite app_nil_r. lia.
  - cbn [split_go fmap list_fmap sum_nat foldr]. rewrite app_nil_r. lia.
  - cbn [split_go]. destruct (starts_with sep (c :: t)) eqn:Hs.
    + rewrite split_go_skip. rewrite fmap_cons. cbn [sum_nat foldr].
      fold (sum_nat ((fun x => length (split_ws_go None x))
                       <$> split_go sep 0 [] (drop (length sep - 1) t))).
      rewrite IH by (rewrite length_drop; lia).
      apply starts_with_drop in Hs.
      destruct sep as [|c0 sep']; [done|].
      apply Forall_cons in Hsp as [Hc0 Hsp'].
      cbn [length app drop] in Hs |- *.
      replace (S (length sep') - 1)%nat with (length sep') by lia.
      injection Hs as -> Ht. rewrite Ht at 2.
      rewrite split_ws_go_space by done.
      rewrite (split_ws_go_spaces sep') by done.
      by rewrite length_app.
    + rewrite IH by lia. by rewrite reverse_cons, <- app_assoc.
Qed.

Lemma py_split_words (s : string) :
  sum_nat ((fun p => length (py_split_ws p)) <$> py_split (nl +:+ nl) s)
  = length (py_split_ws s).
Proof.
  unfold py_split, py_split_ws. rewrite <- list_fmap_compose.
  rewrite length_fmap.
  pose proof (split_go_words (to_text (nl +:+ nl)) (length (to_text s)) []
                (to_text s)) as Hw.
  change (reverse [] ++ to_text s) with (to_text s) in Hw.
  rewrite <- Hw; [|done|by repeat constructor|done].
  f_equal. apply list_fmap_ext. intros i x _. cbn [compose].
  by rewrite length_fmap, to_of_text.
Qed.

Lemma py_split_nonempty (sep s : string) : (1 <= length (py_split sep s))%nat.
Proof.
  unfold py_split. rewrite length_fmap.
  pose proof (split_go_nonempty (to_text sep) 0 [] (to_text s)).
  destruct (split_go (to_text sep) 0 [] (to_text s)); [done|cbn [length]; lia].
Qed.

Lemma analyze_content_structure_str (s : string) :
  analyze_content_structure (PStr s)
  = Ok (PDict [("total_paragraphs", PInt (Z.of_nat (length (py_split (nl +:+ nl) s))));
               ("avg_paragraph_length",
                PFloat (Z.of_nat (length (py_split_ws s)))
                       (Z.of_nat (length (py_split (nl +:+ nl) s))))]).
Proof.
  unfold analyze_content_structure. cbn [str_method mbind result_bind try_except].
  rewrite py_split_words.
  pose proof (py_split_nonempty (nl +:+ nl) s).
  destruct (py_split (nl +:+ nl) s); [cbn [length] in *; lia|done].
Qed.

(** ** Tokens: what the two regular expressions can return *)

Lemma lower_char_idem (c : ascii) : lower_char (lower_char c) = lower_char c.
Proof. by destruct c as [[] [] [] [] [] [] [] []]. Qed.

Lemma space_not_word (c : ascii) : is_space c = true -> is_word c = false.
Proof. by destruct c as [[] [] [] [] [] [] [] []]. Qed.

Lemma findall_go_elem (m : option ascii -> text -> option nat) (skip : nat)
    (prev : option ascii) (t x : text) :
  x ∈ findall_go m skip prev t ->
  exists prev' suf n, m prev' suf = Some n /\ x = take n suf /\ suf `suffix_of` t.
Proof.
  revert skip prev. induction t as [|c t IH]; intros skip prev Hx.
  - by apply elem_of_nil in Hx.
  - cbn [findall_go] in Hx. destruct skip as [|k].
    + destruct (m prev (c :: t)) as [n|] eqn:Hm.
      * apply elem_of_cons in Hx as [->|Hx].
        { by exists prev, (c :: t), n. }
        destruct (IH _ _ Hx) as (p & suf & n' & H1 & H2 & H3).
        exists p, suf, n'. repeat split; [done|done|by apply suffix_cons_r].
      * destruct (IH _ _ Hx) as (p & suf & n' & H1 & H2 & H3).
        exists p, suf, n'. repeat split; [done|done|by apply suffix_cons_r].
    + destruct (IH _ _ Hx) as (p & suf & n' & H1 & H2 & H3).
      exists p, suf, n'. repeat split; [done|done|by apply suffix_cons_r].
Qed.

Lemma match_run_spec (cls : ascii -> bool) (lo hi : nat) (prev : option ascii)
    (t : text) (n : nat) :
  match_run cls lo hi prev t = Some n ->
  (lo <= n)%nat /\ (n <= hi)%nat /\ (n <= length (take_while cls t))%nat
  /\ word_boundary prev (head t) = true /\ boundary_at prev t n = true.
Proof.
  unfold match_run. destruct (word_boundary prev (head t)); [|done].
  intros Hh. apply head_Some_elem_of in Hh.
  apply list_elem_of_filter in Hh as [Hb Hn].
  apply elem_of_reverse, elem_of_seq in Hn.
  repeat split; [lia|lia|lia|by apply Is_true_true].
Qed.

Lemma take_take_while {A} (p : A -> bool) (t : list A) (n : nat) :
  (n <= length (take_while p t))%nat ->
  forallb p (take n t) = true /\ length (take n t) = n.
Proof.
  revert n. induction t as [|a t IH]; intros [|n] Hn; cbn [take_while length] in Hn;
    try done; try lia.
  cbn [take_while] in Hn. destruct (p a) eqn:Ha; cbn [length] in Hn; [|lia].
  destruct (IH n) as [Hall Hlen]; [lia|].
  cbn [take forallb length]. by rewrite Ha, Hall, Hlen.
Qed.

(** A token returned for a lower-cased text is a match of the expression
    and is left unchanged by [lower()]. *)
Lemma ranked_token_is_match (m : option ascii -> text -> option nat) (k : nat)
    (s w : string) :
  w ∈ (most_common k (Counter (findall m (py_lower s)))).*1 ->
  exists prev suf n,
    m prev suf = Some n /\ to_text w = take n suf /\ py_lower w = w.
Proof.
  intros Hw.
  destruct (most_common_ranked k (findall m (py_lower s))) as (_ & _ & Hin & _).
  apply Hin in Hw. unfold findall, py_lower in Hw. rewrite to_of_text in Hw.
  apply list_elem_of_fmap in Hw as (x & -> & Hx).
  apply findall_go_elem in Hx as (prev & suf & n & Hm & -> & Hsuf).
  exists prev, suf, n. rewrite to_of_text. repeat split; [done|].
  unfold py_lower. rewrite to_of_text. f_equal.
  assert (Hlow : Forall (fun c => lower_char c = c) (take n suf)).
  { apply Forall_take. destruct Hsuf as [pre Hpre].
    assert (Hall : Forall (fun c => lower_char c = c) (lower_char <$> to_text s)).
    { apply Forall_fmap, Forall_forall. intros c _. apply lower_char_idem. }
    rewrite Hpre in Hall. by apply Forall_app in Hall as [_ ?]. }
  induction Hlow as [|c l Hc _ IH]; [done|]. csimpl. by rewrite Hc, IH.
Qed.

(** X4: every key topic is a non-empty run of word characters in lower
    case. *)
Theorem key_topics_are_lowercase_words (s : string) :
  exists topics,
    extract_key_topics (PStr s) = Ok (str_list topics)
    /\ Forall (fun w => w ≠ ""
                        /\ forallb is_word (to_text w) = true
                        /\ py_lower w = w) topics.
Proof.
  eexists. split; [reflexivity|]. apply Forall_forall. intros w Hw.
  apply ranked_token_is_match in Hw as (prev & suf & n & Hm & Hw & Hlow).
  apply match_run_spec in Hm as (Hlo & _ & Hrun & _).
  destruct (take_take_while is_word suf n Hrun) as [Hall Hlen].
  rewrite Hw. repeat split; [|done|done].
  intros ->. rewrite <- Hw in Hlen. cbn in Hlen. lia.
Qed.

(** X5: every common phrase has between ten and thirty characters, each a
    word character or white space, and is in lower case. *)
Theorem common_phrases_are_bounded_runs (s : string) :
  exists phrases,
    extract_common_phrases (PStr s) = Ok (str_list phrases)
    /\ Forall (fun p => (10 <= length (to_text p) <= 30)%nat
                        /\ forallb (fun c => is_word c || is_space c) (to_text p)
                           = true
                        /\ py_lower p = p) phrases.
Proof.
  eexists. split; [reflexivity|]. apply Forall_forall. intros p Hp.
  apply ranked_token_is_match in Hp as (prev & suf & n & Hm & Hp & Hlow).
  apply match_run_spec in Hm as (Hlo & Hhi & Hrun & _).
  destruct (take_take_while _ suf n Hrun) as [Hall Hlen].
  rewrite Hp. repeat split; [lia|lia|done|done].
Qed.

Lemma split_ws_go_nil (cur : option text) (t : text) :
  split_ws_go cur t = [] -> cur = None /\ Forall (fun c => is_space c = true) t.
Proof.
  revert cur. induction t as [|c t IH]; intros cur; cbn [split_ws_go].
  - by destruct cur.
  - destruct (is_space c) eqn:Hc.
    + destruct cur; [done|]. intros [_ Ht]%IH. split; [done|by constructor].
    + by intros [? _]%IH.
Qed.

Lemma lower_space_not_word (c : ascii) :
  is_space c = true -> is_word (lower_char c) = false.
Proof. by destruct c as [[] [] [] [] [] [] [] []]. Qed.

(** Where no character is a word character, an expression that starts at a
    word boundary matches nowhere. *)
Lemma findall_go_no_word (m : option ascii -> text -> option nat) (skip : nat)
    (prev : option ascii) (t : text) :
  (forall prev t n, m prev t = Some n -> word_boundary prev (head t) = true) ->
  from_option is_word false prev = false ->
  Forall (fun c => is_word c = false) t ->
  findall_go m skip prev t = [].
Proof.
  intros Hm Hprev Ht. revert skip prev Hprev.
  induction Ht as [|c t Hc _ IH]; intros skip prev Hprev; [done|].
  cbn [findall_go]. destruct skip; [|by apply IH].
  destruct (m prev (c :: t)) as [n|] eqn:Hn; [|by apply IH].
  apply Hm in Hn. unfold word_boundary in Hn. cbn [head from_option] in Hn.
  by rewrite Hprev, Hc in Hn.
Qed.

Lemma no_words_no_tokens (cls : ascii -> bool) (lo : nat) (hi : text -> nat)
    (s : string) :
  length (py_split_ws s) = 0%nat ->
  findall (fun prev t => match_run cls lo (hi t) prev t) (py_lower s) = [].
Proof.
  unfold py_split_ws. rewrite length_fmap. intros Hlen.
  apply nil_length_inv, split_ws_go_nil in Hlen as [_ Hsp].
  unfold findall, py_lower. rewrite to_of_text.
  rewrite findall_go_no_word; [done| |done|].
  - intros prev t n Hn. by apply match_run_spec in Hn as (_ & _ & _ & ? & _).
  - apply Forall_fmap. eapply Forall_impl; [exact Hsp|].
    intros c Hc. by apply lower_space_not_word.
Qed.

Section AnalysisRelations.
Variable BeautifulSoup : pyval -> result soup.

(** What [analyze_content] returns: the empty dictionary, or the five
    fields computed from one and the same text. *)
Lemma analyze_content_cases (content a : pyval) :
  analyze_content BeautifulSoup content = Ok a ->
  a = PDict []
  \/ exists (s : string) (phrases structure topics elements : pyval),
       extract_common_phrases (PStr s) = Ok phrases
       /\ analyze_content_structure (PStr s) = Ok structure
       /\ extract_key_topics (PStr s) = Ok topics
       /\ a = PDict [("word_count", PInt (Z.of_nat (length (py_split_ws s))));
                     ("common_phrases", phrases);
                     ("content_structure", structure);
                     ("key_topics", topics);
                     ("content_elements", elements)].
Proof.
  unfold analyze_content.
  destruct (BeautifulSoup content) as [sp|]; cbn [mbind result_bind try_except];
    [|intros [= <-]; by left].
  destruct (get_text sp) as [t|] eqn:Ht; cbn [mbind result_bind try_except];
    [|intros [= <-]; by left].
  assert (Hbody : forall text_content : pyval,
    try_except
      (words ← str_method "split" text_content;
       common_phrases ← extract_common_phrases text_content;
       content_structure ← analyze_content_structure text_content;
       key_topics ← extract_key_topics text_content;
       content_elements ← identify_content_elements BeautifulSoup content;
       Ok (PDict [("word_count", PInt (Z.of_nat (length (py_split_ws words))));
                  ("common_phrases", common_phrases);
                  ("content_structure", content_structure);
                  ("key_topics", key_topics);
                  ("content_elements", content_elements)]))
      (fun _ => Ok (PDict [])) = Ok a ->
    a = PDict []
    \/ exists (s : string) (phrases structure topics elements : pyval),
         extract_common_phrases (PStr s) = Ok phrases
         /\ analyze_content_structure (PStr s) = Ok structure
         /\ extract_key_topics (PStr s) = Ok topics
         /\ a = PDict [("word_count", PInt (Z.of_nat (length (py_split_ws s))));
                       ("common_phrases", phrases);
                       ("content_structure", structure);
                       ("key_topics", topics);
                       ("content_elements", elements)]).
  { intros text_content.
    destruct text_content as [| | | |s| |];
      try (cbn [str_method mbind result_bind try_except]; intros [= <-]; by left).
    cbn [str_method mbind result_bind].
    destruct (extract_common_phrases_total (PStr s)) as (ps & Hps & _).
    destruct (analyze_content_structure_total (PStr s)) as (cs & Hcs).
    destruct (extract_key_topics_total (PStr s)) as (ks & Hks & _).
    destruct (identify_content_elements_total BeautifulSoup content) as (ce & Hce).
    rewrite Hps, Hcs, Hks, Hce. cbn [mbind result_bind try_except].
    intros [= <-]. right. by exists s, (PList ps), (PDict cs), (PList ks), (PDict ce). }
  case_bool_decide; cbn [fmap result_fmap mbind result_bind]; apply Hbody.
Qed.

(** X6: in every analysis that is not empty, the paragraphs are at least
    one, so the average never divides by zero, and the average paragraph
    length is the word count over the number of paragraphs: splitting at
    blank lines loses no word of the text. *)
Theorem analysis_average_is_word_count_per_paragraph (content a : pyval) :
  analyze_content BeautifulSoup content = Ok a ->
  a ≠ PDict [] ->
  exists words paragraphs : nat,
    (1 <= paragraphs)%nat
    /\ lookup_or PNone a "word_count" = PInt (Z.of_nat words)
    /\ lookup_or PNone a "content_structure"
       = PDict [("total_paragraphs", PInt (Z.of_nat paragraphs));
                ("avg_paragraph_length",
                 PFloat (Z.of_nat words) (Z.of_nat paragraphs))].
Proof.
  intros Ha Hne.
  apply analyze_content_cases in Ha
    as [->|(s & phrases & structure & topics & elements & _ & Hs & _ & ->)];
    [done|].
  rewrite analyze_content_structure_str in Hs. injection Hs as <-.
  exists (length (py_split_ws s)), (length (py_split (nl +:+ nl) s)).
  split; [apply py_split_nonempty|]. by split.
Qed.

(** X7: an analysis that counts no word has no key topic and no common
    phrase. *)
Theorem analysis_without_words_has_no_tokens (content a : pyval) :
  analyze_content BeautifulSoup content = Ok a ->
  lookup_or PNone a "word_count" = PInt 0 ->
  lookup_or PNone a "key_topics" = PList []
  /\ lookup_or PNone a "common_phrases" = PList [].
Proof.
  intros Ha Hw.
  apply analyze_content_cases in Ha
    as [->|(s & phrases & structure & topics & elements & Hp & _ & Ht & ->)];
    [done|].
  assert (Hlen : length (py_split_ws s) = 0%nat).
  { cbn in Hw. injection Hw as Hw. lia. }
  unfold extract_common_phrases, extract_key_topics, re_word, re_phrase in Hp, Ht.
  cbn [str_method mbind result_bind try_except] in Hp, Ht.
  rewrite (no_words_no_tokens _ _ (fun _ => 30%nat)) in Hp by done.
  rewrite (no_words_no_tokens _ _ (fun t => length t)) in Ht by done.
  injection Hp as <-. injection Ht as <-. by split.
Qed.
End AnalysisRelations.

Lemma analysis_average_is_word_count_per_paragraph_witness :
  analyze_content plain_parser sample_page = Ok sample_analysis
  /\ sample_analysis ≠ PDict []
  /\ exists words paragraphs : nat,
       (1 <= paragraphs)%nat
       /\ lookup_or PNone sample_analysis "word_count" = PInt (Z.of_nat words)
       /\ lookup_or PNone sample_analysis "content_structure"
          = PDict [("total_paragraphs", PInt (Z.of_nat paragraphs));
                   ("avg_paragraph_length",
                    PFloat (Z.of_nat words) (Z.of_nat paragraphs))].
Proof.
  split; [reflexivity|]. split; [discriminate|].
  apply (analysis_average_is_word_count_per_paragraph plain_parser sample_page);
    [reflexivity|discriminate].
Defined.

Lemma analysis_without_words_has_no_tokens_witness :
  analyze_content plain_parser blank_page = Ok blank_analysis
  /\ lookup_or PNone blank_analysis "word_count" = PInt 0
  /\ lookup_or PNone blank_analysis "key_topics" = PList []
  /\ lookup_or PNone blank_analysis "common_phrases" = PList [].
Proof.
  split; [reflexivity|]. split; [reflexivity|].
  apply (analysis_without_words_has_no_tokens plain_parser blank_page);
    reflexivity.
Defined.

(** ** Context assembly: which input can make it fail *)

Section ContextFailures.
Context {R : Repr}.

(** X8: on a search response of the documented shape, whatever the two
    profile arguments are: the competitor profiles never make
    [prepare_llm_context] or [generate_research_report] raise, a profile that
    cannot be formatted leaves their competitor section blank; the citation
    profiles are formatted unguarded, and their error is the error of
    [prepare_llm_context]. *)
Theorem context_fails_on_citations_only (self : analyzer) (timestamp : string)
    (scraped_data citation_data data : pyval) (deep_thinking : string) :
  context_shaped data = true ->
  prepare_llm_context self scraped_data data deep_thinking citation_data
  = (citations ← format_citation_data citation_data;
     Ok (llm_context_text (py_str (query_of data)) (article_intent self)
           (join ", " (secondary_keywords self))
           (join nl (top_article_line <$> take 5 (entries data "organic_results")))
           (join nl (paa_line <$> entries data "related_questions"))
           (join nl (related_line <$> entries data "related_searches"))
           (section_or_blank (format_citation_data scraped_data))
           deep_thinking citations))
  /\ generate_research_report timestamp deep_thinking scraped_data
     = Ok ("=== Research Report ===" +:+ nl +:+ nl
           +:+ "Deep Research Thinking Process:" +:+ nl
           +:+ deep_thinking +:+ nl +:+ nl
           +:+ "--- Competitor Content Analysis Summary ---" +:+ nl
           +:+ section_or_blank (format_citation_data scraped_data) +:+ nl +:+ nl
           +:+ "Generated on: " +:+ timestamp +:+ nl).
Proof.
  intros Hd. destruct data as [| | | | | |d]; try done.
  apply andb_prop in Hd as [Hs Hq].
  assert (Hcomp : format_competitor_content scraped_data
                  = Ok (section_or_blank (format_citation_data scraped_data))).
  { rewrite format_competitor_content_unfold.
    by destruct (format_citation_data scraped_data). }
  split.
  - unfold prepare_llm_context.
    rewrite extract_serp_data_ok by done. cbn [mbind result_bind].
    destruct (format_citation_data citation_data) as [citations|e];
      cbn [mbind result_bind]; [|done].
    pose proof (query_ok d Hq) as Hquery.
    destruct (py_get (PDict d) "search_parameters" (PDict [])) as [sp|] eqn:Hsp;
      [|done].
    cbn [mbind result_bind] in Hquery |- *. rewrite Hquery.
    cbn [mbind result_bind].
    match goal with
    | |- context [py_getitem (PDict [(_, ?a); (_, ?b); (_, ?c); (_, ?p)]) _] =>
        destruct (serp_analysis_items a b c p) as (-> & -> & ->)
    end.
    cbn [mbind result_bind].
    rewrite format_top_articles_ok. cbn [mbind result_bind].
    rewrite format_paa_questions_ok. cbn [mbind result_bind].
    rewrite format_related_searches_ok. cbn [mbind result_bind].
    by rewrite Hcomp.
  - unfold generate_research_report. by rewrite Hcomp.
Qed.
End ContextFailures.

Lemma context_fails_on_citations_only_witness :
  context_shaped scenario_serp = true
  /\ prepare_llm_context (R := plain_repr) scenario_analyzer malformed_profiles
       scenario_serp "Ratios depend on strength class." malformed_profiles
     = Raise (mk_exn AttributeError "'int' object has no attribute 'get'")
  /\ generate_research_report (R := plain_repr) "2025-03-01 10:00:00"
       "Ratios depend on strength class." malformed_profiles
     = Ok ("=== Research Report ===" +:+ nl +:+ nl
           +:+ "Deep Research Thinking Process:" +:+ nl
           +:+ "Ratios depend on strength class." +:+ nl +:+ nl
           +:+ "--- Competitor Content Analysis Summary ---" +:+ nl
           +:+ nl +:+ nl
           +:+ "Generated on: 2025-03-01 10:00:00" +:+ nl).
Proof.
  split; [reflexivity|].
  exact (context_fails_on_citations_only (R := plain_repr) scenario_analyzer
           "2025-03-01 10:00:00" malformed_profiles malformed_profiles
           scenario_serp "Ratios depend on strength class." eq_refl).
Defined.

(** ** The URLs [main] hands to the scraper *)

Lemma forallb_take {A} (p : A -> bool) (n : nat) (l : list A) :
  forallb p l = true -> forallb p (take n l) = true.
Proof.
  revert n. induction l as [|a l IH]; intros [|n]; try done.
  cbn [forallb take]. intros [-> Hl]%andb_prop. by apply IH.
Qed.

Lemma mapM_getitem (k : string) (l : list pyval) :
  forallb is_dict l = true ->
  mapM (fun r => py_getitem r k) l
  = if forallb (has_key k) l then Ok ((fun e => field e k) <$> l)
    else Raise (mk_exn KeyError ("'" +:+ k +:+ "'")).
Proof.
  induction l as [|e l IH]; [done|].
  intros [He Hl]%andb_prop. destruct e as [| | | | | |d]; try done.
  cbn [mapM forallb has_key py_getitem].
  destruct (dict_lookup d k) as [v|] eqn:Hk.
  - rewrite bool_decide_true by (by eexists).
    cbn [mbind result_bind andb default].
    rewrite IH by done. destruct (forallb (has_key k) l); [|done].
    cbn [mbind result_bind]. rewrite fmap_cons. cbn beta.
    replace (field (PDict d) k) with v; [done|].
    unfold field, lookup_or. by rewrite Hk.
  - rewrite bool_decide_false by (by intros [? ?]). done.
Qed.

(** X9: on a search response of the documented shape, the URLs that [main]
    hands to the scraper are the links of the first five results, provided
    each of the five has one; a result without a link makes the expression
    raise [KeyError], where [extract_organic_results] would have read the
    link as the empty string. *)
Theorem competitor_urls_need_links (data : pyval) :
  serp_shaped data = true ->
  competitor_urls data
  = if forallb (has_key "link") (take 5 (entries data "organic_results"))
    then Ok ((fun e => field e "link") <$> take 5 (entries data "organic_results"))
    else Raise (mk_exn KeyError "'link'").
Proof.
  intros Hd. destruct data as [| | | | | |d]; try done.
  apply andb_prop in Hd as [[Ho _]%andb_prop _].
  unfold competitor_urls, entries, key_ok in *. cbn [py_get mbind result_bind].
  destruct (dict_lookup d "organic_results") as [v|]; cbn [default from_option] in *;
    [|done].
  destruct v as [| | | | |l|]; try done.
  cbn [py_slice_to py_iter mbind result_bind]. cbn [list_of] in Ho.
  apply (mapM_getitem "link").
  by apply forallb_take.
Qed.

Lemma competitor_urls_need_links_witness :
  serp_shaped linkless_serp = true
  /\ competitor_urls linkless_serp = Raise (mk_exn KeyError "'link'")
  /\ (items ← extract_organic_results linkless_serp;
      first5 ← py_slice_to 5 items;
      results ← py_iter first5;
      mapM (fun r => py_getitem r "link") results)
     = Ok [PStr "https://example.com/ratios"; PStr ""].
Proof.
  split; [reflexivity|]. split; [|reflexivity].
  exact (competitor_urls_need_links linkless_serp eq_refl).
Defined.

Example competitor_urls_of_scenario :
  competitor_urls scenario_serp
  = Ok [PStr "https://example.com/ratios"; PStr "https://example.org/how-to";
        PStr "https://example.net/untitled"].
Proof. reflexivity. Qed.

(** ** Deep research *)

Lemma deep_thinking_of_shaped (out : pyval) :
  research_shaped out = true ->
  deep_thinking_of out = Ok (thinking_of out)
  /\ citation_urls_of out = Ok (lookup_or (PList []) out "citations").
Proof.
  destruct out as [| | | | | |d]; try done.
  unfold research_shaped, deep_thinking_of, thinking_of, first_choice, entries,
    citation_urls_of.
  cbn [py_get mbind result_bind lookup_or].
  destruct (dict_lookup d "choices") as [ch|]; [|done].
  destruct ch as [| | | | |[|[| | | | | |c] rest]|]; try done.
  cbn [default from_option id py_index0 mbind result_bind head py_get lookup_or].
  unfold key_ok. by destruct (dict_lookup c "message") as [[]|].
Qed.

Section ResearchFacts.
Context {Net : Type}.
Variable PERPLEXITY_API_KEY : string.
Variable requests_post : string -> string -> Net -> result response * Net.

(** X10: the research step makes one request and never waits or retries.
    Without a key it makes none and reports the missing key.  An exception
    of the request leaves the step as it is; a status other than 200, like
    a missing key, gives the placeholder text and no citation; an answer of
    the documented shape gives its first message and its citations. *)
Theorem research_inputs_outcomes (search_query : string) (w : world Net) :
  let reply := requests_post search_query PERPLEXITY_API_KEY (net w) in
  let out := research_inputs PERPLEXITY_API_KEY requests_post search_query w in
  (PERPLEXITY_API_KEY = "" ->
   out = (Ok (PStr no_research_output, PList []),
          mk_world (net w)
            (trace w ++ [StError "PERPLEXITY_API_KEY is not set in Streamlit secrets"])))
  /\ (PERPLEXITY_API_KEY ≠ "" ->
      out.2 = mk_world reply.2 (trace w)
      /\ (forall e, reply.1 = Raise e -> out.1 = Raise e)
      /\ (forall resp, reply.1 = Ok resp -> status_code resp ≠ 200 ->
            out.1 = Ok (PStr no_research_output, PList []))
      /\ (forall resp body,
            reply.1 = Ok resp -> status_code resp = 200 -> json resp = Ok body ->
            research_shaped body = true ->
            out.1 = Ok (thinking_of body, lookup_or (PList []) body "citations"))).
Proof.
  cbn zeta. unfold research_inputs, deep_research. split.
  - intros Hkey. by rewrite bool_decide_true.
  - intros Hkey. rewrite bool_decide_false by done.
    unfold mbind, io_mbind, io_bind, call, lift, io_ret.
    destruct (requests_post search_query PERPLEXITY_API_KEY (net w))
      as [[resp|e] n]; cbn [fst snd].
    + case_bool_decide as Hstatus.
      * destruct (json resp) as [body|e] eqn:Hjson.
        { split.
          { destruct (deep_thinking_of body); [|done].
            by destruct (citation_urls_of body). }
          split; [done|]. split; [by intros ? [= <-]|].
          intros resp' body' [= <-] _ Hbody Hshape.
          rewrite Hjson in Hbody. injection Hbody as <-.
          by destruct (deep_thinking_of_shaped body Hshape) as [-> ->]. }
        split; [done|]. split; [done|]. split; [by intros ? [= <-]|].
        intros resp' body' [= <-] _ Hbody. by rewrite Hjson in Hbody.
      * split; [done|]. split; [done|]. split; [done|].
        by intros ? ? [= <-] ?.
    + split; [done|]. split; [by intros ? [= <-]|]. done.
Qed.
End ResearchFacts.

Example research_refused :
  research_inputs "pplx-key" refusing_post "concrete mixing ratios"
    (mk_world 0%nat [])
  = (Ok (PStr no_research_output, PList []), mk_world 1%nat []).
Proof. reflexivity. Qed.

(** A 200 answer with an empty list of choices is outside the documented
    shape: reading its first choice raises. *)
Example research_without_choices :
  research_inputs "pplx-key" empty_choices_post "concrete mixing ratios"
    (mk_world 0%nat [])
  = (Raise (mk_exn Exception "list index out of range"), mk_world 1%nat []).
Proof. reflexivity. Qed.

(** ** The end of [main]: requests to the blog model *)

Section Requests.
Context {Net : Type}.

Lemma quiet_ret {A} (a : A) : quiet (io_ret (Net := Net) a).
Proof. by intros w. Qed.

Lemma quiet_lift {A} (r : result A) : quiet (lift (Net := Net) r).
Proof. by intros w. Qed.

Lemma quiet_emit (ev : event) : quiet (emit (Net := Net) ev).
Proof. by intros w. Qed.

Lemma quiet_bind {A B} (m : io Net A) (k : A -> io Net B) :
  quiet m -> (forall a, quiet (k a)) -> quiet (m ≫= k).
Proof.
  intros Hm Hk w. unfold mbind, io_mbind, io_bind.
  specialize (Hm w). destruct (m w) as [[a|e] w1]; cbn [snd] in *; [|done].
  by rewrite Hk.
Qed.

Lemma quiet_try {A} (m : io Net A) (h : exn -> io Net A) :
  quiet m -> (forall e, quiet (h e)) -> quiet (io_try m h).
Proof.
  intros Hm Hh w. unfold io_try.
  specialize (Hm w). destruct (m w) as [[a|e] w1]; cbn [snd] in *; [done|].
  by rewrite Hh.
Qed.

Lemma at_most_quiet {A B} (f : Net -> result B * Net) (m : io Net A) :
  quiet m -> at_most f m.
Proof. intros Hm w. by left. Qed.

Lemma at_most_bind_l {A B C} (f : Net -> result C * Net) (m : io Net A)
    (k : A -> io Net B) :
  at_most f m -> (forall a, quiet (k a)) -> at_most f (m ≫= k).
Proof.
  intros Hm Hk w. unfold mbind, io_mbind, io_bind.
  specialize (Hm w). destruct (m w) as [[a|e] w1]; cbn [snd] in *; [|done].
  by rewrite Hk.
Qed.

Lemma at_most_bind_r {A B C} (f : Net -> result C * Net) (m : io Net A)
    (k : A -> io Net B) :
  quiet m -> (forall a, at_most f (k a)) -> at_most f (m ≫= k).
Proof.
  intros Hm Hk w. unfold mbind, io_mbind, io_bind.
  specialize (Hm w). destruct (m w) as [[a|e] w1]; cbn [snd] in *; [|by left].
  specialize (Hk a w1). by rewrite Hm in Hk.
Qed.

Lemma at_most_try {A C} (f : Net -> result C * Net) (m : io Net A)
    (h : exn -> io Net A) :
  at_most f m -> (forall e, quiet (h e)) -> at_most f (io_try m h).
Proof.
  intros Hm Hh w. unfold io_try.
  specialize (Hm w). destruct (m w) as [[a|e] w1]; cbn [snd] in *; [done|].
  by rewrite Hh.
Qed.

Variable ANTHROPIC_API_KEY : string.
Variable messages_create : string -> Net -> result (option message) * Net.
Variable create_combined_pdf : string -> string -> option string -> string -> result string.
Variable clicked : string -> bool.
Variable pdf_stamp : string.

Lemma quiet_download_button (label data file_name done : string) :
  quiet (download_button (Net := Net) clicked label data file_name done).
Proof.
  apply quiet_bind; [apply quiet_emit|]. intros _.
  destruct (clicked label); [apply quiet_emit|apply quiet_ret].
Qed.

Lemma quiet_show_blog (blog_content : string) :
  quiet (show_blog (Net := Net) clicked blog_content).
Proof.
  apply quiet_bind; [apply quiet_emit|]. intros _.
  apply quiet_bind; intros; apply quiet_download_button.
Qed.

Lemma generate_blog_content_at_most (outline : string) (research : option string) :
  at_most (messages_create (blog_prompt outline research))
    (generate_blog_content ANTHROPIC_API_KEY messages_create outline research).
Proof.
  intros w. unfold generate_blog_content. case_bool_decide; [by left|].
  right. unfold io_try, mbind, io_mbind, io_bind, call, lift, io_ret.
  destruct (messages_create (blog_prompt outline research) (net w))
    as [[[[[|[text|] blocks]]|]|e] n]; done.
Qed.

Lemma generate_blog_content_quiet (outline : string) (research : option string) :
  ANTHROPIC_API_KEY = "" ->
  quiet (generate_blog_content ANTHROPIC_API_KEY messages_create outline research).
Proof.
  intros Hkey w. unfold generate_blog_content. by rewrite bool_decide_true.
Qed.
End Requests.

Section MainRequests.
Context {Net : Type}.
Variable ANTHROPIC_API_KEY : string.
Variable messages_create : string -> Net -> result (option message) * Net.
Variable create_combined_pdf : string -> string -> option string -> string -> result string.
Variable clicked : string -> bool.
Variable pdf_stamp : string.

Lemma io_try_emit_ok (m : io Net unit) (f : exn -> event) (w : world Net) :
  (io_try m (fun e => emit (f e)) w).1 = Ok tt.
Proof. unfold io_try. by destruct (m w) as [[[]|e] w1]. Qed.

Lemma at_most_lift_ok {A B C} (f : Net -> result C * Net) (a : A)
    (k : A -> io Net B) :
  at_most f (k a) -> at_most f (lift (Ok a) ≫= k).
Proof. intros Hk w. exact (Hk w). Qed.

Ltac quiet_steps :=
  repeat first
    [ apply quiet_ret | apply quiet_emit | apply quiet_lift
    | apply quiet_download_button | apply quiet_show_blog
    | apply generate_blog_content_quiet; assumption
    | apply quiet_bind; [|intros ?]
    | apply quiet_try; [|intros ?]
    | match goal with |- quiet (if ?b then _ else _) => destruct b end ].

(** What follows the third tab never asks the model. *)
Lemma quiet_pdf_section (search_query enhanced_outline research_report : string)
    (blog_content : option string) :
  quiet (Net := Net)
    (_ ← emit (StMarkdown "### Download Combined Report");
     if clicked "Generate Combined PDF" then
       io_try
         (pdf_bytes ← lift (create_combined_pdf enhanced_outline research_report
                              blog_content search_query);
          _ ← emit (StDownloadButton "Download Complete Report as PDF" pdf_bytes
                      ("seo_report_" +:+ pdf_stamp +:+ ".pdf"));
          emit (StSuccess "PDF generated successfully!"))
         (fun e =>
            _ ← emit (StError ("Error generating PDF: " +:+ exn_msg e));
            emit (StInfo
              "If you're seeing encoding errors, this might be due to special characters in the content."))
     else io_ret tt).
Proof. quiet_steps. Qed.

(** X11: the end of [main] never lets an exception out, and it asks the
    blog model at most once in a run, with the prompt built from the outline
    and the excerpt of the research report.  It does not ask at all when the
    key is missing, nor when automatic generation is off and "Generate Blog
    Content" has not been pressed. *)
Theorem main_asks_blog_model_at_most_once (search_query : string)
    (auto_generate : bool) (enhanced_outline research_report : string) :
  exists excerpt,
    extract_research_content research_report = Ok excerpt
    /\ let run := main_after_analysis ANTHROPIC_API_KEY messages_create
                    create_combined_pdf clicked pdf_stamp search_query
                    auto_generate enhanced_outline research_report in
       (forall w, (run w).1 = Ok tt)
       /\ at_most (messages_create (blog_prompt enhanced_outline (Some excerpt))) run
       /\ (ANTHROPIC_API_KEY = "" -> quiet run)
       /\ (auto_generate = false -> clicked "Generate Blog Content" = false ->
           quiet run).
Proof.
  eexists. split; [apply extract_research_content_eq|].
  cbn zeta. unfold main_after_analysis. rewrite extract_research_content_eq.
  set (excerpt := py_strip _).
  repeat split.
  - intros w. apply io_try_emit_ok.
  - apply at_most_try; [|intros e; apply quiet_emit].
    destruct (auto_generate && negb (bool_decide (ANTHROPIC_API_KEY = "")))
      eqn:Hauto.
    + apply andb_prop in Hauto as [-> _]. cbn [negb].
      apply at_most_bind_l.
      * apply at_most_lift_ok, at_most_bind_l; [|intros ?; apply quiet_ret].
        apply generate_blog_content_at_most.
      * intros blog. quiet_steps.
    + apply at_most_bind_r; [apply quiet_ret|]. intros blog.
      do 7 (apply at_most_bind_r; [quiet_steps|intros ?]).
      apply at_most_bind_l; [|intros ?; apply quiet_pdf_section].
      destruct (truthy blog); [apply at_most_quiet; quiet_steps|].
      destruct (negb auto_generate); [|apply at_most_quiet; quiet_steps].
      destruct (clicked "Generate Blog Content");
        [|apply at_most_quiet; quiet_steps].
      apply at_most_try; [|intros e; quiet_steps].
      apply at_most_lift_ok, at_most_bind_l; [|intros ?; quiet_steps].
      apply generate_blog_content_at_most.
  - intros Hkey. rewrite (bool_decide_true (ANTHROPIC_API_KEY = "")) by done.
    rewrite andb_false_r. quiet_steps.
  - intros -> Hclick. rewrite Hclick. cbn [andb negb]. quiet_steps.
Qed.
End MainRequests.

(** ** Rendering of the article *)

Lemma render_line_clean (line : string) :
  Forall (fun a => a ≠ lf) (to_text line) ->
  Forall (fun a => a ≠ lf) (to_text (render_line line)).
Proof.
  intros Hl. unfold render_line, drop_text.
  repeat match goal with
         | |- context [if ?b then _ else _] => destruct b
         end;
    rewrite ?to_text_app, ?to_of_text, ?Forall_app;
    repeat split; try (by apply Forall_drop); try done;
    by repeat (constructor; [done|]).
Qed.

(** X12: [format_blog_content] renders an article line by line: the lines
    of what it returns are the renderings of the lines of the article, one
    for one; no rendering holds a line feed. *)
Theorem format_blog_content_line_by_line (blog : string) :
  py_split nl (format_blog_content blog) = render_line <$> py_split nl blog
  /\ length (py_split nl (format_blog_content blog)) = length (py_split nl blog).
Proof.
  assert (Hlines : py_split nl (format_blog_content blog)
                   = render_line <$> py_split nl blog).
  { change (format_blog_content blog)
      with (join nl (render_line <$> py_split nl blog)).
    unfold py_split at 1. rewrite to_text_join.
    change (to_text nl) with [lf].
    pose proof (split_go_nonempty [lf] 0 [] (to_text blog)) as Hne.
    pose proof (split_go_clean lf [] (to_text blog) (Forall_nil_2 _)) as Hclean.
    unfold py_split. change (to_text nl) with [lf].
    destruct (split_go [lf] 0 [] (to_text blog)) as [|x ls]; [done|].
    rewrite <- !list_fmap_compose.
    rewrite (fmap_cons (to_text ∘ render_line ∘ of_text)).
    rewrite split_go_join.
    - rewrite !fmap_cons, <- list_fmap_compose. cbn [compose].
      f_equal; [apply of_to_text|].
      apply list_fmap_ext. intros i t _. cbn [compose]. apply of_to_text.
    - rewrite <- fmap_cons. apply Forall_fmap.
      eapply Forall_impl; [exact Hclean|]. intros t Ht. cbn [compose].
      apply render_line_clean. by rewrite to_of_text. }
  split; [done|]. by rewrite Hlines, length_fmap.
Qed.
